(** * AddonGrab: a shallow embedding of [extension.py]

    The program downloads a browser extension by identifier, strips the
    CRX3 header of a Chrome package and writes the archive to disk.  The
    embedding follows the source function by function: byte strings are
    lists of bytes, Python exceptions are values of a result type, and the
    effectful code (network, sleeping, file system, console) runs in a small
    state-and-exception monad over an explicit world. *)

From Stdlib Require Import ZArith Lia List String Ascii.
From Stdlib Require Import Init.Byte.
From stdpp Require Import base option list strings gmap pretty.

Local Open Scope Z_scope.

(** ** Python exceptions *)

Module Py.

(** The exception classes the program names or can meet.  [StructError] is
    [struct.error]. *)
Inductive exn_class : Set :=
  | Exception
  | OSError
  | URLError
  | HTTPError
  | FileNotFoundError
  | ValueError
  | JSONDecodeError
  | UnicodeDecodeError
  | RuntimeError
  | AttributeError
  | TypeError
  | KeyError
  | IndexError
  | StructError.

Definition exn_class_eqb (c d : exn_class) : bool :=
  match c, d with
  | Exception, Exception | OSError, OSError | URLError, URLError
  | HTTPError, HTTPError | FileNotFoundError, FileNotFoundError
  | ValueError, ValueError | JSONDecodeError, JSONDecodeError
  | UnicodeDecodeError, UnicodeDecodeError | RuntimeError, RuntimeError
  | AttributeError, AttributeError | TypeError, TypeError
  | KeyError, KeyError | IndexError, IndexError
  | StructError, StructError => true
  | _, _ => false
  end.

(** The direct base class of each class, as in the Python library. *)
Definition base_class (c : exn_class) : option exn_class :=
  match c with
  | Exception => None
  | URLError => Some OSError
  | HTTPError => Some URLError
  | FileNotFoundError => Some OSError
  | JSONDecodeError => Some ValueError
  | UnicodeDecodeError => Some ValueError
  | OSError | ValueError | RuntimeError | AttributeError | TypeError
  | KeyError | IndexError | StructError => Some Exception
  end.

Fixpoint issubclass_fuel (fuel : nat) (c d : exn_class) : bool :=
  exn_class_eqb c d ||
  match fuel with
  | O => false
  | S fuel' =>
      match base_class c with
      | Some b => issubclass_fuel fuel' b d
      | None => false
      end
  end.

(** The hierarchy is four classes deep at most. *)
Definition issubclass : exn_class -> exn_class -> bool := issubclass_fuel 4.

(** A raised exception: an instance of a class with its [str()], or the
    [SystemExit] of [sys.exit(code)], which is not an [Exception]. *)
Inductive exn : Set :=
  | Exn (c : exn_class) (msg : string)
  | SystemExit (code : Z).

(** [str(e)] *)
Definition exn_str (e : exn) : string :=
  match e with
  | Exn _ msg => msg
  | SystemExit code => pretty code
  end.

(** [isinstance(e, cs)] for a tuple of classes [cs]: the test of an
    [except cs] clause. *)
Definition isinstance (e : exn) (cs : list exn_class) : bool :=
  match e with
  | Exn c _ => existsb (issubclass c) cs
  | SystemExit _ => false
  end.

Inductive result (A : Type) : Type :=
  | Ok (a : A)
  | Raise (e : exn).

Arguments Ok {A} a.
Arguments Raise {A} e.

(** What a library function or the network gives: a value, or an exception
    of a class of the hierarchy above ([SystemExit] is raised by [sys.exit]
    only). *)
Inductive lib_result (A : Type) : Type :=
  | Gives (a : A)
  | Throws (c : exn_class) (msg : string).

Arguments Gives {A} a.
Arguments Throws {A} c msg.

Definition of_lib {A} (r : lib_result A) : result A :=
  match r with
  | Gives a => Ok a
  | Throws c msg => Raise (Exn c msg)
  end.

End Py.

Import Py.

(** ** Byte strings *)

Definition bytes : Type := list byte.

(** [b[lo:hi]] for literal bounds [0 <= lo <= hi]; Python clips at the end. *)
Definition slice (lo hi : nat) (b : bytes) : bytes :=
  firstn (hi - lo) (skipn lo b).

(** The value of a byte string read as a little-endian unsigned integer. *)
Fixpoint le_uint (b : bytes) : Z :=
  match b with
  | [] => 0
  | x :: b' => Z.of_N (Byte.to_N x) + 256 * le_uint b'
  end.

(** [struct.unpack("<I", b)[0]]: four bytes exactly, or [struct.error]. *)
Definition struct_unpack_I (b : bytes) : result Z :=
  match b with
  | [_; _; _; _] => Ok (le_uint b)
  | _ => Raise (Exn StructError "unpack requires a buffer of 4 bytes")
  end.

(** [b"Cr24"] *)
Definition Cr24 : bytes := [x43; x72; x32; x34].

Fixpoint bytes_eqb (a b : bytes) : bool :=
  match a, b with
  | [], [] => true
  | x :: a', y :: b' => Byte.eqb x y && bytes_eqb a' b'
  | _, _ => false
  end.

(** ** The package normalizer: [crx_to_zip] *)

Definition crx_to_zip (crx_data : bytes) : result bytes :=
  if negb (bytes_eqb (slice 0 4 crx_data) Cr24) then
    Raise (Exn ValueError "Invalid CRX file: missing 'Cr24' header")
  else if Z.of_nat (length crx_data) <? 12 then
    Raise (Exn ValueError "Invalid CRX file: file too short")
  else
    match struct_unpack_I (slice 8 12 crx_data) with
    | Raise e => Raise e
    | Ok n =>
        let header_len := n + 12 in
        if header_len >? Z.of_nat (length crx_data) then
          Raise (Exn ValueError "Invalid CRX file: header length exceeds file size")
        else Ok (skipn (Z.to_nat header_len) crx_data)
    end.

(** ** Regular expressions, as Python's [re] matches them

    Only the constructs of the three patterns of [validate_extension_id]:
    anchors, literals, character classes, sequence, alternation, [*] and
    [{n}].  No flag is set, so [^] matches at the start of the string only
    and [$] at the end of the string or just before a newline that is its
    last character. *)

Module Re.

Inductive regex : Set :=
  | Bol
  | Eol
  | Lit (c : ascii)
  | Class (ranges : list (ascii * ascii))
  | Seq (r1 r2 : regex)
  | Alt (r1 r2 : regex)
  | Star (r : regex)
  | Rep (n : nat) (r : regex).

Definition in_range (c : ascii) (rg : ascii * ascii) : bool :=
  (nat_of_ascii (fst rg) <=? nat_of_ascii c)%nat &&
  (nat_of_ascii c <=? nat_of_ascii (snd rg))%nat.

Definition in_class (ranges : list (ascii * ascii)) (c : ascii) : bool :=
  existsb (in_range c) ranges.

Definition newline : ascii := "010"%char.

(** Backtracking matcher in continuation style: [rmatch r pos s k] holds
    when [r] matches a prefix of [s], which starts at offset [pos] of the
    subject, and [k] accepts the offset and the text after that prefix. *)
Fixpoint rmatch (r : regex) (pos : nat) (s : list ascii)
    (k : nat -> list ascii -> bool) {struct r} : bool :=
  match r with
  | Bol => (pos =? 0)%nat && k pos s
  | Eol =>
      match s with
      | [] => k pos s
      | [c] => Ascii.eqb c newline && k pos s
      | _ => false
      end
  | Lit c =>
      match s with
      | x :: s' => Ascii.eqb x c && k (S pos) s'
      | [] => false
      end
  | Class ranges =>
      match s with
      | x :: s' => in_class ranges x && k (S pos) s'
      | [] => false
      end
  | Seq r1 r2 => rmatch r1 pos s (fun p s' => rmatch r2 p s' k)
  | Alt r1 r2 => rmatch r1 pos s k || rmatch r2 pos s k
  | Star r1 =>
      (fix loop (fuel : nat) (p : nat) (t : list ascii) {struct fuel} : bool :=
         k p t ||
         match fuel with
         | O => false
         | S fuel' =>
             rmatch r1 p t
               (fun p' t' => (length t' <? length t)%nat && loop fuel' p' t')
         end) (length s) pos s
  | Rep n r1 =>
      (fix rep (m : nat) (p : nat) (t : list ascii) {struct m} : bool :=
         match m with
         | O => k p t
         | S m' => rmatch r1 p t (fun p' t' => rep m' p' t')
         end) n pos s
  end.

(** [bool(re.match(r, s))]: a match anchored at offset 0. *)
Definition re_match (r : regex) (s : string) : bool :=
  rmatch r 0 (list_ascii_of_string s) (fun _ _ => true).

Fixpoint sequence (rs : list regex) : regex :=
  match rs with
  | [] => Rep 0 Bol
  | [r] => r
  | r :: rs' => Seq r (sequence rs')
  end.

End Re.

Import Re.

(** ** The identifier validator: [validate_extension_id] *)

Definition lower_alnum : regex := Class [("a", "z"); ("0", "9")]%char.
Definition lower_hex : regex := Class [("a", "f"); ("0", "9")]%char.
Definition alnum : regex := Class [("a", "z"); ("A", "Z"); ("0", "9")]%char.
Definition slug_inner : regex :=
  Class [("a", "z"); ("A", "Z"); ("0", "9");
         ("_", "_"); (".", "."); ("@", "@"); ("-", "-")]%char.

(** [r'^[a-z0-9]{32}$'] *)
Definition chrome_pattern : regex :=
  sequence [Bol; Rep 32 lower_alnum; Eol].

(** [r'^\{[a-f0-9]{8}-[a-f0-9]{4}-[a-f0-9]{4}-[a-f0-9]{4}-[a-f0-9]{12}\}$'] *)
Definition guid_pattern : regex :=
  sequence [Bol; Lit "{"; Rep 8 lower_hex; Lit "-"; Rep 4 lower_hex; Lit "-";
       Rep 4 lower_hex; Lit "-"; Rep 4 lower_hex; Lit "-"; Rep 12 lower_hex;
       Lit "}"; Eol]%char.

(** [r'^[a-zA-Z0-9][a-zA-Z0-9_.@-]*[a-zA-Z0-9]$|^[a-zA-Z0-9]$'] *)
Definition slug_pattern : regex :=
  Alt (sequence [Bol; alnum; Star slug_inner; alnum; Eol])
      (sequence [Bol; alnum; Eol]).

Definition validate_extension_id (ext_id platform : string) : bool :=
  if String.eqb platform "chrome" then re_match chrome_pattern ext_id
  else if String.eqb platform "firefox" then
    re_match guid_pattern ext_id || re_match slug_pattern ext_id
  else false.

(** ** Values decoded from JSON

    What [json.loads] returns, with the operations the program applies to
    it.  A number is kept by what the program can observe of it: whether it
    is zero (truthiness) and how it prints.  An object is an association
    list, looked up by its first matching key. *)

Module Json.

#[local] Set Warnings "-register-all".

Inductive value : Type :=
  | JNull
  | JBool (b : bool)
  | JNum (nonzero : bool) (repr : string)
  | JStr (s : string)
  | JArr (items : list value)
  | JObj (fields : list (string * value)).

Fixpoint assoc (key : string) (fields : list (string * value)) : option value :=
  match fields with
  | [] => None
  | (k, v) :: fields' => if String.eqb k key then Some v else assoc key fields'
  end.

(** [bool(v)] *)
Definition truthy (v : value) : bool :=
  match v with
  | JNull => false
  | JBool b => b
  | JNum nonzero _ => nonzero
  | JStr s => negb (String.eqb s EmptyString)
  | JArr items => match items with [] => false | _ => true end
  | JObj fields => match fields with [] => false | _ => true end
  end.

(** [v.get(key, default)]: only a dict has the method. *)
Definition get (v : value) (key : string) (default : value) : result value :=
  match v with
  | JObj fields =>
      match assoc key fields with
      | Some x => Ok x
      | None => Ok default
      end
  | _ => Raise (Exn AttributeError "object has no attribute 'get'")
  end.

(** [v == s] for a string [s] *)
Definition eq_str (v : value) (s : string) : bool :=
  match v with
  | JStr t => String.eqb t s
  | _ => false
  end.

Definition chars (s : string) : list value :=
  map (fun c => JStr (String c EmptyString)) (list_ascii_of_string s).

(** The items a [for] loop over [v] visits. *)
Definition iter (v : value) : result (list value) :=
  match v with
  | JArr items => Ok items
  | JObj fields => Ok (map (fun kv => JStr (fst kv)) fields)
  | JStr s => Ok (chars s)
  | _ => Raise (Exn TypeError "object is not iterable")
  end.

(** [v[0]] *)
Definition item0 (v : value) : result value :=
  match v with
  | JArr (x :: _) => Ok x
  | JArr [] => Raise (Exn IndexError "list index out of range")
  | JStr s =>
      match chars s with
      | x :: _ => Ok x
      | [] => Raise (Exn IndexError "string index out of range")
      end
  | JObj _ => Raise (Exn KeyError "0")
  | _ => Raise (Exn TypeError "object is not subscriptable")
  end.

(** [v[key]] for a string [key] *)
Definition item (v : value) (key : string) : result value :=
  match v with
  | JObj fields =>
      match assoc key fields with
      | Some x => Ok x
      | None => Raise (Exn KeyError key)
      end
  | JArr _ => Raise (Exn TypeError "list indices must be integers or slices, not str")
  | JStr _ => Raise (Exn TypeError "string indices must be integers, not 'str'")
  | _ => Raise (Exn TypeError "object is not subscriptable")
  end.

End Json.

Import Json.

(** ** The world the program runs in *)

Record request : Type := Request {
  req_url : string;
  req_headers : list (string * string);
  req_timeout : Z
}.

(** A response object: [status], [reason], the [content-length] header when
    there is one, and what reading the body gives: the bytes, or the
    exception the read raises. *)
Record response : Type := Response {
  status : Z;
  reason : string;
  content_length : option string;
  body : bytes;
  read_error : option (exn_class * string)
}.

(** What the network does with one request: the request fails (no
    connection, a timeout), or a response comes back, of whatever status. *)
Inductive net_outcome : Type :=
  | NetRaise (c : exn_class) (msg : string)
  | NetResp (r : response).

(** [urllib] gives a response whose status is outside 200..299 to its error
    handlers, and these raise [HTTPError] when no redirect is left to
    follow; so [urlopen] returns responses of a status in 200..299 only.
    The [str()] of the exception is ["HTTP Error {code}: {reason}"]. *)
Definition error_status (r : response) : bool :=
  negb ((200 <=? status r) && (status r <? 300)).

Definition http_error_str (r : response) : string :=
  "HTTP Error " +:+ pretty (status r) +:+ ": " +:+ reason r.

(** What [urlopen] makes of what the network did. *)
Definition opened (o : net_outcome) : net_outcome :=
  match o with
  | NetRaise c msg => NetRaise c msg
  | NetResp r =>
      if error_status r then NetRaise HTTPError (http_error_str r)
      else NetResp r
  end.

Inductive log_level : Set := INFO | WARNING | ERROR.

Definition level_num (l : log_level) : Z :=
  match l with INFO => 20 | WARNING => 30 | ERROR => 40 end.

(** The parts of the environment the program reads but does not own: the
    network, the library functions it calls on data, and the optional
    [tqdm] import. *)
Record env : Type := Env {
  (** what the network does with the [n]-th request of the run (from 0) *)
  net : nat -> request -> net_outcome;
  (** [json.loads(b.decode('utf-8'))] *)
  json_loads : bytes -> lib_result value;
  (** [str(v)] of a decoded value that is not a string *)
  py_repr : value -> string;
  (** [int(s)] of a header value *)
  py_int : string -> lib_result Z;
  (** whether [import tqdm] succeeded *)
  tqdm_installed : bool;
  (** the text of a file opened in mode ["r"] with these bytes *)
  decode_text : bytes -> lib_result string;
  (** the exception [write_bytes] raises on a path, if it does *)
  write_error : string -> option (exn_class * string);
  (** [str(Path(p).resolve())] *)
  resolve : string -> string
}.

(** The state the program changes: the requests sent so far, the sleeps
    taken, the files, what was printed and logged, the progress-bar updates
    and the threshold of the root logger. *)
Record world : Type := World {
  net_log : list request;
  slept : list Z;
  fs : gmap string bytes;
  stdout : list string;
  log : list (log_level * string);
  progress : list Z;
  threshold : log_level
}.

Definition with_net_log (f : list request -> list request) (w : world) : world :=
  World (f (net_log w)) (slept w) (fs w) (stdout w) (log w) (progress w) (threshold w).
Definition with_slept (f : list Z -> list Z) (w : world) : world :=
  World (net_log w) (f (slept w)) (fs w) (stdout w) (log w) (progress w) (threshold w).
Definition with_fs (f : gmap string bytes -> gmap string bytes) (w : world) : world :=
  World (net_log w) (slept w) (f (fs w)) (stdout w) (log w) (progress w) (threshold w).
Definition with_stdout (f : list string -> list string) (w : world) : world :=
  World (net_log w) (slept w) (fs w) (f (stdout w)) (log w) (progress w) (threshold w).
Definition with_log (f : list (log_level * string) -> list (log_level * string))
    (w : world) : world :=
  World (net_log w) (slept w) (fs w) (stdout w) (f (log w)) (progress w) (threshold w).
Definition with_progress (f : list Z -> list Z) (w : world) : world :=
  World (net_log w) (slept w) (fs w) (stdout w) (log w) (f (progress w)) (threshold w).
Definition with_threshold (l : log_level) (w : world) : world :=
  World (net_log w) (slept w) (fs w) (stdout w) (log w) (progress w) l.

(** A fresh process: nothing sent, slept, printed or logged; the root logger
    at its default level. *)
Definition initial_world (files : gmap string bytes) : world :=
  World [] [] files [] [] [] WARNING.

(** ** The monad of effectful code: state and exceptions *)

Definition M (A : Type) : Type := world -> result A * world.

Definition ret {A} (a : A) : M A := fun w => (Ok a, w).

Definition bind {A B} (m : M A) (f : A -> M B) : M B :=
  fun w =>
    match m w with
    | (Ok a, w') => f a w'
    | (Raise e, w') => (Raise e, w')
    end.

Definition raise {A} (e : exn) : M A := fun w => (Raise e, w).

(** A pure computation that can raise. *)
Definition lift {A} (r : result A) : M A := fun w => (r, w).

(** [try: m  except cs as e: h e] *)
Definition try_except {A} (m : M A) (cs : list exn_class) (h : exn -> M A) : M A :=
  fun w =>
    match m w with
    | (Raise e, w') => if isinstance e cs then h e w' else (Raise e, w')
    | r => r
    end.

Declare Scope py_scope.
Delimit Scope py_scope with py.
Notation "'let*' x ':=' m 'in' k" := (bind m (fun x => k))
  (at level 10, x name, m at level 100, k at level 200) : py_scope.
Notation "'run' m 'in' k" := (bind m (fun _ => k))
  (at level 10, m at level 100, k at level 200) : py_scope.
Local Open Scope py_scope.

Section Primitives.

Context (E : env).

(** [urlopen(req, timeout=...)]: the request is recorded and the network
    answers for this call; an error status is raised as [HTTPError]. *)
Definition urlopen (req : request) : M response :=
  fun w =>
    let w' := with_net_log (fun l => l ++ [req]) w in
    match opened (net E (length (net_log w)) req) with
    | NetRaise c msg => (Raise (Exn c msg), w')
    | NetResp r => (Ok r, w')
    end.

(** [time.sleep(seconds)] *)
Definition sleep (seconds : Z) : M unit :=
  fun w => (Ok tt, with_slept (fun l => l ++ [seconds]) w).

(** [logging.info], [logging.warning], [logging.error]: a record below the
    threshold of the root logger is dropped. *)
Definition logging (l : log_level) (msg : string) : M unit :=
  fun w =>
    if level_num (threshold w) <=? level_num l
    then (Ok tt, with_log (fun lg => lg ++ [(l, msg)]) w)
    else (Ok tt, w).

(** [print(msg)] *)
Definition print (msg : string) : M unit :=
  fun w => (Ok tt, with_stdout (fun o => o ++ [msg]) w).

(** [sys.exit(code)] *)
Definition sys_exit {A} (code : Z) : M A := raise (SystemExit code).

(** [resp.read()] *)
Definition resp_read (resp : response) : M bytes :=
  match read_error resp with
  | Some (c, msg) => raise (Exn c msg)
  | None => ret (body resp)
  end.

(** [p.exists()], by the file map.  A path the system cannot examine (a
    name too long, a directory that may not be searched), for which
    [exists] raises [OSError], is not in the model. *)
Definition path_exists (p : string) : M bool :=
  fun w => (Ok (bool_decide (is_Some (fs w !! p))), w).

(** [p.write_bytes(data)]: the file holds [data], or the write raises and
    the file is as it was.  A write that fails after the file was opened,
    and so truncated, is not in the model. *)
Definition write_bytes (p : string) (data : bytes) : M unit :=
  match write_error E p with
  | Some (c, msg) => raise (Exn c msg)
  | None => fun w => (Ok tt, with_fs (fun m => <[p := data]> m) w)
  end.

End Primitives.

(** ** Strings

    A Python [str] is modelled by its UTF-8 encoding.  The patterns of the
    validator and the separators of the batch argument are ASCII, so they
    act on the encoding as they do on the characters. *)

Definition str_nonempty (s : string) : bool :=
  negb (String.eqb s EmptyString).

(** Truthiness of an optional string argument: [None] and the empty string
    are false. *)
Definition opt_truthy (o : option string) : bool :=
  match o with
  | Some s => str_nonempty s
  | None => false
  end.

(** The encodings of the characters for which [str.isspace()] holds. *)
Definition whitespace : list (list ascii) :=
  map list_ascii_of_string
    [String "009" EmptyString; String "010" EmptyString;
     String "011" EmptyString; String "012" EmptyString;
     String "013" EmptyString; String "028" EmptyString;
     String "029" EmptyString; String "030" EmptyString;
     String "031" EmptyString; String " " EmptyString;
     String "194" (String "133" EmptyString);
     String "194" (String "160" EmptyString);
     String "225" (String "154" (String "128" EmptyString));
     String "226" (String "128" (String "128" EmptyString));
     String "226" (String "128" (String "129" EmptyString));
     String "226" (String "128" (String "130" EmptyString));
     String "226" (String "128" (String "131" EmptyString));
     String "226" (String "128" (String "132" EmptyString));
     String "226" (String "128" (String "133" EmptyString));
     String "226" (String "128" (String "134" EmptyString));
     String "226" (String "128" (String "135" EmptyString));
     String "226" (String "128" (String "136" EmptyString));
     String "226" (String "128" (String "137" EmptyString));
     String "226" (String "128" (String "138" EmptyString));
     String "226" (String "128" (String "168" EmptyString));
     String "226" (String "128" (String "169" EmptyString));
     String "226" (String "128" (String "175" EmptyString));
     String "226" (String "129" (String "159" EmptyString));
     String "227" (String "128" (String "128" EmptyString))]%char.

Fixpoint ascii_list_eqb (a b : list ascii) : bool :=
  match a, b with
  | [], [] => true
  | x :: a', y :: b' => Ascii.eqb x y && ascii_list_eqb a' b'
  | _, _ => false
  end.

(** The text after a leading [p], when [s] starts with [p]. *)
Fixpoint strip_prefix (p s : list ascii) : option (list ascii) :=
  match p, s with
  | [], _ => Some s
  | x :: p', y :: s' => if Ascii.eqb x y then strip_prefix p' s' else None
  | _ :: _, [] => None
  end.

(** One leading character of the set [ws] removed, if there is one. *)
Fixpoint drop_one (ws : list (list ascii)) (s : list ascii) : option (list ascii) :=
  match ws with
  | [] => None
  | p :: ws' =>
      match strip_prefix p s with
      | Some s' => Some s'
      | None => drop_one ws' s
      end
  end.

(** [lstrip]: a character of [ws] is not empty, so [length s] removals are
    enough. *)
Fixpoint lstrip_fuel (fuel : nat) (ws : list (list ascii)) (s : list ascii)
    : list ascii :=
  match fuel with
  | O => s
  | S fuel' =>
      match drop_one ws s with
      | Some s' => lstrip_fuel fuel' ws s'
      | None => s
      end
  end.

Definition lstrip (ws : list (list ascii)) (s : list ascii) : list ascii :=
  lstrip_fuel (length s) ws s.

(** [s.strip()] *)
Definition str_strip (s : string) : string :=
  let l := lstrip whitespace (list_ascii_of_string s) in
  let r := lstrip (map (@rev ascii) whitespace) (rev l) in
  string_of_list_ascii (rev r).

(** [sep in s] for a one-character [sep] *)
Definition str_contains (sep : ascii) (s : string) : bool :=
  existsb (Ascii.eqb sep) (list_ascii_of_string s).

(** [s.split(sep)] for a one-character [sep]: the fields between the
    separators, of which there is always one at least. *)
Fixpoint split_chars (sep : ascii) (cur : list ascii) (s : list ascii)
    : list string :=
  match s with
  | [] => [string_of_list_ascii (rev cur)]
  | c :: s' =>
      if Ascii.eqb c sep
      then string_of_list_ascii (rev cur) :: split_chars sep [] s'
      else split_chars sep (c :: cur) s'
  end.

Definition str_split (sep : ascii) (s : string) : list string :=
  split_chars sep [] (list_ascii_of_string s).

(** The lines a text file yields when iterated, with universal newlines:
    a line ends after a line feed, a carriage return, or the pair. *)
Fixpoint lines_chars (cur : list ascii) (s : list ascii) : list string :=
  match s with
  | [] => match cur with
          | [] => []
          | _ => [string_of_list_ascii (rev cur)]
          end
  | c :: s' =>
      if Ascii.eqb c "010" then
        string_of_list_ascii (rev (c :: cur)) :: lines_chars [] s'
      else if Ascii.eqb c "013" then
        string_of_list_ascii (rev (newline :: cur)) ::
        match s' with
        | c' :: s'' => if Ascii.eqb c' "010" then lines_chars [] s''
                       else lines_chars [] s'
        | [] => []
        end
      else lines_chars (c :: cur) s'
  end.

Definition text_lines (text : string) : list string :=
  lines_chars [] (list_ascii_of_string text).

(** [[x.strip() for x in xs if x.strip()]] *)
Definition stripped_nonempty (xs : list string) : list string :=
  map str_strip (filter (fun x => Is_true (str_nonempty (str_strip x))) xs).

(** [sep.join(items)]: every item must be a [str]. *)
Fixpoint str_join (sep : string) (items : list value) : result string :=
  match items with
  | [] => Ok EmptyString
  | [JStr s] => Ok s
  | JStr s :: rest =>
      match str_join sep rest with
      | Ok t => Ok (s +:+ sep +:+ t)
      | Raise e => Raise e
      end
  | _ :: _ => Raise (Exn TypeError "sequence item: expected str instance")
  end.

(** ** The network functions *)

(** How a pass of a retry loop ends when it does not raise: the function
    returns, or the loop goes round again. *)
Inductive flow (A : Type) : Type :=
  | Return (a : A)
  | Continue.

Arguments Return {A} a.
Arguments Continue {A}.

Section Program.

Context (E : env).

(** [str(v)], as an f-string or [str.format] prints a value. *)
Definition py_str (v : value) : string :=
  match v with
  | JStr s => s
  | _ => py_repr E v
  end.

(** [CRX_URL.format(ver=ver, id=id)] *)
Definition CRX_URL (ver id : string) : string :=
  "https://clients2.google.com/service/update2/crx?" +:+
  "response=redirect&prodversion=" +:+ ver +:+ "&acceptformat=crx2,crx3&" +:+
  "x=id%3D" +:+ id +:+ "%26installsource%3Dondemand%26uc".

Definition chrome_user_agent : string :=
  "Mozilla/5.0 (Windows NT 10.0; Win64; x64) AppleWebKit/537.36 (KHTML, like Gecko) Chrome/119.0.0.0 Safari/537.36".

Definition firefox_user_agent : string :=
  "Mozilla/5.0 (Windows NT 10.0; Win64; x64; rv:109.0) Gecko/20100101 Firefox/115.0".

Definition crx_request (extension_id : string) (chrome_ver : value) : request :=
  Request (CRX_URL (py_str chrome_ver) extension_id)
          [("User-Agent", chrome_user_agent)] 30.

(** [download_crx]: one request; any status but 200 raises [RuntimeError]. *)
Definition download_crx (extension_id : string) (chrome_ver : value) : M bytes :=
  let* resp := urlopen E (crx_request extension_id chrome_ver) in
  if status resp =? 404 then
    raise (Exn RuntimeError "Extension not found or invalid ID.")
  else if negb (status resp =? 200) then
    raise (Exn RuntimeError
             ("HTTP " +:+ pretty (status resp) +:+ ": " +:+ reason resp))
  else resp_read resp.

(** The loop [while attempt < 3] of [download_crx_with_retry].  A pass either
    leaves the function or adds one to [attempt], so the loop is counted
    down by the passes it has left: [attempt = 3 - left].  With none left
    the condition is false and the statement after the loop runs. *)
Fixpoint download_crx_loop (left : nat) (extension_id : string)
    (chrome_ver : value) : M bytes :=
  match left with
  | O => raise (Exn RuntimeError "Unreachable")
  | S left' =>
      let attempt := 3 - Z.of_nat left in
      let* r :=
        try_except
          (let* data := download_crx extension_id chrome_ver in
           ret (Return data))
          [URLError; OSError]
          (fun e =>
             let attempt := attempt + 1 in
             if attempt =? 3 then
               raise (Exn RuntimeError
                        ("Failed to download after 3 attempts: " +:+ exn_str e))
             else
               run logging WARNING
                     ("Attempt " +:+ pretty attempt +:+ " failed: " +:+
                      exn_str e +:+ ". Retrying in " +:+
                      pretty (2 ^ (attempt - 1)) +:+ " seconds...") in
               run sleep (2 ^ (attempt - 1)) in
               ret Continue) in
      match r with
      | Return data => ret data
      | Continue => download_crx_loop left' extension_id chrome_ver
      end
  end.

Definition download_crx_with_retry (extension_id : string) (chrome_ver : value)
    : M bytes :=
  download_crx_loop 3 extension_id chrome_ver.

(** *** [get_latest_chrome_version] *)

Definition fallback_version : value := JStr "119.0.6045.0".

(** The [for entry in data] loop, which returns from the function at the
    first entry that qualifies. *)
Fixpoint scan_entries (entries : list value) : M value :=
  match entries with
  | [] => ret fallback_version
  | entry :: rest =>
      let* os := lift (get entry "os" JNull) in
      let* hit :=
        if eq_str os "win64" then
          let* channel := lift (get entry "channel" JNull) in
          ret (eq_str channel "stable")
        else ret false in
      if hit then
        let* versions := lift (get entry "versions" (JArr [])) in
        if truthy versions then
          let* first := lift (item0 versions) in
          lift (item first "version")
        else scan_entries rest
      else scan_entries rest
  end.

Definition get_latest_chrome_version : M value :=
  try_except
    (let* resp := urlopen E (Request "https://omahaproxy.appspot.com/all.json" [] 10) in
     let* raw := resp_read resp in
     let* data := lift (of_lib (json_loads E raw)) in
     let* entries := lift (iter data) in
     scan_entries entries)
    [Exception]
    (fun _ => ret fallback_version).

(** *** [fetch_firefox_addon_info] *)

Definition api_request (url : string) : request :=
  Request url
          [("User-Agent", firefox_user_agent); ("Accept", "application/json")] 30.

(** The body of the [try] of the branch without a version. *)
Definition current_version_pass (url : string) : M (flow value) :=
  let* resp := urlopen E (api_request url) in
  if status resp =? 404 then
    raise (Exn RuntimeError "Firefox addon not found or invalid ID.")
  else if status resp =? 429 then
    run logging WARNING "Rate limit hit, retrying after delay..." in
    run sleep 5 in
    ret Continue
  else if negb (status resp =? 200) then
    raise (Exn RuntimeError ("API error: HTTP " +:+ pretty (status resp)))
  else
    let* raw := resp_read resp in
    let* data := lift (of_lib (json_loads E raw)) in
    let* current_version := lift (get data "current_version" JNull) in
    if negb (truthy current_version) then
      raise (Exn RuntimeError "No current version found for addon.")
    else
      let* file_info := lift (get current_version "file" JNull) in
      if negb (truthy file_info) then
        raise (Exn RuntimeError "No file found for addon.")
      else
        let* download_url := lift (get file_info "url" JNull) in
        if negb (truthy download_url) then
          raise (Exn RuntimeError "No download URL found.")
        else ret (Return download_url).

Fixpoint current_version_loop (left : nat) (url : string) : M value :=
  match left with
  | O => raise (Exn RuntimeError "Unreachable")
  | S left' =>
      let attempt := 3 - Z.of_nat left in
      let* r :=
        try_except (current_version_pass url)
          [URLError; OSError; JSONDecodeError]
          (fun e =>
             let attempt := attempt + 1 in
             if attempt =? 3 then
               raise (Exn RuntimeError
                        ("Failed to fetch addon info: " +:+ exn_str e))
             else
               run logging WARNING
                     ("API fetch attempt " +:+ pretty attempt +:+ " failed: " +:+
                      exn_str e +:+ ". Retrying...") in
               run sleep (2 ^ attempt) in
               ret Continue) in
      match r with
      | Return download_url => ret download_url
      | Continue => current_version_loop left' url
      end
  end.

(** The [for ver in versions_data.get('results', [])] loop. *)
Fixpoint scan_versions (results : list value) (version : string) : M value :=
  match results with
  | [] => raise (Exn RuntimeError ("Version " +:+ version +:+ " not found for addon."))
  | ver :: rest =>
      let* v := lift (get ver "version" JNull) in
      if eq_str v version then
        let* file_info := lift (get ver "file" JNull) in
        if truthy file_info then
          let* download_url := lift (get file_info "url" JNull) in
          if truthy download_url then ret download_url
          else scan_versions rest version
        else scan_versions rest version
      else scan_versions rest version
  end.

(** The body of the [try] of the branch with a version. *)
Definition versions_pass (versions_url version : string) : M (flow value) :=
  let* resp := urlopen E (api_request versions_url) in
  if status resp =? 404 then
    raise (Exn RuntimeError "Firefox addon not found or invalid ID.")
  else if status resp =? 429 then
    run logging WARNING "Rate limit hit, retrying after delay..." in
    run sleep 5 in
    ret Continue
  else if negb (status resp =? 200) then
    raise (Exn RuntimeError ("Versions API error: HTTP " +:+ pretty (status resp)))
  else
    let* raw := resp_read resp in
    let* versions_data := lift (of_lib (json_loads E raw)) in
    let* results := lift (get versions_data "results" (JArr [])) in
    let* items := lift (iter results) in
    let* download_url := scan_versions items version in
    ret (Return download_url).

Fixpoint versions_loop (left : nat) (versions_url version : string) : M value :=
  match left with
  | O => raise (Exn RuntimeError "Unreachable")
  | S left' =>
      let attempt := 3 - Z.of_nat left in
      let* r :=
        try_except (versions_pass versions_url version)
          [URLError; OSError; JSONDecodeError]
          (fun e =>
             let attempt := attempt + 1 in
             if attempt =? 3 then
               raise (Exn RuntimeError
                        ("Failed to fetch versions: " +:+ exn_str e))
             else
               run logging WARNING
                     ("Versions fetch attempt " +:+ pretty attempt +:+
                      " failed: " +:+ exn_str e +:+ ". Retrying...") in
               run sleep (2 ^ attempt) in
               ret Continue) in
      match r with
      | Return download_url => ret download_url
      | Continue => versions_loop left' versions_url version
      end
  end.

Definition addon_url (addon_id : string) : string :=
  "https://addons.mozilla.org/api/v5/addons/addon/" +:+ addon_id +:+ "/".

Definition addon_versions_url (addon_id : string) : string :=
  "https://addons.mozilla.org/api/v5/addons/addon/" +:+ addon_id +:+ "/versions/".

Definition fetch_firefox_addon_info (addon_id : string) (version : option string)
    : M value :=
  match version with
  | None => current_version_loop 3 (addon_url addon_id)
  | Some version => versions_loop 3 (addon_versions_url addon_id) version
  end.

(** *** [download_xpi_with_retry] *)

(** [pbar.update(n)] *)
Definition pbar_update (n : Z) : M unit :=
  fun w => (Ok tt, with_progress (fun l => l ++ [n]) w).

(** The loop [while True] that reads the body in chunks: [rest] is what the
    response still holds, [data] what was read.  Every pass but the last
    takes at least one byte off [rest], so [fuel] above the length of [rest]
    is never used up; the value for no fuel left is never reached from
    [read_body]. *)
Fixpoint read_chunks (fuel : nat) (bar : bool) (chunk_size : nat)
    (rest data : bytes) : M bytes :=
  match fuel with
  | O => raise (Exn RuntimeError "read_chunks: no fuel left")
  | S fuel' =>
      let chunk := firstn chunk_size rest in
      match chunk with
      | [] => ret data
      | _ :: _ =>
          let data := data ++ chunk in
          run (if bar then pbar_update (Z.of_nat (length chunk)) else ret tt) in
          read_chunks fuel' bar chunk_size (skipn chunk_size rest) data
      end
  end.

Definition read_body (bar : bool) (chunk_size : nat) (resp : response) : M bytes :=
  match read_error resp with
  | Some (c, msg) => raise (Exn c msg)
  | None => read_chunks (S (length (body resp))) bar chunk_size (body resp) []
  end.

Definition xpi_request (url : value) : request :=
  Request (py_str url) [("User-Agent", firefox_user_agent)] 60.

(** The body of the [try] of [download_xpi_with_retry]. *)
Definition download_xpi_pass (url : value) : M bytes :=
  let* resp := urlopen E (xpi_request url) in
  if negb (status resp =? 200) then
    raise (Exn RuntimeError ("Download failed: HTTP " +:+ pretty (status resp)))
  else
    let* total_size :=
      lift (match content_length resp with
            | Some s => of_lib (py_int E s)
            | None => Ok 0
            end) in
    let chunk_size := Z.to_nat 8192 in
    read_body (tqdm_installed E) chunk_size resp.

Fixpoint download_xpi_loop (left : nat) (url : value) : M bytes :=
  match left with
  | O => raise (Exn RuntimeError "Unreachable")
  | S left' =>
      let attempt := 3 - Z.of_nat left in
      let* r :=
        try_except
          (let* data := download_xpi_pass url in ret (Return data))
          [URLError; OSError]
          (fun e =>
             let attempt := attempt + 1 in
             if attempt =? 3 then
               raise (Exn RuntimeError ("Failed to download XPI: " +:+ exn_str e))
             else
               run logging WARNING
                     ("Download attempt " +:+ pretty attempt +:+ " failed: " +:+
                      exn_str e +:+ ". Retrying...") in
               run sleep (2 ^ attempt) in
               ret Continue) in
      match r with
      | Return data => ret data
      | Continue => download_xpi_loop left' url
      end
  end.

Definition download_xpi_with_retry (url : value) : M bytes :=
  download_xpi_loop 3 url.

(** ** The batch driver: [main] *)

(** The parsed command line. *)
Record args : Type := Args {
  extension_id : option string;
  output : option string;
  version : option string;
  platform : string;
  verbose : bool;
  force : bool;
  batch : option string;
  continue_on_error : bool;
  list_versions : bool
}.

(** [logging.basicConfig(level=level)] *)
Definition basicConfig (level : log_level) : M unit :=
  fun w => (Ok tt, with_threshold level w).

(** [open(path, "r")] and the reading of the whole text. *)
Definition read_text (path : string) : M string :=
  fun w =>
    match fs w !! path with
    | None =>
        (Raise (Exn FileNotFoundError
                  ("[Errno 2] No such file or directory: '" +:+ path +:+ "'")), w)
    | Some content => (of_lib (decode_text E content), w)
    end.

(** The first part of [main]: the identifiers to process. *)
Definition parse_ids (a : args) : M (list string) :=
  if opt_truthy (batch a) then
    let b := default EmptyString (batch a) in
    if str_contains "," b then
      ret (stripped_nonempty (str_split "," b))
    else
      try_except
        (let* text := read_text b in
         ret (stripped_nonempty (text_lines text)))
        [FileNotFoundError]
        (fun _ =>
           run print ("Error: Batch file " +:+ b +:+ " not found.") in
           sys_exit 1)
  else if opt_truthy (extension_id a) then
    ret [str_strip (default EmptyString (extension_id a))]
  else
    run print "Error: Must provide extension_id, --batch, or --list-versions." in
    sys_exit 1.

(** [[ver.get('version') for ver in items]] *)
Fixpoint version_names (items : list value) : M (list value) :=
  match items with
  | [] => ret []
  | ver :: rest =>
      let* v := lift (get ver "version" JNull) in
      let* vs := version_names rest in
      ret (v :: vs)
  end.

(** The branch [if args.list_versions] of [main]. *)
Definition list_versions_mode (ids : list string) (platform : string) : M unit :=
  match ids with
  | [ext_id] =>
      run try_except
            (if String.eqb platform "firefox" then
               let* resp := urlopen E (api_request (addon_versions_url ext_id)) in
               if negb (status resp =? 200) then
                 raise (Exn RuntimeError ("API error: HTTP " +:+ pretty (status resp)))
               else
                 let* raw := resp_read resp in
                 let* versions_data := lift (of_lib (json_loads E raw)) in
                 let* results := lift (get versions_data "results" (JArr [])) in
                 let* items := lift (iter results) in
                 let* versions := version_names items in
                 let* joined := lift (str_join ", " versions) in
                 print ("Available versions for " +:+ ext_id +:+ ": " +:+ joined)
             else
               print "Listing versions is not supported for Chrome; specify version manually.")
            [Exception]
            (fun e => print ("Error listing versions: " +:+ exn_str e)) in
      sys_exit 0
  | _ =>
      run print "Error: --list-versions requires exactly one ID." in
      sys_exit 1
  end.

(** [Path(args.output) if args.output else Path(f"{ext_id}.zip")]; a path is
    kept as the string it was built from. *)
Definition out_file_of (a : args) (ext_id : string) : string :=
  if opt_truthy (output a) then default EmptyString (output a)
  else ext_id +:+ ".zip".

(** The body of the [try] of the download loop. *)
Definition download_to (a : args) (ext_id out_file : string) : M unit :=
  run
    (if String.eqb (platform a) "chrome" then
       let* chrome_ver :=
         if opt_truthy (version a)
         then ret (JStr (default EmptyString (version a)))
         else get_latest_chrome_version in
       run logging INFO
             ("Downloading CRX3 for " +:+ ext_id +:+ " (version " +:+
              py_str chrome_ver +:+ ") …") in
       let* crx := download_crx_with_retry ext_id chrome_ver in
       let* zip_bytes := lift (crx_to_zip crx) in
       write_bytes E out_file zip_bytes
     else
       run logging INFO
             ("Fetching Firefox addon info for " +:+ ext_id +:+
              (if opt_truthy (version a)
               then " (version " +:+ default EmptyString (version a) +:+ ")"
               else " (latest)") +:+ " …") in
       let* download_url := fetch_firefox_addon_info ext_id (version a) in
       run logging INFO "Downloading XPI …" in
       let* xpi_bytes := download_xpi_with_retry download_url in
       write_bytes E out_file xpi_bytes) in
  logging INFO ("Saved → " +:+ resolve E out_file).

(** One pass of the download loop, for the identifier [ext_id] at index [i]
    of [total].  [continue] ends the pass normally. *)
Definition process_id (a : args) (i total : nat) (ext_id : string) : M unit :=
  run logging INFO
        ("Processing " +:+ pretty (Z.of_nat i + 1) +:+ "/" +:+
         pretty (Z.of_nat total) +:+ ": " +:+ ext_id) in
  if negb (validate_extension_id ext_id (platform a)) then
    let msg := "Invalid " +:+ platform a +:+ " extension ID format for " +:+
               ext_id +:+ "." in
    let msg :=
      if String.eqb (platform a) "chrome"
      then msg +:+ " Must be 32 alphanumeric characters."
      else msg +:+ " Must be a GUID (e.g., {uuid}) or slug (alphanumeric with hyphens/underscores)." in
    if continue_on_error a then logging WARNING (msg +:+ " Skipping.")
    else run print ("Error: " +:+ msg) in sys_exit 1
  else
    let out_file := out_file_of a ext_id in
    let* there := path_exists out_file in
    if there && negb (force a) then
      let msg := "Output file " +:+ out_file +:+ " already exists." in
      if continue_on_error a then logging WARNING (msg +:+ " Skipping.")
      else run print ("Error: " +:+ msg +:+ " Use --force to overwrite.") in
           sys_exit 1
    else
      try_except (download_to a ext_id out_file)
        [Exception]
        (fun e =>
           if continue_on_error a then
             logging ERROR ("Failed for " +:+ ext_id +:+ ": " +:+ exn_str e +:+
                            ". Continuing.")
           else
             run logging ERROR ("Failed for " +:+ ext_id +:+ ": " +:+ exn_str e) in
             sys_exit 1).

(** [for i, ext_id in enumerate(ids)], from index [i] on. *)
Fixpoint download_loop (a : args) (i total : nat) (ids : list string) : M unit :=
  match ids with
  | [] => ret tt
  | ext_id :: rest =>
      run process_id a i total ext_id in
      download_loop a (S i) total rest
  end.

(** What [parser.parse_args()] makes of the command line: the namespace of
    the arguments; or, for a command line it refuses (an unknown option, a
    platform outside the choices) and for [--help], what it prints on the
    standard output and the status it leaves the process with, 2 and 0. *)
Inductive command_line : Type :=
  | Parsed (a : args)
  | Refused (shown : list string) (code : Z).

Definition parse_args (cl : command_line) : M args :=
  match cl with
  | Parsed a => ret a
  | Refused shown code =>
      fun w => (Raise (SystemExit code), with_stdout (fun o => o ++ shown) w)
  end.

Definition main (cl : command_line) : M unit :=
  let* a := parse_args cl in
  run basicConfig (if verbose a then INFO else WARNING) in
  let* ids := parse_ids a in
  if list_versions a then list_versions_mode ids (platform a)
  else download_loop a 0 (length ids) ids.

End Program.

(** The exit status of the process: 0 when [main] returns, the argument of
    [sys.exit], and 1 when an exception reaches the top level. *)
Definition exit_status (r : result unit) : Z :=
  match r with
  | Ok _ => 0
  | Raise (SystemExit code) => code
  | Raise (Exn _ _) => 1
  end.

Definition run_main (E : env) (cl : command_line) (w : world) : Z * world :=
  let (r, w') := main E cl w in (exit_status r, w').

(** ** Sample environments

    Concrete networks and packages on which the program is run in the
    examples below. *)

Module Sample.

(** The start of a ZIP archive. *)
Definition payload : bytes := [x50; x4b; x03; x04].

(** A CRX3 package: magic, version 3, a header of two bytes, the archive. *)
Definition crx_package : bytes :=
  Cr24 ++ [x03; x00; x00; x00] ++ [x02; x00; x00; x00] ++ [xaa; xbb] ++ payload.

Definition ok_response (b : bytes) : response :=
  Response 200 "OK" None b None.

Definition status_response (st : Z) (why : string) : response :=
  Response st why None [] None.

Definition timed_out : net_outcome :=
  NetRaise URLError "<urlopen error timed out>".

(** A network that times out on its first [fails] requests and answers
    [good] afterwards. *)
Definition flaky (fails : nat) (good : response) (n : nat) (_ : request)
    : net_outcome :=
  if (n <? fails)%nat then timed_out else NetResp good.

(** A network that gives the same outcome to every request. *)
Definition always (o : net_outcome) (_ : nat) (_ : request) : net_outcome := o.

(** An environment around a network: no JSON in use, no [tqdm], every write
    succeeds. *)
Definition env_of (network : nat -> request -> net_outcome) : env :=
  Env network
      (fun _ => Throws JSONDecodeError "Expecting value: line 1 column 1 (char 0)")
      (fun _ => "None")
      (fun _ => Throws ValueError "invalid literal for int() with base 10")
      false
      (fun _ => Throws UnicodeDecodeError "invalid start byte")
      (fun _ => None)
      (fun p => "/home/user/" +:+ p).

Definition id1 : string := "cjpalhdlnbpafiamejdnhcphjbkeiagm".
Definition id2 : string := "nngceckbapebfimnlniiiahkandclblb".

Definition chrome_args (ids : string) : args :=
  Args None None (Some "119.0.6045.0") "chrome" false false (Some ids) false false.

End Sample.

(** * Properties *)

(** ** Sanity checks of the validator *)

Example validate_chrome_ok :
  validate_extension_id "cjpalhdlnbpafiamejdnhcphjbkeiagm" "chrome" = true.
Proof. reflexivity. Qed.

Example validate_chrome_upper :
  validate_extension_id "Cjpalhdlnbpafiamejdnhcphjbkeiagm" "chrome" = false.
Proof. reflexivity. Qed.

Example validate_firefox_slug :
  validate_extension_id "ublock-origin" "firefox" = true.
Proof. reflexivity. Qed.

Example validate_firefox_guid :
  validate_extension_id "{d10d0bf8-f5b5-c8b4-a8b2-2b9879e08c5d}" "firefox" = true.
Proof. reflexivity. Qed.

Example validate_firefox_bad :
  validate_extension_id "-ublock" "firefox" = false.
Proof. reflexivity. Qed.

(** ** The package normalizer *)

Lemma byte_eqb_eq (x y : byte) : Byte.eqb x y = true <-> x = y.
Proof.
  split.
  - apply Byte.byte_dec_bl.
  - apply Byte.byte_dec_lb.
Qed.

Lemma bytes_eqb_eq (a b : bytes) : bytes_eqb a b = true <-> a = b.
Proof.
  revert b. induction a as [|x a IH]; intros [|y b]; simpl; split;
    try congruence; try reflexivity.
  - intros H. apply andb_prop in H as [Hx Hab].
    apply byte_eqb_eq in Hx. apply IH in Hab. congruence.
  - intros H. injection H as -> ->.
    apply andb_true_intro. split; [now apply byte_eqb_eq | now apply IH].
Qed.

Lemma bytes_eqb_neq (a b : bytes) : bytes_eqb a b = false <-> a <> b.
Proof.
  rewrite <- bytes_eqb_eq. destruct (bytes_eqb a b); split; congruence.
Qed.

Lemma slice_length (lo hi : nat) (b : bytes) :
  (hi <= length b)%nat -> length (slice lo hi b) = (hi - lo)%nat.
Proof.
  intros H. unfold slice. rewrite length_firstn, length_skipn. lia.
Qed.

Lemma struct_unpack_I_four (b : bytes) :
  length b = 4%nat -> struct_unpack_I b = Ok (le_uint b).
Proof.
  intros H. do 5 (destruct b as [|? b]; simpl in H; try discriminate).
  reflexivity.
Qed.

(** A package that passes both checks on its head is cut at the offset its
    length field gives, or refused when the offset lies beyond its end. *)
Lemma crx_to_zip_header (crx : bytes) :
  firstn 4 crx = Cr24 ->
  (12 <= length crx)%nat ->
  crx_to_zip crx =
    let header_len := le_uint (slice 8 12 crx) + 12 in
    if header_len >? Z.of_nat (length crx)
    then Raise (Exn ValueError "Invalid CRX file: header length exceeds file size")
    else Ok (skipn (Z.to_nat header_len) crx).
Proof.
  intros Hmagic Hlen. unfold crx_to_zip.
  assert (bytes_eqb (slice 0 4 crx) Cr24 = true) as ->.
  { apply bytes_eqb_eq. exact Hmagic. }
  simpl negb. cbv iota.
  assert ((Z.of_nat (length crx) <? 12) = false) as -> by (apply Z.ltb_ge; lia).
  rewrite struct_unpack_I_four by (rewrite slice_length; lia).
  reflexivity.
Qed.

(** An input shorter than 12 bytes is refused by the first check that
    fails: the magic, then the length. *)
Lemma crx_to_zip_short (crx : bytes) :
  (length crx < 12)%nat ->
  crx_to_zip crx =
    Raise (Exn ValueError
             (if bytes_eqb (firstn 4 crx) Cr24
              then "Invalid CRX file: file too short"
              else "Invalid CRX file: missing 'Cr24' header")).
Proof.
  intros Hlen. unfold crx_to_zip.
  change (slice 0 4 crx) with (firstn 4 crx).
  destruct (bytes_eqb (firstn 4 crx) Cr24); simpl negb; cbv iota.
  - assert ((Z.of_nat (length crx) <? 12) = true) as -> by (apply Z.ltb_lt; lia).
    reflexivity.
  - reflexivity.
Qed.

(** C1. A package that begins with [Cr24], is 12 bytes long at least and
    whose bytes 8..12 hold the little-endian length [n] with [12 + n] not
    beyond its end is normalized to its suffix from offset [12 + n]; a
    synthetic header with a zero length field in front of a payload gives the
    payload back. *)
Theorem crx_to_zip_suffix (crx : bytes) (n : Z) :
  firstn 4 crx = Cr24 ->
  (12 <= length crx)%nat ->
  le_uint (slice 8 12 crx) = n ->
  12 + n <= Z.of_nat (length crx) ->
  crx_to_zip crx = Ok (skipn (Z.to_nat (12 + n)) crx) /\
  (forall ver payload : bytes,
     length ver = 4%nat ->
     crx_to_zip (Cr24 ++ ver ++ [x00; x00; x00; x00] ++ payload) = Ok payload).
Proof.
  intros Hmagic Hlen Hn Hoff. split.
  - rewrite crx_to_zip_header by assumption. cbv zeta. rewrite Hn.
    assert ((n + 12 >? Z.of_nat (length crx)) = false) as ->.
    { rewrite Z.gtb_ltb. apply Z.ltb_ge. lia. }
    f_equal. f_equal. f_equal. lia.
  - intros ver payload Hver.
    do 5 (destruct ver as [|? ver]; simpl in Hver; try discriminate).
    rewrite crx_to_zip_header; [| reflexivity | simpl; lia ].
    cbv zeta. change (le_uint (slice 8 12 _)) with 0.
    assert ((0 + 12 >? Z.of_nat (length (Cr24 ++ [b; b0; b1; b2] ++
              [x00; x00; x00; x00] ++ payload))) = false) as ->.
    { rewrite Z.gtb_ltb. apply Z.ltb_ge. simpl length. lia. }
    reflexivity.
Qed.

Lemma crx_to_zip_suffix_witness :
  crx_to_zip [x43; x72; x32; x34; x03; x00; x00; x00; x02; x00; x00; x00;
              xaa; xbb; x50; x4b; x03; x04]
  = Ok [x50; x4b; x03; x04].
Proof.
  apply (crx_to_zip_suffix
           [x43; x72; x32; x34; x03; x00; x00; x00; x02; x00; x00; x00;
            xaa; xbb; x50; x4b; x03; x04] 2);
    [reflexivity | simpl; lia | reflexivity | simpl; lia].
Defined.

(** C6, as the code has it.  An input shorter than 12 bytes that begins with
    [Cr24] is refused as too short; one that does not begin with [Cr24] is
    refused for its magic, the check that comes first. *)
Theorem crx_to_zip_truncated (crx : bytes) :
  (length crx < 12)%nat ->
  (firstn 4 crx = Cr24 ->
   crx_to_zip crx = Raise (Exn ValueError "Invalid CRX file: file too short")) /\
  (firstn 4 crx <> Cr24 ->
   crx_to_zip crx =
     Raise (Exn ValueError "Invalid CRX file: missing 'Cr24' header")).
Proof.
  intros Hlen. rewrite (crx_to_zip_short crx Hlen). split; intros H.
  - apply bytes_eqb_eq in H. rewrite H. reflexivity.
  - apply bytes_eqb_neq in H. rewrite H. reflexivity.
Qed.

Lemma crx_to_zip_truncated_witness :
  crx_to_zip [x43; x72; x32; x34; x03; x00] =
    Raise (Exn ValueError "Invalid CRX file: file too short").
Proof.
  apply (crx_to_zip_truncated [x43; x72; x32; x34; x03; x00]);
    [simpl; lia | reflexivity].
Defined.

(** C6 as stated fails: the empty input is shorter than 12 bytes and is not
    refused as too short. *)
Lemma crx_to_zip_truncated_counterexample :
  (length (@nil byte) < 12)%nat /\
  crx_to_zip [] <> Raise (Exn ValueError "Invalid CRX file: file too short") /\
  crx_to_zip [] = Raise (Exn ValueError "Invalid CRX file: missing 'Cr24' header").
Proof.
  split; [simpl; lia |]. split; [discriminate | reflexivity].
Qed.

(** ** The identifier validator *)

Section RegexLemmas.

Lemma rmatch_rep_class (ranges : list (ascii * ascii)) (n : nat) :
  forall (pos : nat) (s : list ascii) (k : nat -> list ascii -> bool),
    rmatch (Rep n (Class ranges)) pos s k = true <->
    exists pre suf,
      s = pre ++ suf /\ length pre = n /\
      forallb (in_class ranges) pre = true /\ k (pos + n)%nat suf = true.
Proof.
  induction n as [|n IH]; intros pos s k.
  - simpl. split.
    + intros Hk. exists [], s. rewrite Nat.add_0_r. auto.
    + intros (pre & suf & -> & Hlen & _ & Hk).
      destruct pre; [| discriminate]. rewrite Nat.add_0_r in Hk. exact Hk.
  - change (rmatch (Rep (S n) (Class ranges)) pos s k)
      with (match s with
            | x :: s' =>
                in_class ranges x && rmatch (Rep n (Class ranges)) (S pos) s' k
            | [] => false
            end).
    destruct s as [|x s'].
    + split; [discriminate |].
      intros (pre & suf & Heq & Hlen & _).
      destruct pre; [discriminate | discriminate].
    + rewrite andb_true_iff, IH. split.
      * intros (Hx & pre & suf & -> & Hlen & Hall & Hk).
        exists (x :: pre), suf. simpl. rewrite Hx, Hall.
        replace (pos + S n)%nat with (S pos + n)%nat by lia. auto.
      * intros (pre & suf & Heq & Hlen & Hall & Hk).
        destruct pre as [|y pre]; [discriminate |].
        simpl in *. injection Heq as -> ->. injection Hlen as Hlen.
        apply andb_true_iff in Hall as [Hx Hall]. split; [exact Hx |].
        exists pre, suf. repeat split; try assumption.
        rewrite <- Hk. f_equal. lia.
Qed.

End RegexLemmas.

(** What the Chrome pattern calls an identifier: 32 characters of [a-z0-9]. *)
Definition chrome_id (s : list ascii) : Prop :=
  length s = 32%nat /\
  forallb (in_class [("a", "z"); ("0", "9")]%char) s = true.

(** What [validate_extension_id] accepts for Chrome: an identifier, or an
    identifier followed by one newline. *)
Lemma validate_chrome_iff (ext_id : string) :
  validate_extension_id ext_id "chrome" = true <->
  chrome_id (list_ascii_of_string ext_id) \/
  exists t, list_ascii_of_string ext_id = t ++ [newline] /\ chrome_id t.
Proof.
  unfold validate_extension_id. simpl String.eqb. cbv iota.
  unfold re_match, chrome_pattern, sequence, lower_alnum.
  set (s := list_ascii_of_string ext_id).
  change (rmatch (Seq Bol (Seq (Rep 32 (Class [("a", "z"); ("0", "9")]%char)) Eol))
            0 s (fun _ _ => true))
    with (rmatch (Rep 32 (Class [("a", "z"); ("0", "9")]%char)) 0 s
            (fun p s' => rmatch Eol p s' (fun _ _ => true))).
  rewrite rmatch_rep_class. unfold chrome_id. split.
  - intros (pre & suf & Heq & Hlen & Hall & Hk).
    destruct suf as [|c [|c' suf]]; simpl in Hk; try discriminate.
    + left. rewrite Heq, app_nil_r. auto.
    + right. rewrite andb_true_r in Hk. apply Ascii.eqb_eq in Hk. subst c.
      exists pre. auto.
  - intros [[Hlen Hall] | (t & Heq & Hlen & Hall)].
    + exists s, []. rewrite app_nil_r. auto.
    + exists t, [newline]. auto.
Qed.

(** C7, where the code departs from it.  The pattern ends in [$], which
    also matches before a final newline: 32 characters of [a-z0-9] followed
    by a newline, 33 characters in all, are accepted. *)
Theorem validate_chrome_trailing_newline :
  String.length "cjpalhdlnbpafiamejdnhcphjbkeiagm" = 32%nat /\
  validate_extension_id "cjpalhdlnbpafiamejdnhcphjbkeiagm" "chrome" = true /\
  validate_extension_id
    ("cjpalhdlnbpafiamejdnhcphjbkeiagm" +:+ String newline EmptyString)
    "chrome" = true.
Proof. repeat split. Qed.

(** ** The world under the primitive operations *)

(** The world once [req] has been sent. *)
Definition sent (req : request) (w : world) : world :=
  with_net_log (fun l => l ++ [req]) w.

(** The world once a record was handed to the root logger. *)
Definition logged (l : log_level) (msg : string) (w : world) : world :=
  if level_num (threshold w) <=? level_num l
  then with_log (fun lg => lg ++ [(l, msg)]) w
  else w.

Definition slept_for (seconds : Z) (w : world) : world :=
  with_slept (fun l => l ++ [seconds]) w.

Lemma opened_raise (c : exn_class) (msg : string) :
  opened (NetRaise c msg) = NetRaise c msg.
Proof. reflexivity. Qed.

Lemma error_status_iff (resp : response) :
  error_status resp = true <-> status resp < 200 \/ 300 <= status resp.
Proof.
  unfold error_status. rewrite negb_true_iff, andb_false_iff.
  rewrite Z.leb_gt, Z.ltb_ge. reflexivity.
Qed.

Lemma opened_ok (resp : response) :
  200 <= status resp < 300 -> opened (NetResp resp) = NetResp resp.
Proof.
  intros Hst. unfold opened.
  destruct (error_status resp) eqn:Herr; [| reflexivity].
  apply error_status_iff in Herr. lia.
Qed.

Lemma opened_200 (resp : response) :
  status resp = 200 -> opened (NetResp resp) = NetResp resp.
Proof. intros Hst. apply opened_ok. lia. Qed.

Lemma opened_error (resp : response) :
  error_status resp = true ->
  opened (NetResp resp) = NetRaise HTTPError (http_error_str resp).
Proof. intros Herr. unfold opened. now rewrite Herr. Qed.

(** [urlopen] returns no response of a status outside 200..299. *)
Lemma opened_status (o : net_outcome) (resp : response) :
  opened o = NetResp resp -> 200 <= status resp < 300.
Proof.
  destruct o as [c msg | r]; [discriminate |]. unfold opened.
  destruct (error_status r) eqn:Herr; [discriminate |].
  intros [= <-]. destruct (Z.le_gt_cases 200 (status r)) as [Hlo | Hlo].
  - destruct (Z.lt_ge_cases (status r) 300) as [Hhi | Hhi]; [lia |].
    assert (error_status r = true) by (apply error_status_iff; lia).
    congruence.
  - assert (error_status r = true) by (apply error_status_iff; lia).
    congruence.
Qed.

Lemma logging_eq (l : log_level) (msg : string) (w : world) :
  logging l msg w = (Ok tt, logged l msg w).
Proof. unfold logging, logged. destruct (_ <=? _); reflexivity. Qed.

Lemma sleep_eq (seconds : Z) (w : world) :
  sleep seconds w = (Ok tt, slept_for seconds w).
Proof. reflexivity. Qed.

Lemma net_log_sent req w : net_log (sent req w) = net_log w ++ [req].
Proof. reflexivity. Qed.

Lemma slept_sent req w : slept (sent req w) = slept w.
Proof. reflexivity. Qed.

Lemma net_log_logged l msg w : net_log (logged l msg w) = net_log w.
Proof. unfold logged. destruct (_ <=? _); reflexivity. Qed.

Lemma slept_logged l msg w : slept (logged l msg w) = slept w.
Proof. unfold logged. destruct (_ <=? _); reflexivity. Qed.

Lemma net_log_slept_for s w : net_log (slept_for s w) = net_log w.
Proof. reflexivity. Qed.

Lemma slept_slept_for s w : slept (slept_for s w) = slept w ++ [s].
Proof. reflexivity. Qed.

Create Rewrite HintDb world.
#[local] Hint Rewrite net_log_sent slept_sent net_log_logged slept_logged
  net_log_slept_for slept_slept_for : world.
#[local] Hint Rewrite @length_app : world.
#[local] Hint Rewrite <- @app_assoc : world.

(** ** The retry loops

    The four loops [while attempt < 3] have one shape: a pass inside [try],
    a tuple of classes the [except] clause catches, the message of the final
    failure, the warning and the delay before the next pass. *)

Section RetryLoop.

Context {A : Type} (E : env).
Variables (pass : M (flow A)) (cs : list exn_class)
  (fail_msg : exn -> string) (warn : Z -> exn -> string) (delay : Z -> Z).

Fixpoint retry_loop (left : nat) : M A :=
  match left with
  | O => raise (Exn RuntimeError "Unreachable")
  | S left' =>
      let attempt := 3 - Z.of_nat left in
      bind
        (try_except pass cs
           (fun e =>
              let attempt := attempt + 1 in
              if attempt =? 3 then raise (Exn RuntimeError (fail_msg e))
              else
                bind (logging WARNING (warn attempt e))
                  (fun _ => bind (sleep (delay attempt)) (fun _ => ret Continue))))
        (fun r =>
           match r with
           | Return a => ret a
           | Continue => retry_loop left'
           end)
  end.

(** The world before the pass that follows a caught failure. *)
Definition backed_off (attempt : Z) (e : exn) (w : world) : world :=
  slept_for (delay attempt) (logged WARNING (warn attempt e) w).

Lemma retry_loop_step (left : nat) (w : world) :
  retry_loop (S left) w =
    let attempt := 3 - Z.of_nat (S left) + 1 in
    match pass w with
    | (Ok (Return a), w1) => (Ok a, w1)
    | (Ok Continue, w1) => retry_loop left w1
    | (Raise e, w1) =>
        if isinstance e cs then
          if attempt =? 3 then (Raise (Exn RuntimeError (fail_msg e)), w1)
          else retry_loop left (backed_off attempt e w1)
        else (Raise e, w1)
    end.
Proof.
  cbv zeta. unfold retry_loop at 1; fold retry_loop.
  unfold bind at 1. unfold try_except.
  destruct (pass w) as [[[a |] | e] w1]; try reflexivity.
  destruct (isinstance e cs); [| reflexivity].
  cbv zeta. destruct (3 - Z.of_nat (S left) + 1 =? 3); [reflexivity |].
  unfold bind. rewrite logging_eq, sleep_eq. reflexivity.
Qed.

(** A pass that sends [req] once; for the answers [outcome] knows, its
    result and the sleeps it takes itself are functions of the answer. *)
Variables (req : request)
  (outcome : net_outcome -> option (result (flow A) * list Z)).

Definition pass_spec : Prop :=
  forall (w : world) (r : result (flow A)) (naps : list Z),
    outcome (net E (length (net_log w)) req) = Some (r, naps) ->
    exists w',
      pass w = (r, w') /\
      net_log w' = net_log w ++ [req] /\
      slept w' = slept w ++ naps.

(** The loop replayed on the answers of the network alone, from request
    number [n] on: the result, the number of requests and the sleeps. *)
Fixpoint simulate (left n : nat) : option (result A * nat * list Z) :=
  match left with
  | O => Some (Raise (Exn RuntimeError "Unreachable"), O, [])
  | S left' =>
      let attempt := 3 - Z.of_nat left + 1 in
      match outcome (net E n req) with
      | None => None
      | Some (Ok (Return a), naps) => Some (Ok a, 1%nat, naps)
      | Some (Ok Continue, naps) =>
          match simulate left' (S n) with
          | Some (r, k, sl) => Some (r, S k, naps ++ sl)
          | None => None
          end
      | Some (Raise e, naps) =>
          if isinstance e cs then
            if attempt =? 3 then
              Some (Raise (Exn RuntimeError (fail_msg e)), 1%nat, naps)
            else
              match simulate left' (S n) with
              | Some (r, k, sl) => Some (r, S k, naps ++ [delay attempt] ++ sl)
              | None => None
              end
          else Some (Raise e, 1%nat, naps)
      end
  end.

Lemma retry_loop_simulate (left : nat) :
  pass_spec ->
  forall (w : world) (r : result A) (k : nat) (sl : list Z),
    simulate left (length (net_log w)) = Some (r, k, sl) ->
    exists w',
      retry_loop left w = (r, w') /\
      net_log w' = net_log w ++ repeat req k /\
      slept w' = slept w ++ sl.
Proof.
  intros Hpass. induction left as [|left IH]; intros w r k sl Hsim.
  - simpl in Hsim. injection Hsim as <- <- <-.
    exists w. simpl. rewrite !app_nil_r. auto.
  - rewrite retry_loop_step. cbv zeta.
    cbn [simulate] in Hsim. cbv zeta in Hsim.
    destruct (outcome (net E (length (net_log w)) req))
      as [[res naps] |] eqn:Hout; [| discriminate].
    destruct (Hpass w res naps Hout) as (w1 & -> & Hlog & Hslept).
    assert (Hnext : forall w2, net_log w2 = net_log w1 ->
              length (net_log w2) = S (length (net_log w))).
    { intros w2 ->. rewrite Hlog, length_app. simpl. lia. }
    destruct res as [[a |] | e].
    + injection Hsim as <- <- <-. exists w1. simpl. auto.
    + destruct (simulate left (S (length (net_log w))))
        as [[[r' k'] sl'] |] eqn:Hrec; [| discriminate].
      injection Hsim as <- <- <-.
      rewrite <- (Hnext w1 eq_refl) in Hrec.
      destruct (IH w1 r' k' sl' Hrec) as (w' & -> & Hlog' & Hslept').
      exists w'. split; [reflexivity |].
      rewrite Hlog', Hslept', Hlog, Hslept. simpl.
      rewrite <- !app_assoc. auto.
    + destruct (isinstance e cs); [| injection Hsim as <- <- <-; exists w1; simpl; auto].
      destruct (3 - Z.of_nat (S left) + 1 =? 3).
      { injection Hsim as <- <- <-. exists w1. simpl. auto. }
      destruct (simulate left (S (length (net_log w))))
        as [[[r' k'] sl'] |] eqn:Hrec; [| discriminate].
      injection Hsim as <- <- <-.
      set (w2 := backed_off (3 - Z.of_nat (S left) + 1) e w1).
      assert (Hlog2 : net_log w2 = net_log w1).
      { unfold w2, backed_off. now autorewrite with world. }
      assert (Hslept2 : slept w2 =
                slept w1 ++ [delay (3 - Z.of_nat (S left) + 1)]).
      { unfold w2, backed_off. now autorewrite with world. }
      rewrite <- (Hnext w2 Hlog2) in Hrec.
      destruct (IH w2 r' k' sl' Hrec) as (w' & -> & Hlog' & Hslept').
      exists w'. split; [reflexivity |].
      rewrite Hlog', Hslept', Hlog2, Hslept2, Hlog, Hslept. simpl.
      rewrite <- !app_assoc. auto.
Qed.

End RetryLoop.

(** ** The fetcher: [download_crx_with_retry] and [download_xpi_with_retry] *)

(** The classes both loops of the fetcher catch. *)
Definition transport : list exn_class := [URLError; OSError].

(** A function's result as the result of a pass that returns it. *)
Definition returning {A} (r : result A) : result (flow A) :=
  match r with
  | Ok a => Ok (Return a)
  | Raise e => Raise e
  end.

Section Fetcher.

Context (E : env).

(** What [download_crx] makes of what the network did. *)
Definition crx_result (o : net_outcome) : result bytes :=
  match opened o with
  | NetRaise c msg => Raise (Exn c msg)
  | NetResp resp =>
      if status resp =? 404 then
        Raise (Exn RuntimeError "Extension not found or invalid ID.")
      else if negb (status resp =? 200) then
        Raise (Exn RuntimeError
                 ("HTTP " +:+ pretty (status resp) +:+ ": " +:+ reason resp))
      else
        match read_error resp with
        | Some (c, msg) => Raise (Exn c msg)
        | None => Ok (body resp)
        end
  end.

Lemma download_crx_eq (id : string) (ver : value) (w : world) :
  download_crx E id ver w =
    (crx_result (net E (length (net_log w)) (crx_request E id ver)),
     sent (crx_request E id ver) w).
Proof.
  unfold download_crx, bind, urlopen, crx_result, sent.
  destruct (opened (net E _ _)) as [c msg | resp]; [reflexivity |].
  destruct (status resp =? 404); [reflexivity |].
  destruct (negb (status resp =? 200)); [reflexivity |].
  unfold resp_read. destruct (read_error resp) as [[c msg] |]; reflexivity.
Qed.

Definition crx_pass (id : string) (ver : value) : M (flow bytes) :=
  bind (download_crx E id ver) (fun data => ret (Return data)).

Definition crx_fail_msg (e : exn) : string :=
  "Failed to download after 3 attempts: " +:+ exn_str e.

Definition crx_warn (attempt : Z) (e : exn) : string :=
  "Attempt " +:+ pretty attempt +:+ " failed: " +:+ exn_str e +:+
  ". Retrying in " +:+ pretty (2 ^ (attempt - 1)) +:+ " seconds...".

Definition crx_delay (attempt : Z) : Z := 2 ^ (attempt - 1).

Lemma download_crx_loop_eq (id : string) (ver : value) (left : nat) :
  download_crx_loop E left id ver =
    retry_loop (crx_pass id ver) transport crx_fail_msg crx_warn crx_delay left.
Proof.
  induction left as [|left IH]; [reflexivity |].
  simpl. rewrite IH. reflexivity.
Qed.

Definition crx_outcome (o : net_outcome)
    : option (result (flow bytes) * list Z) :=
  Some (returning (crx_result o), []).

Lemma crx_pass_spec (id : string) (ver : value) :
  pass_spec E (crx_pass id ver) (crx_request E id ver) crx_outcome.
Proof.
  intros w r naps Hout. unfold crx_outcome in Hout. injection Hout as <- <-.
  exists (sent (crx_request E id ver) w).
  unfold crx_pass, bind. rewrite download_crx_eq.
  autorewrite with world. rewrite app_nil_r.
  destruct (crx_result _); auto.
Qed.

(** [download_crx_with_retry] replayed on the answers of the network. *)
Lemma download_crx_with_retry_run (id : string) (ver : value) (w : world)
    (r : result bytes) (k : nat) (sl : list Z) :
  simulate E transport crx_fail_msg crx_delay (crx_request E id ver)
    crx_outcome 3 (length (net_log w)) = Some (r, k, sl) ->
  exists w',
    download_crx_with_retry E id ver w = (r, w') /\
    net_log w' = net_log w ++ repeat (crx_request E id ver) k /\
    slept w' = slept w ++ sl.
Proof.
  intros Hsim. unfold download_crx_with_retry. rewrite download_crx_loop_eq.
  eapply retry_loop_simulate; [apply crx_pass_spec | exact Hsim].
Qed.

(** The chunked read returns the whole body and touches nothing but the
    progress bar. *)
Lemma read_chunks_all (bar : bool) (chunk_size : nat) :
  (0 < chunk_size)%nat ->
  forall (fuel : nat) (rest data : bytes) (w : world),
    (length rest < fuel)%nat ->
    exists w',
      read_chunks fuel bar chunk_size rest data w = (Ok (data ++ rest), w') /\
      net_log w' = net_log w /\ slept w' = slept w /\ fs w' = fs w.
Proof.
  intros Hpos. induction fuel as [|fuel IH]; intros rest data w Hfuel; [lia |].
  cbn [read_chunks]. cbv zeta.
  destruct (firstn chunk_size rest) as [|x chunk] eqn:Hchunk.
  - assert (rest = []) as ->.
    { destruct rest; [reflexivity |].
      destruct chunk_size; [lia | simpl in Hchunk; discriminate Hchunk]. }
    exists w. rewrite app_nil_r. auto.
  - assert (Hlen : (length (skipn chunk_size rest) < fuel)%nat).
    { rewrite length_skipn. destruct rest as [|b rest'];
        [rewrite firstn_nil in Hchunk; discriminate | simpl in *; lia]. }
    unfold bind.
    set (w1 := snd ((if bar then pbar_update (Z.of_nat (length (x :: chunk)))
                     else ret tt) w)).
    assert (Hrun : (if bar then pbar_update (Z.of_nat (length (x :: chunk)))
                    else ret tt) w = (Ok tt, w1)).
    { unfold w1. destruct bar; reflexivity. }
    assert (Hw1 : net_log w1 = net_log w /\ slept w1 = slept w /\ fs w1 = fs w).
    { unfold w1. destruct bar; simpl; auto. }
    rewrite Hrun.
    destruct (IH (skipn chunk_size rest) (data ++ x :: chunk) w1 Hlen)
      as (w' & -> & Hn & Hs & Hf).
    exists w'. destruct Hw1 as (Hn1 & Hs1 & Hf1).
    rewrite <- app_assoc, <- Hchunk, firstn_skipn.
    repeat split; congruence.
Qed.

(** What [download_xpi_with_retry] makes of the answer of the network in
    one pass. *)
Definition xpi_result (o : net_outcome) : result bytes :=
  match opened o with
  | NetRaise c msg => Raise (Exn c msg)
  | NetResp resp =>
      if negb (status resp =? 200) then
        Raise (Exn RuntimeError
                 ("Download failed: HTTP " +:+ pretty (status resp)))
      else
        match match content_length resp with
              | Some s => of_lib (py_int E s)
              | None => Ok 0
              end with
        | Raise e => Raise e
        | Ok _ =>
            match read_error resp with
            | Some (c, msg) => Raise (Exn c msg)
            | None => Ok (body resp)
            end
        end
  end.

Lemma download_xpi_pass_eq (url : value) (w : world) :
  exists w',
    download_xpi_pass E url w =
      (xpi_result (net E (length (net_log w)) (xpi_request E url)), w') /\
    net_log w' = net_log w ++ [xpi_request E url] /\
    slept w' = slept w /\ fs w' = fs w.
Proof.
  unfold download_xpi_pass, bind, urlopen, xpi_result.
  destruct (opened (net E _ _)) as [c msg | resp].
  { eexists. split; [reflexivity |]. simpl. auto. }
  destruct (negb (status resp =? 200)).
  { eexists. split; [reflexivity |]. simpl. auto. }
  unfold lift.
  destruct (match content_length resp with
            | Some s => of_lib (py_int E s)
            | None => Ok 0
            end) as [total | e].
  2: { eexists. split; [reflexivity |]. simpl. auto. }
  unfold read_body. destruct (read_error resp) as [[c msg] |].
  { eexists. split; [reflexivity |]. simpl. auto. }
  destruct (read_chunks_all (tqdm_installed E) (Z.to_nat 8192) ltac:(lia)
              (S (length (body resp))) (body resp) []
              (with_net_log (fun l => l ++ [xpi_request E url]) w) ltac:(lia))
    as (w' & Hrun & Hn & Hs & Hf).
  exists w'. rewrite Hrun. simpl. auto.
Qed.

Definition xpi_pass (url : value) : M (flow bytes) :=
  bind (download_xpi_pass E url) (fun data => ret (Return data)).

Definition xpi_fail_msg (e : exn) : string :=
  "Failed to download XPI: " +:+ exn_str e.

Definition xpi_warn (attempt : Z) (e : exn) : string :=
  "Download attempt " +:+ pretty attempt +:+ " failed: " +:+ exn_str e +:+
  ". Retrying...".

Definition xpi_delay (attempt : Z) : Z := 2 ^ attempt.

Lemma download_xpi_loop_eq (url : value) (left : nat) :
  download_xpi_loop E left url =
    retry_loop (xpi_pass url) transport xpi_fail_msg xpi_warn xpi_delay left.
Proof.
  induction left as [|left IH]; [reflexivity |].
  simpl. rewrite IH. reflexivity.
Qed.

Definition xpi_outcome (o : net_outcome)
    : option (result (flow bytes) * list Z) :=
  Some (returning (xpi_result o), []).

Lemma xpi_pass_spec (url : value) :
  pass_spec E (xpi_pass url) (xpi_request E url) xpi_outcome.
Proof.
  intros w r naps Hout. unfold xpi_outcome in Hout. injection Hout as <- <-.
  destruct (download_xpi_pass_eq url w) as (w' & Hrun & Hn & Hs & _).
  unfold xpi_pass, bind. rewrite Hrun. rewrite app_nil_r.
  destruct (xpi_result _); eexists; (split; [reflexivity | auto]).
Qed.

Lemma download_xpi_with_retry_run (url : value) (w : world)
    (r : result bytes) (k : nat) (sl : list Z) :
  simulate E transport xpi_fail_msg xpi_delay (xpi_request E url)
    xpi_outcome 3 (length (net_log w)) = Some (r, k, sl) ->
  exists w',
    download_xpi_with_retry E url w = (r, w') /\
    net_log w' = net_log w ++ repeat (xpi_request E url) k /\
    slept w' = slept w ++ sl.
Proof.
  intros Hsim. unfold download_xpi_with_retry. rewrite download_xpi_loop_eq.
  eapply retry_loop_simulate; [apply xpi_pass_spec | exact Hsim].
Qed.

End Fetcher.

(** ** Properties of the fetcher *)

Section FetcherRuns.

Context (E : env).

(** Whether the [except] clause of the fetcher catches what a pass gave. *)
Definition retried {A} (r : result A) : bool :=
  match r with
  | Raise e => isinstance e transport
  | Ok _ => false
  end.

(** The fetcher after [f] passes that failed on the transport and, if it has
    a pass left, one that did not: its result is the result of that pass, or
    the final failure with the cause of the third pass; it has sent
    [min (f + 1) 3] requests and slept [delay 1 .. delay (min f 2)]. *)
Lemma fetcher_simulate (fail_msg : exn -> string) (delay : Z -> Z)
    (req : request) (result_of : net_outcome -> result bytes)
    (n f : nat) :
  (f <= 3)%nat ->
  (forall i, (i < f)%nat -> retried (result_of (net E (n + i) req)) = true) ->
  (f < 3 -> retried (result_of (net E (n + f) req)) = false)%nat ->
  simulate E transport fail_msg delay req
    (fun o => Some (returning (result_of o), [])) 3 n =
  Some (match f with
        | 3%nat =>
            match result_of (net E (n + 2) req) with
            | Raise e => Raise (Exn RuntimeError (fail_msg e))
            | Ok a => Ok a
            end
        | _ => result_of (net E (n + f) req)
        end,
        Nat.min (f + 1) 3,
        map (fun k => delay (Z.of_nat k)) (seq 1 (Nat.min f 2))).
Proof.
  intros Hf Hfail Hlast.
  assert (Hstep : forall (left : nat) (m : nat),
            simulate E transport fail_msg delay req
              (fun o => Some (returning (result_of o), [])) (S left) m =
            match result_of (net E m req) with
            | Ok a => Some (Ok a, 1%nat, [])
            | Raise e =>
                if isinstance e transport then
                  if 3 - Z.of_nat (S left) + 1 =? 3 then
                    Some (Raise (Exn RuntimeError (fail_msg e)), 1%nat, [])
                  else
                    match simulate E transport fail_msg delay req
                            (fun o => Some (returning (result_of o), []))
                            left (S m) with
                    | Some (r, k, sl) =>
                        Some (r, S k, delay (3 - Z.of_nat (S left) + 1) :: sl)
                    | None => None
                    end
                else Some (Raise e, 1%nat, [])
            end).
  { intros left m. cbn [simulate]. cbv zeta.
    destruct (result_of (net E m req)); reflexivity. }
  assert (Hcaught : forall i, (i < f)%nat ->
            exists e, result_of (net E (n + i) req) = Raise e /\
                      isinstance e transport = true).
  { intros i Hi. specialize (Hfail i Hi).
    destruct (result_of (net E (n + i) req)) as [a | e]; [discriminate |].
    exists e. auto. }
  assert (Hpassed : forall r, (f < 3)%nat ->
            result_of (net E (n + f) req) = r ->
            match r with
            | Raise e => isinstance e transport = false
            | Ok _ => True
            end).
  { intros r Hlt <-. specialize (Hlast Hlt).
    destruct (result_of (net E (n + f) req)); [exact I | exact Hlast]. }
  replace (S n) with (n + 1)%nat in * by lia.
  destruct f as [|[|[|[|f]]]]; try lia.
  - rewrite Hstep. rewrite Nat.add_0_r in *.
    specialize (Hpassed _ ltac:(lia) eq_refl).
    destruct (result_of (net E n req)) as [a | e]; [reflexivity |].
    rewrite Hpassed. reflexivity.
  - destruct (Hcaught 0%nat ltac:(lia)) as (e0 & H0 & Hi0).
    rewrite Nat.add_0_r in H0.
    rewrite Hstep, H0, Hi0. simpl (_ =? _).
    replace (S n) with (n + 1)%nat by lia.
    rewrite Hstep.
    specialize (Hpassed _ ltac:(lia) eq_refl).
    destruct (result_of (net E (n + 1) req)) as [a | e]; [reflexivity |].
    rewrite Hpassed. reflexivity.
  - destruct (Hcaught 0%nat ltac:(lia)) as (e0 & H0 & Hi0).
    destruct (Hcaught 1%nat ltac:(lia)) as (e1 & H1 & Hi1).
    rewrite Nat.add_0_r in H0.
    rewrite Hstep, H0, Hi0. simpl (_ =? _).
    replace (S n) with (n + 1)%nat by lia.
    rewrite Hstep, H1, Hi1. simpl (_ =? _).
    replace (S (n + 1)) with (n + 2)%nat by lia.
    rewrite Hstep.
    specialize (Hpassed _ ltac:(lia) eq_refl).
    destruct (result_of (net E (n + 2) req)) as [a | e]; [reflexivity |].
    rewrite Hpassed. reflexivity.
  - destruct (Hcaught 0%nat ltac:(lia)) as (e0 & H0 & Hi0).
    destruct (Hcaught 1%nat ltac:(lia)) as (e1 & H1 & Hi1).
    destruct (Hcaught 2%nat ltac:(lia)) as (e2 & H2 & Hi2).
    rewrite Nat.add_0_r in H0.
    rewrite Hstep, H0, Hi0. simpl (_ =? _).
    replace (S n) with (n + 1)%nat by lia.
    rewrite Hstep, H1, Hi1. simpl (_ =? _).
    replace (S (n + 1)) with (n + 2)%nat by lia.
    rewrite Hstep, H2, Hi2. simpl (_ =? _).
    reflexivity.
Qed.

(** The schedule of the Chrome download and of the Firefox download. *)
Definition crx_sleeps (f : nat) : list Z :=
  map (fun k => 2 ^ (Z.of_nat k - 1)) (seq 1 (Nat.min f 2)).

Definition xpi_sleeps (f : nat) : list Z :=
  map (fun k => 2 ^ Z.of_nat k) (seq 1 (Nat.min f 2)).

Lemma crx_retry_outcome (id : string) (ver : value) (w : world) (f : nat) :
  let req := crx_request E id ver in
  let n := length (net_log w) in
  (f <= 3)%nat ->
  (forall i, (i < f)%nat -> retried (crx_result (net E (n + i) req)) = true) ->
  (f < 3 -> retried (crx_result (net E (n + f) req)) = false)%nat ->
  exists w',
    download_crx_with_retry E id ver w =
      (match f with
       | 3%nat =>
           match crx_result (net E (n + 2) req) with
           | Raise e => Raise (Exn RuntimeError (crx_fail_msg e))
           | Ok a => Ok a
           end
       | _ => crx_result (net E (n + f) req)
       end, w') /\
    net_log w' = net_log w ++ repeat req (Nat.min (f + 1) 3) /\
    slept w' = slept w ++ crx_sleeps f.
Proof.
  intros req n Hf Hfail Hlast.
  apply download_crx_with_retry_run.
  apply (fetcher_simulate crx_fail_msg crx_delay req crx_result n f Hf Hfail Hlast).
Qed.

Lemma xpi_retry_outcome (url : value) (w : world) (f : nat) :
  let req := xpi_request E url in
  let n := length (net_log w) in
  (f <= 3)%nat ->
  (forall i, (i < f)%nat -> retried (xpi_result E (net E (n + i) req)) = true) ->
  (f < 3 -> retried (xpi_result E (net E (n + f) req)) = false)%nat ->
  exists w',
    download_xpi_with_retry E url w =
      (match f with
       | 3%nat =>
           match xpi_result E (net E (n + 2) req) with
           | Raise e => Raise (Exn RuntimeError (xpi_fail_msg e))
           | Ok a => Ok a
           end
       | _ => xpi_result E (net E (n + f) req)
       end, w') /\
    net_log w' = net_log w ++ repeat req (Nat.min (f + 1) 3) /\
    slept w' = slept w ++ xpi_sleeps f.
Proof.
  intros req n Hf Hfail Hlast.
  apply download_xpi_with_retry_run.
  apply (fetcher_simulate xpi_fail_msg xpi_delay req (xpi_result E) n f Hf Hfail Hlast).
Qed.

(** An error status comes out of [urlopen] as [HTTPError], in either
    download. *)
Lemma crx_result_error (resp : response) :
  error_status resp = true ->
  crx_result (NetResp resp) = Raise (Exn HTTPError (http_error_str resp)).
Proof. intros Herr. unfold crx_result. now rewrite opened_error. Qed.

Lemma xpi_result_error (resp : response) :
  error_status resp = true ->
  xpi_result E (NetResp resp) = Raise (Exn HTTPError (http_error_str resp)).
Proof. intros Herr. unfold xpi_result. now rewrite opened_error. Qed.

(** A response of a success status other than 200 makes either download
    raise [RuntimeError], which the [except] clause does not catch. *)
Lemma crx_result_status (resp : response) :
  200 <= status resp < 300 -> status resp <> 200 ->
  crx_result (NetResp resp) =
    Raise (Exn RuntimeError
             ("HTTP " +:+ pretty (status resp) +:+ ": " +:+ reason resp)).
Proof.
  intros Hok Hst. unfold crx_result. rewrite opened_ok by assumption.
  assert ((status resp =? 404) = false) as -> by (apply Z.eqb_neq; lia).
  apply Z.eqb_neq in Hst. rewrite Hst. reflexivity.
Qed.

Lemma xpi_result_status (resp : response) :
  200 <= status resp < 300 -> status resp <> 200 ->
  xpi_result E (NetResp resp) =
    Raise (Exn RuntimeError ("Download failed: HTTP " +:+ pretty (status resp))).
Proof.
  intros Hok Hst. unfold xpi_result. rewrite opened_ok by assumption.
  apply Z.eqb_neq in Hst. rewrite Hst. reflexivity.
Qed.

Lemma crx_result_ok (resp : response) :
  status resp = 200 -> read_error resp = None ->
  crx_result (NetResp resp) = Ok (body resp).
Proof.
  intros Hst Hrd. unfold crx_result. rewrite opened_200 by assumption.
  rewrite Hst, Hrd. reflexivity.
Qed.

(** The [content-length] header of a response, when there is one, is a
    number for [int]. *)
Definition length_header_ok (resp : response) : Prop :=
  match content_length resp with
  | Some s => exists total, py_int E s = Gives total
  | None => True
  end.

Lemma xpi_result_ok (resp : response) :
  status resp = 200 -> read_error resp = None -> length_header_ok resp ->
  xpi_result E (NetResp resp) = Ok (body resp).
Proof.
  intros Hst Hrd Hhd. unfold xpi_result, length_header_ok in *.
  rewrite opened_200 by assumption.
  rewrite Hst, Hrd. simpl.
  destruct (content_length resp) as [s |]; [| reflexivity].
  destruct Hhd as [total ->]. reflexivity.
Qed.

End FetcherRuns.

(** C3, as the program runs.  [urlopen] raises [HTTPError] for a response
    of an error status, and [HTTPError] is a [URLError]: the [except] clause
    of either download catches it.  An error status is therefore retried
    like a failure of the transport.  Three of them in a row make three
    requests with the sleeps of the schedule between them, and the function
    raises the final failure of the loop, not the status error of its own
    branches; one of them followed by a good response is not reported at
    all. *)
Theorem error_status_is_retried (E : env) (w : world) :
  (forall id ver r1 r2 r3,
     let req := crx_request E id ver in
     let n := length (net_log w) in
     net E n req = NetResp r1 ->
     net E (n + 1) req = NetResp r2 ->
     net E (n + 2) req = NetResp r3 ->
     error_status r1 = true ->
     error_status r2 = true ->
     error_status r3 = true ->
     exists w',
       download_crx_with_retry E id ver w =
         (Raise (Exn RuntimeError
                   ("Failed to download after 3 attempts: " +:+
                    ("HTTP Error " +:+ pretty (status r3) +:+ ": " +:+
                     reason r3))), w') /\
       net_log w' = net_log w ++ [req; req; req] /\
       slept w' = slept w ++ [1; 2]) /\
  (forall url r1 r2 r3,
     let req := xpi_request E url in
     let n := length (net_log w) in
     net E n req = NetResp r1 ->
     net E (n + 1) req = NetResp r2 ->
     net E (n + 2) req = NetResp r3 ->
     error_status r1 = true ->
     error_status r2 = true ->
     error_status r3 = true ->
     exists w',
       download_xpi_with_retry E url w =
         (Raise (Exn RuntimeError
                   ("Failed to download XPI: " +:+
                    ("HTTP Error " +:+ pretty (status r3) +:+ ": " +:+
                     reason r3))), w') /\
       net_log w' = net_log w ++ [req; req; req] /\
       slept w' = slept w ++ [2; 4]) /\
  (forall id ver r1 resp,
     let req := crx_request E id ver in
     let n := length (net_log w) in
     net E n req = NetResp r1 ->
     error_status r1 = true ->
     net E (n + 1) req = NetResp resp ->
     status resp = 200 -> read_error resp = None ->
     exists w',
       download_crx_with_retry E id ver w = (Ok (body resp), w') /\
       net_log w' = net_log w ++ [req; req] /\
       slept w' = slept w ++ [1]).
Proof.
  split; [| split].
  - intros id ver r1 r2 r3 req n H1 H2 H3 He1 He2 He3.
    destruct (crx_retry_outcome E id ver w 3) as (w' & Hrun & Hlog & Hslept).
    + lia.
    + intros i Hi. destruct i as [|[|[|i]]]; [| | | lia]; fold req n.
      * rewrite Nat.add_0_r, H1, crx_result_error by assumption. reflexivity.
      * rewrite H2, crx_result_error by assumption. reflexivity.
      * rewrite H3, crx_result_error by assumption. reflexivity.
    + lia.
    + exists w'. rewrite Hrun, Hlog, Hslept. fold req n.
      rewrite H3, crx_result_error by assumption. auto.
  - intros url r1 r2 r3 req n H1 H2 H3 He1 He2 He3.
    destruct (xpi_retry_outcome E url w 3) as (w' & Hrun & Hlog & Hslept).
    + lia.
    + intros i Hi. destruct i as [|[|[|i]]]; [| | | lia]; fold req n.
      * rewrite Nat.add_0_r, H1, xpi_result_error by assumption. reflexivity.
      * rewrite H2, xpi_result_error by assumption. reflexivity.
      * rewrite H3, xpi_result_error by assumption. reflexivity.
    + lia.
    + exists w'. rewrite Hrun, Hlog, Hslept. fold req n.
      rewrite H3, xpi_result_error by assumption. auto.
  - intros id ver r1 resp req n H1 He1 H2 Hst Hrd.
    destruct (crx_retry_outcome E id ver w 1) as (w' & Hrun & Hlog & Hslept).
    + lia.
    + intros i Hi. destruct i as [|i]; [| lia]. fold req n.
      rewrite Nat.add_0_r, H1, crx_result_error by assumption. reflexivity.
    + intros _. fold req n. rewrite H2, crx_result_ok by assumption.
      reflexivity.
    + exists w'. rewrite Hrun, Hlog, Hslept. fold req n.
      rewrite H2, crx_result_ok by assumption. auto.
Qed.

(** C4. Two transport failures and then a good response: the fetcher
    returns the body after three requests.  Three transport failures: it
    raises after three requests, and the message holds the cause of the
    last. *)
Theorem fetcher_three_attempts (E : env) (w : world) :
  (forall id ver c1 m1 c2 m2 resp,
     let req := crx_request E id ver in
     let n := length (net_log w) in
     net E n req = NetRaise c1 m1 ->
     net E (n + 1) req = NetRaise c2 m2 ->
     net E (n + 2) req = NetResp resp ->
     isinstance (Exn c1 m1) transport = true ->
     isinstance (Exn c2 m2) transport = true ->
     status resp = 200 -> read_error resp = None ->
     exists w',
       download_crx_with_retry E id ver w = (Ok (body resp), w') /\
       net_log w' = net_log w ++ [req; req; req]) /\
  (forall id ver c1 m1 c2 m2 c3 m3,
     let req := crx_request E id ver in
     let n := length (net_log w) in
     net E n req = NetRaise c1 m1 ->
     net E (n + 1) req = NetRaise c2 m2 ->
     net E (n + 2) req = NetRaise c3 m3 ->
     isinstance (Exn c1 m1) transport = true ->
     isinstance (Exn c2 m2) transport = true ->
     isinstance (Exn c3 m3) transport = true ->
     exists w',
       download_crx_with_retry E id ver w =
         (Raise (Exn RuntimeError
                   ("Failed to download after 3 attempts: " +:+ m3)), w') /\
       net_log w' = net_log w ++ [req; req; req]) /\
  (forall url c1 m1 c2 m2 resp,
     let req := xpi_request E url in
     let n := length (net_log w) in
     net E n req = NetRaise c1 m1 ->
     net E (n + 1) req = NetRaise c2 m2 ->
     net E (n + 2) req = NetResp resp ->
     isinstance (Exn c1 m1) transport = true ->
     isinstance (Exn c2 m2) transport = true ->
     status resp = 200 -> read_error resp = None ->
     length_header_ok E resp ->
     exists w',
       download_xpi_with_retry E url w = (Ok (body resp), w') /\
       net_log w' = net_log w ++ [req; req; req]) /\
  (forall url c1 m1 c2 m2 c3 m3,
     let req := xpi_request E url in
     let n := length (net_log w) in
     net E n req = NetRaise c1 m1 ->
     net E (n + 1) req = NetRaise c2 m2 ->
     net E (n + 2) req = NetRaise c3 m3 ->
     isinstance (Exn c1 m1) transport = true ->
     isinstance (Exn c2 m2) transport = true ->
     isinstance (Exn c3 m3) transport = true ->
     exists w',
       download_xpi_with_retry E url w =
         (Raise (Exn RuntimeError ("Failed to download XPI: " +:+ m3)), w') /\
       net_log w' = net_log w ++ [req; req; req]).
Proof.
  repeat split.
  - intros id ver c1 m1 c2 m2 resp req n H0 H1 H2 Hc1 Hc2 Hst Hrd.
    destruct (crx_retry_outcome E id ver w 2) as (w' & Hrun & Hlog & _).
    + lia.
    + intros i Hi. destruct i as [|[|i]]; [| | lia].
      * rewrite Nat.add_0_r. fold req n. rewrite H0. exact Hc1.
      * fold req n. rewrite H1. exact Hc2.
    + intros _. fold req n. rewrite H2, crx_result_ok by assumption. reflexivity.
    + exists w'. rewrite Hrun, Hlog. fold req n.
      rewrite H2, crx_result_ok by assumption. auto.
  - intros id ver c1 m1 c2 m2 c3 m3 req n H0 H1 H2 Hc1 Hc2 Hc3.
    destruct (crx_retry_outcome E id ver w 3) as (w' & Hrun & Hlog & _).
    + lia.
    + intros i Hi. destruct i as [|[|[|i]]]; [| | | lia].
      * rewrite Nat.add_0_r. fold req n. rewrite H0. exact Hc1.
      * fold req n. rewrite H1. exact Hc2.
      * fold req n. rewrite H2. exact Hc3.
    + lia.
    + exists w'. rewrite Hrun, Hlog. fold req n. rewrite H2. auto.
  - intros url c1 m1 c2 m2 resp req n H0 H1 H2 Hc1 Hc2 Hst Hrd Hhd.
    destruct (xpi_retry_outcome E url w 2) as (w' & Hrun & Hlog & _).
    + lia.
    + intros i Hi. destruct i as [|[|i]]; [| | lia].
      * rewrite Nat.add_0_r. fold req n. rewrite H0. exact Hc1.
      * fold req n. rewrite H1. exact Hc2.
    + intros _. fold req n. rewrite H2, xpi_result_ok by assumption. reflexivity.
    + exists w'. rewrite Hrun, Hlog. fold req n.
      rewrite H2, xpi_result_ok by assumption. auto.
  - intros url c1 m1 c2 m2 c3 m3 req n H0 H1 H2 Hc1 Hc2 Hc3.
    destruct (xpi_retry_outcome E url w 3) as (w' & Hrun & Hlog & _).
    + lia.
    + intros i Hi. destruct i as [|[|[|i]]]; [| | | lia].
      * rewrite Nat.add_0_r. fold req n. rewrite H0. exact Hc1.
      * fold req n. rewrite H1. exact Hc2.
      * fold req n. rewrite H2. exact Hc3.
    + lia.
    + exists w'. rewrite Hrun, Hlog. fold req n. rewrite H2. auto.
Qed.

(** C5, as the code has it.  After its [k]-th failed pass, [k] being 1 or 2,
    the Chrome download sleeps [2^(k-1)] seconds and the Firefox download
    [2^k] seconds; neither sleeps after the third. *)
Theorem backoff_schedule (E : env) (w : world) (f : nat) :
  (f <= 3)%nat ->
  (forall id ver,
     let req := crx_request E id ver in
     let n := length (net_log w) in
     (forall i, (i < f)%nat -> retried (crx_result (net E (n + i) req)) = true) ->
     (f < 3 -> retried (crx_result (net E (n + f) req)) = false)%nat ->
     slept (snd (download_crx_with_retry E id ver w)) =
       slept w ++ map (fun k => 2 ^ (Z.of_nat k - 1)) (seq 1 (Nat.min f 2))) /\
  (forall url,
     let req := xpi_request E url in
     let n := length (net_log w) in
     (forall i, (i < f)%nat -> retried (xpi_result E (net E (n + i) req)) = true) ->
     (f < 3 -> retried (xpi_result E (net E (n + f) req)) = false)%nat ->
     slept (snd (download_xpi_with_retry E url w)) =
       slept w ++ map (fun k => 2 ^ Z.of_nat k) (seq 1 (Nat.min f 2))).
Proof.
  intros Hf. split.
  - intros id ver req n Hfail Hlast.
    destruct (crx_retry_outcome E id ver w f Hf Hfail Hlast)
      as (w' & -> & _ & Hslept).
    exact Hslept.
  - intros url req n Hfail Hlast.
    destruct (xpi_retry_outcome E url w f Hf Hfail Hlast)
      as (w' & -> & _ & Hslept).
    exact Hslept.
Qed.

(** *** The fetcher on sample networks *)

Module FetcherSamples.

Import Sample.

Definition version : value := JStr "119.0.6045.0".
Definition xpi_url : value :=
  JStr "https://addons.mozilla.org/firefox/downloads/file/4000000/sample.xpi".

(** Two timeouts, then the package. *)
Definition E_flaky : env := env_of (flaky 2 (ok_response crx_package)).
(** Timeouts only. *)
Definition E_down : env := env_of (always timed_out).
(** A 404 to every request. *)
Definition E_missing : env :=
  env_of (always (NetResp (status_response 404 "Not Found"))).

Definition w0 : world := initial_world ∅.

End FetcherSamples.

Lemma error_status_is_retried_witness :
  exists w',
    download_crx_with_retry FetcherSamples.E_missing Sample.id1
      FetcherSamples.version FetcherSamples.w0 =
      (Raise (Exn RuntimeError
                "Failed to download after 3 attempts: HTTP Error 404: Not Found"),
       w') /\
    length (net_log w') = 3%nat /\
    slept w' = [1; 2].
Proof.
  destruct (proj1 (error_status_is_retried
                     FetcherSamples.E_missing FetcherSamples.w0)
              Sample.id1 FetcherSamples.version
              (Sample.status_response 404 "Not Found")
              (Sample.status_response 404 "Not Found")
              (Sample.status_response 404 "Not Found")
              eq_refl eq_refl eq_refl eq_refl eq_refl eq_refl)
    as (w' & Hrun & Hlog & Hslept).
  exists w'. rewrite Hrun, Hlog, Hslept. repeat split; reflexivity.
Defined.

Lemma fetcher_three_attempts_witness :
  exists w',
    download_crx_with_retry FetcherSamples.E_flaky Sample.id1
      FetcherSamples.version FetcherSamples.w0 =
      (Ok Sample.crx_package, w') /\
    length (net_log w') = 3%nat.
Proof.
  destruct (proj1 (fetcher_three_attempts
                     FetcherSamples.E_flaky FetcherSamples.w0)
              Sample.id1 FetcherSamples.version
              URLError "<urlopen error timed out>"
              URLError "<urlopen error timed out>"
              (Sample.ok_response Sample.crx_package)
              eq_refl eq_refl eq_refl eq_refl eq_refl eq_refl eq_refl)
    as (w' & Hrun & Hlog).
  exists w'. split; [exact Hrun |]. rewrite Hlog. reflexivity.
Defined.

Lemma backoff_schedule_witness :
  slept (snd (download_crx_with_retry FetcherSamples.E_flaky Sample.id1
                FetcherSamples.version FetcherSamples.w0)) = [1; 2] /\
  slept (snd (download_xpi_with_retry FetcherSamples.E_flaky
                FetcherSamples.xpi_url FetcherSamples.w0)) = [2; 4].
Proof.
  assert (Hf : (2 <= 3)%nat) by lia.
  split.
  - apply (proj1 (backoff_schedule FetcherSamples.E_flaky FetcherSamples.w0 2 Hf)
             Sample.id1 FetcherSamples.version).
    + intros i Hi. destruct i as [|[|i]]; [reflexivity | reflexivity | lia].
    + intros _. reflexivity.
  - apply (proj2 (backoff_schedule FetcherSamples.E_flaky FetcherSamples.w0 2 Hf)
             FetcherSamples.xpi_url).
    + intros i Hi. destruct i as [|[|i]]; [reflexivity | reflexivity | lia].
    + intros _. reflexivity.
Defined.

(** C5 as stated fails on the Firefox download: after its first and second
    failed pass it sleeps 2 and 4 seconds, not [2^0] and [2^1]. *)
Lemma backoff_schedule_counterexample :
  slept (snd (download_xpi_with_retry FetcherSamples.E_flaky
                FetcherSamples.xpi_url FetcherSamples.w0)) = [2; 4] /\
  [2; 4] <> [2 ^ (1 - 1); 2 ^ (2 - 1)].
Proof.
  split; [vm_compute; reflexivity | discriminate].
Qed.

(** ** The version resolver for Firefox: [fetch_firefox_addon_info] *)

(** The classes both loops of [fetch_firefox_addon_info] catch. *)
Definition api_errors : list exn_class := [URLError; OSError; JSONDecodeError].

Section Resolver.

Context (E : env).

(** What a pass of either loop makes of what the network did, as far as
    its status tests go: [urlopen] raises, or the response it returns is not
    a 200 ([None] stands for a 200, which the rest of the pass reads). *)
Definition api_outcome (error_prefix : string) (o : net_outcome)
    : option (result (flow value) * list Z) :=
  match opened o with
  | NetRaise c msg => Some (Raise (Exn c msg), [])
  | NetResp resp =>
      if status resp =? 404 then
        Some (Raise (Exn RuntimeError "Firefox addon not found or invalid ID."), [])
      else if status resp =? 429 then Some (Ok Continue, [5])
      else if negb (status resp =? 200) then
        Some (Raise (Exn RuntimeError
                       (error_prefix +:+ pretty (status resp))), [])
      else None
  end.

Lemma current_version_pass_spec (url : string) :
  pass_spec E (current_version_pass E url) (api_request url)
    (api_outcome "API error: HTTP ").
Proof.
  intros w r naps Hout. unfold api_outcome in Hout.
  unfold current_version_pass, bind, urlopen.
  destruct (opened (net E _ _)) as [c msg | resp].
  { injection Hout as <- <-. eexists. split; [reflexivity |].
    simpl. rewrite app_nil_r. auto. }
  destruct (status resp =? 404).
  { injection Hout as <- <-. eexists. split; [reflexivity |].
    simpl. rewrite app_nil_r. auto. }
  destruct (status resp =? 429).
  { injection Hout as <- <-. rewrite logging_eq, sleep_eq.
    eexists. split; [reflexivity |].
    autorewrite with world. simpl. auto. }
  destruct (negb (status resp =? 200)); [| discriminate].
  injection Hout as <- <-. eexists. split; [reflexivity |].
  simpl. rewrite app_nil_r. auto.
Qed.

Lemma versions_pass_spec (url version : string) :
  pass_spec E (versions_pass E url version) (api_request url)
    (api_outcome "Versions API error: HTTP ").
Proof.
  intros w r naps Hout. unfold api_outcome in Hout.
  unfold versions_pass, bind, urlopen.
  destruct (opened (net E _ _)) as [c msg | resp].
  { injection Hout as <- <-. eexists. split; [reflexivity |].
    simpl. rewrite app_nil_r. auto. }
  destruct (status resp =? 404).
  { injection Hout as <- <-. eexists. split; [reflexivity |].
    simpl. rewrite app_nil_r. auto. }
  destruct (status resp =? 429).
  { injection Hout as <- <-. rewrite logging_eq, sleep_eq.
    eexists. split; [reflexivity |].
    autorewrite with world. simpl. auto. }
  destruct (negb (status resp =? 200)); [| discriminate].
  injection Hout as <- <-. eexists. split; [reflexivity |].
  simpl. rewrite app_nil_r. auto.
Qed.

Definition current_fail_msg (e : exn) : string :=
  "Failed to fetch addon info: " +:+ exn_str e.

Definition current_warn (attempt : Z) (e : exn) : string :=
  "API fetch attempt " +:+ pretty attempt +:+ " failed: " +:+ exn_str e +:+
  ". Retrying...".

Definition versions_fail_msg (e : exn) : string :=
  "Failed to fetch versions: " +:+ exn_str e.

Definition versions_warn (attempt : Z) (e : exn) : string :=
  "Versions fetch attempt " +:+ pretty attempt +:+ " failed: " +:+
  exn_str e +:+ ". Retrying...".

Definition api_delay (attempt : Z) : Z := 2 ^ attempt.

Lemma current_version_loop_eq (url : string) (left : nat) :
  current_version_loop E left url =
    retry_loop (current_version_pass E url) api_errors current_fail_msg
      current_warn api_delay left.
Proof.
  induction left as [|left IH]; [reflexivity |].
  simpl. rewrite IH. reflexivity.
Qed.

Lemma versions_loop_eq (url version : string) (left : nat) :
  versions_loop E left url version =
    retry_loop (versions_pass E url version) api_errors versions_fail_msg
      versions_warn api_delay left.
Proof.
  induction left as [|left IH]; [reflexivity |].
  simpl. rewrite IH. reflexivity.
Qed.

(** The request, the prefix of the status error and the message of the final
    failure of the branch [fetch_firefox_addon_info] takes. *)
Definition info_request (addon_id : string) (version : option string) : request :=
  api_request (match version with
               | None => addon_url addon_id
               | Some _ => addon_versions_url addon_id
               end).

Definition info_error_prefix (version : option string) : string :=
  match version with
  | None => "API error: HTTP "
  | Some _ => "Versions API error: HTTP "
  end.

Definition info_fail_msg (version : option string) : exn -> string :=
  match version with
  | None => current_fail_msg
  | Some _ => versions_fail_msg
  end.

(** [fetch_firefox_addon_info] replayed on the answers of the network. *)
Lemma fetch_firefox_addon_info_run (addon_id : string) (version : option string)
    (w : world) (r : result value) (k : nat) (sl : list Z) :
  simulate E api_errors (info_fail_msg version) api_delay
    (info_request addon_id version) (api_outcome (info_error_prefix version))
    3 (length (net_log w)) = Some (r, k, sl) ->
  exists w',
    fetch_firefox_addon_info E addon_id version w = (r, w') /\
    net_log w' = net_log w ++ repeat (info_request addon_id version) k /\
    slept w' = slept w ++ sl.
Proof.
  intros Hsim. unfold fetch_firefox_addon_info.
  destruct version as [version |].
  - rewrite versions_loop_eq.
    eapply retry_loop_simulate; [apply versions_pass_spec | exact Hsim].
  - rewrite current_version_loop_eq.
    eapply retry_loop_simulate; [apply current_version_pass_spec | exact Hsim].
Qed.

Lemma api_outcome_error (prefix : string) (resp : response) :
  error_status resp = true ->
  api_outcome prefix (NetResp resp) =
    Some (Raise (Exn HTTPError (http_error_str resp)), []).
Proof. intros Herr. unfold api_outcome. now rewrite opened_error. Qed.

End Resolver.

(** C10, as the program runs.  A 429 never reaches the branch written for
    it: [urlopen] raises [HTTPError] for it, and the [except] clause of
    either loop catches that.  Three of them in a row make three requests
    with sleeps of 2 and 4 seconds, not three waits of five seconds, and the
    function raises the final failure of the loop with the status in its
    message, not [RuntimeError("Unreachable")]. *)
Theorem rate_limit_is_retried_as_error (E : env) (w : world)
    (addon_id : string) (version : option string) (r1 r2 r3 : response) :
  let req := info_request addon_id version in
  let n := length (net_log w) in
  net E n req = NetResp r1 ->
  net E (n + 1) req = NetResp r2 ->
  net E (n + 2) req = NetResp r3 ->
  status r1 = 429 -> status r2 = 429 -> status r3 = 429 ->
  exists w',
    fetch_firefox_addon_info E addon_id version w =
      (Raise (Exn RuntimeError
                ((match version with
                  | None => "Failed to fetch addon info: "
                  | Some _ => "Failed to fetch versions: "
                  end) +:+ ("HTTP Error 429: " +:+ reason r3))), w') /\
    net_log w' = net_log w ++ [req; req; req] /\
    slept w' = slept w ++ [2; 4].
Proof.
  intros req n H1 H2 H3 Hs1 Hs2 Hs3.
  assert (Herr : forall r, status r = 429 -> error_status r = true).
  { intros r Hr. apply error_status_iff. lia. }
  assert (Hmsg : (match version with
                  | None => "Failed to fetch addon info: "
                  | Some _ => "Failed to fetch versions: "
                  end) +:+ ("HTTP Error 429: " +:+ reason r3) =
                 info_fail_msg version (Exn HTTPError (http_error_str r3))).
  { unfold http_error_str. rewrite Hs3. destruct version; reflexivity. }
  rewrite Hmsg.
  apply (fetch_firefox_addon_info_run E addon_id version w _ 3 [2; 4]).
  fold req n. cbn [simulate].
  rewrite H1, (api_outcome_error _ r1 (Herr r1 Hs1)).
  change (isinstance (Exn HTTPError (http_error_str r1)) api_errors) with true.
  simpl (_ =? _).
  replace (S n) with (n + 1)%nat by lia.
  rewrite H2, (api_outcome_error _ r2 (Herr r2 Hs2)).
  change (isinstance (Exn HTTPError (http_error_str r2)) api_errors) with true.
  simpl (_ =? _).
  replace (S (n + 1)) with (n + 2)%nat by lia.
  rewrite H3, (api_outcome_error _ r3 (Herr r3 Hs3)).
  change (isinstance (Exn HTTPError (http_error_str r3)) api_errors) with true.
  simpl (_ =? _).
  reflexivity.
Qed.

Module ResolverSamples.

(** A rate limit on every request. *)
Definition E_limited : env :=
  Sample.env_of
    (Sample.always (NetResp (Sample.status_response 429 "Too Many Requests"))).

End ResolverSamples.

Lemma rate_limit_is_retried_as_error_witness :
  exists w',
    fetch_firefox_addon_info ResolverSamples.E_limited "ublock-origin" None
      (initial_world ∅) =
      (Raise (Exn RuntimeError
                "Failed to fetch addon info: HTTP Error 429: Too Many Requests"),
       w') /\
    length (net_log w') = 3%nat /\
    slept w' = [2; 4].
Proof.
  destruct (rate_limit_is_retried_as_error
              ResolverSamples.E_limited (initial_world ∅) "ublock-origin" None
              (Sample.status_response 429 "Too Many Requests")
              (Sample.status_response 429 "Too Many Requests")
              (Sample.status_response 429 "Too Many Requests")
              eq_refl eq_refl eq_refl eq_refl eq_refl eq_refl)
    as (w' & Hrun & Hlog & Hslept).
  exists w'. rewrite Hrun, Hlog, Hslept. repeat split; reflexivity.
Defined.

(** ** What the network functions leave alone

    A computation is [quiet] when it does not touch the files and raises
    instances of [Exception] only, never [SystemExit]. *)

Definition exn_only {A} (r : result A) : Prop :=
  forall e, r = Raise e -> isinstance e [Exception] = true.

Definition quiet {A} (m : M A) : Prop :=
  forall w, fs (snd (m w)) = fs w /\ exn_only (fst (m w)).

Lemma isinstance_Exception (c : exn_class) (msg : string) :
  isinstance (Exn c msg) [Exception] = true.
Proof. destruct c; reflexivity. Qed.

Lemma exn_only_Ok {A} (a : A) : exn_only (Ok a).
Proof. intros e H. discriminate. Qed.

Lemma exn_only_Exn {A} (c : exn_class) (msg : string) :
  exn_only (@Raise A (Exn c msg)).
Proof. intros e H. injection H as <-. apply isinstance_Exception. Qed.

Lemma exn_only_of_lib {A} (r : lib_result A) : exn_only (of_lib r).
Proof. destruct r; [apply exn_only_Ok | apply exn_only_Exn]. Qed.

Lemma exn_only_get v key default : exn_only (get v key default).
Proof.
  destruct v; simpl; try apply exn_only_Exn.
  destruct (assoc key fields); apply exn_only_Ok.
Qed.

Lemma exn_only_iter v : exn_only (iter v).
Proof. destruct v; simpl; try apply exn_only_Exn; apply exn_only_Ok. Qed.

Lemma exn_only_item0 v : exn_only (item0 v).
Proof.
  destruct v as [| | | s | items |]; simpl; try apply exn_only_Exn.
  - destruct (chars s); [apply exn_only_Exn | apply exn_only_Ok].
  - destruct items; [apply exn_only_Exn | apply exn_only_Ok].
Qed.

Lemma exn_only_item v key : exn_only (item v key).
Proof.
  destruct v; simpl; try apply exn_only_Exn.
  destruct (assoc key fields); [apply exn_only_Ok | apply exn_only_Exn].
Qed.

Lemma exn_only_str_join sep items : exn_only (str_join sep items).
Proof.
  induction items as [|v items IH]; [apply exn_only_Ok |].
  destruct v; try apply exn_only_Exn.
  simpl. destruct items as [|v' items']; [apply exn_only_Ok |].
  destruct (str_join sep (v' :: items')) as [t | e] eqn:Hj.
  - apply exn_only_Ok.
  - intros e' H. injection H as <-. apply IH. reflexivity.
Qed.

Lemma exn_only_crx_to_zip crx : exn_only (crx_to_zip crx).
Proof.
  unfold crx_to_zip.
  destruct (negb _); [apply exn_only_Exn |].
  destruct (_ <? _); [apply exn_only_Exn |].
  unfold struct_unpack_I.
  destruct (slice 8 12 crx) as [|? [|? [|? [|? [|? ?]]]]];
    try apply exn_only_Exn.
  destruct (_ >? _); [apply exn_only_Exn | apply exn_only_Ok].
Qed.

Create HintDb quiet discriminated.

Lemma quiet_ret {A} (a : A) : quiet (ret a).
Proof. intros w. split; [reflexivity | apply exn_only_Ok]. Qed.

Lemma quiet_raise {A} (c : exn_class) (msg : string) :
  quiet (@raise A (Exn c msg)).
Proof. intros w. split; [reflexivity | apply exn_only_Exn]. Qed.

Lemma quiet_lift {A} (r : result A) : exn_only r -> quiet (lift r).
Proof. intros H w. split; [reflexivity | exact H]. Qed.

Lemma quiet_bind {A B} (m : M A) (f : A -> M B) :
  quiet m -> (forall a, quiet (f a)) -> quiet (bind m f).
Proof.
  intros Hm Hf w. unfold bind.
  destruct (Hm w) as [Hfs Hex].
  destruct (m w) as [[a | e] w1]; simpl in *.
  - destruct (Hf a w1) as [Hfs' Hex']. split; [congruence | exact Hex'].
  - split; [exact Hfs |].
    intros e' H. injection H as <-. apply Hex. reflexivity.
Qed.

Lemma quiet_try_except {A} (m : M A) (cs : list exn_class) (h : exn -> M A) :
  quiet m -> (forall e, quiet (h e)) -> quiet (try_except m cs h).
Proof.
  intros Hm Hh w. unfold try_except.
  destruct (Hm w) as [Hfs Hex].
  destruct (m w) as [[a | e] w1]; simpl in *.
  - split; [exact Hfs | apply exn_only_Ok].
  - destruct (isinstance e cs).
    + destruct (Hh e w1) as [Hfs' Hex']. split; [congruence | exact Hex'].
    + split; [exact Hfs | exact Hex].
Qed.

Lemma quiet_if {A} (b : bool) (m1 m2 : M A) :
  quiet m1 -> quiet m2 -> quiet (if b then m1 else m2).
Proof. destruct b; auto. Qed.

Lemma quiet_urlopen E req : quiet (urlopen E req).
Proof.
  intros w. unfold urlopen.
  destruct (opened (net E _ _)); (split; [reflexivity |]);
    [apply exn_only_Exn | apply exn_only_Ok].
Qed.

Lemma quiet_sleep s : quiet (sleep s).
Proof. intros w. split; [reflexivity | apply exn_only_Ok]. Qed.

Lemma quiet_logging l msg : quiet (logging l msg).
Proof.
  intros w. unfold logging.
  destruct (_ <=? _); (split; [reflexivity | apply exn_only_Ok]).
Qed.

Lemma quiet_print msg : quiet (print msg).
Proof. intros w. split; [reflexivity | apply exn_only_Ok]. Qed.

Lemma quiet_pbar_update n : quiet (pbar_update n).
Proof. intros w. split; [reflexivity | apply exn_only_Ok]. Qed.

Lemma quiet_resp_read resp : quiet (resp_read resp).
Proof.
  unfold resp_read. destruct (read_error resp) as [[c msg] |];
    [apply quiet_raise | apply quiet_ret].
Qed.

#[local] Hint Resolve quiet_ret quiet_raise quiet_lift quiet_bind
  quiet_try_except quiet_if quiet_urlopen quiet_sleep quiet_logging
  quiet_print quiet_pbar_update quiet_resp_read
  exn_only_Ok exn_only_Exn exn_only_of_lib exn_only_get exn_only_iter
  exn_only_item0 exn_only_item exn_only_str_join exn_only_crx_to_zip : quiet.

(** A goal [quiet m] for [m] built from the operations above: the binds and
    branches are taken apart, the leaves are closed from the hints. *)
Ltac quiet_step :=
  match goal with
  | |- quiet (bind _ _) => apply quiet_bind; [| intros ?]
  | |- quiet (try_except _ _ _) => apply quiet_try_except; [| intros ?]
  | |- quiet (if _ then _ else _) => apply quiet_if
  | |- quiet (match ?x with Return _ => _ | Continue => _ end) => destruct x
  | |- quiet (let _ := _ in _) => cbv zeta
  | |- quiet (lift _) => apply quiet_lift
  | |- _ => solve [auto with quiet]
  end.

Ltac quiet_tac := repeat quiet_step.

Section QuietProgram.

Context (E : env).

Lemma quiet_retry_loop {A} (pass : M (flow A)) cs fail_msg warn delay left :
  quiet pass -> quiet (retry_loop pass cs fail_msg warn delay left).
Proof.
  intros Hpass. induction left as [|left IH]; simpl; quiet_tac.
Qed.

Lemma quiet_download_crx id ver : quiet (download_crx E id ver).
Proof. unfold download_crx. quiet_tac. Qed.

Lemma quiet_download_crx_with_retry id ver :
  quiet (download_crx_with_retry E id ver).
Proof.
  unfold download_crx_with_retry. rewrite download_crx_loop_eq.
  apply quiet_retry_loop. unfold crx_pass.
  pose proof (quiet_download_crx id ver). quiet_tac.
Qed.

Lemma quiet_scan_entries entries : quiet (scan_entries entries).
Proof.
  induction entries as [|entry rest IH]; simpl; quiet_tac.
Qed.

Lemma quiet_get_latest_chrome_version : quiet (get_latest_chrome_version E).
Proof.
  unfold get_latest_chrome_version.
  pose proof quiet_scan_entries. quiet_tac.
Qed.

Lemma quiet_scan_versions results version :
  quiet (scan_versions results version).
Proof.
  induction results as [|ver rest IH]; simpl; quiet_tac.
Qed.

Lemma quiet_current_version_pass url : quiet (current_version_pass E url).
Proof. unfold current_version_pass. quiet_tac. Qed.

Lemma quiet_versions_pass url version : quiet (versions_pass E url version).
Proof.
  unfold versions_pass. pose proof quiet_scan_versions. quiet_tac.
Qed.

Lemma quiet_fetch_firefox_addon_info addon_id version :
  quiet (fetch_firefox_addon_info E addon_id version).
Proof.
  unfold fetch_firefox_addon_info. destruct version as [version |].
  - rewrite versions_loop_eq. apply quiet_retry_loop, quiet_versions_pass.
  - rewrite current_version_loop_eq.
    apply quiet_retry_loop, quiet_current_version_pass.
Qed.

Lemma quiet_read_chunks fuel bar chunk_size rest data :
  quiet (read_chunks fuel bar chunk_size rest data).
Proof.
  revert rest data. induction fuel as [|fuel IH]; intros rest data; simpl.
  - quiet_tac.
  - destruct (firstn chunk_size rest); quiet_tac.
Qed.

Lemma quiet_download_xpi_pass url : quiet (download_xpi_pass E url).
Proof.
  unfold download_xpi_pass. quiet_tac.
  - destruct (content_length a); auto with quiet.
  - unfold read_body. destruct (read_error a) as [[c msg] |];
      [apply quiet_raise | apply quiet_read_chunks].
Qed.

Lemma quiet_download_xpi_with_retry url :
  quiet (download_xpi_with_retry E url).
Proof.
  unfold download_xpi_with_retry. rewrite download_xpi_loop_eq.
  apply quiet_retry_loop. unfold xpi_pass.
  pose proof (quiet_download_xpi_pass url). quiet_tac.
Qed.

End QuietProgram.

(** ** The batch driver *)

(** The steps of [download_to] before the write: resolve, fetch and, for
    Chrome, normalize. *)
Definition fetch_archive (E : env) (a : args) (ext_id : string) : M bytes :=
  if String.eqb (platform a) "chrome" then
    bind (if opt_truthy (version a)
          then ret (JStr (default EmptyString (version a)))
          else get_latest_chrome_version E)
      (fun chrome_ver =>
         bind (logging INFO
                 ("Downloading CRX3 for " +:+ ext_id +:+ " (version " +:+
                  py_str E chrome_ver +:+ ") …"))
           (fun _ =>
              bind (download_crx_with_retry E ext_id chrome_ver)
                (fun crx => lift (crx_to_zip crx))))
  else
    bind (logging INFO
            ("Fetching Firefox addon info for " +:+ ext_id +:+
             (if opt_truthy (version a)
              then " (version " +:+ default EmptyString (version a) +:+ ")"
              else " (latest)") +:+ " …"))
      (fun _ =>
         bind (fetch_firefox_addon_info E ext_id (version a))
           (fun download_url =>
              bind (logging INFO "Downloading XPI …")
                (fun _ => download_xpi_with_retry E download_url))).

(** The record [process_id] opens a pass with. *)
Definition processing_msg (i total : nat) (ext_id : string) : string :=
  "Processing " +:+ pretty (Z.of_nat i + 1) +:+ "/" +:+
  pretty (Z.of_nat total) +:+ ": " +:+ ext_id.

(** The world once [msg] was printed. *)
Definition printed (msg : string) (w : world) : world :=
  with_stdout (fun o => o ++ [msg]) w.

Lemma fs_logged l msg w : fs (logged l msg w) = fs w.
Proof. unfold logged. destruct (_ <=? _); reflexivity. Qed.

Lemma fs_printed msg w : fs (printed msg w) = fs w.
Proof. reflexivity. Qed.

Lemma bind_assoc {A B C} (m : M A) (f : A -> M B) (g : B -> M C) (w : world) :
  bind (bind m f) g w = bind m (fun x => bind (f x) g) w.
Proof. unfold bind. destruct (m w) as [[a | e] w1]; reflexivity. Qed.

Lemma bind_ext {A B} (m : M A) (f g : A -> M B) :
  (forall x w, f x w = g x w) -> forall w, bind m f w = bind m g w.
Proof.
  intros Hfg w. unfold bind. destruct (m w) as [[a | e] w1]; [apply Hfg | reflexivity].
Qed.

Section Driver.

Context (E : env).

Lemma quiet_fetch_archive a ext_id : quiet (fetch_archive E a ext_id).
Proof.
  unfold fetch_archive.
  pose proof (quiet_get_latest_chrome_version E).
  pose proof (quiet_download_crx_with_retry E).
  pose proof (quiet_fetch_firefox_addon_info E).
  pose proof (quiet_download_xpi_with_retry E).
  quiet_tac.
Qed.

(** [download_to] is the pipeline, then the write, then the record of it. *)
Lemma download_to_eq a ext_id out_file w :
  download_to E a ext_id out_file w =
    bind (fetch_archive E a ext_id)
      (fun data =>
         bind (write_bytes E out_file data)
           (fun _ => logging INFO ("Saved → " +:+ resolve E out_file))) w.
Proof.
  unfold download_to, fetch_archive.
  destruct (String.eqb (platform a) "chrome").
  - rewrite !bind_assoc. apply bind_ext. intros chrome_ver w1.
    rewrite !bind_assoc. apply bind_ext. intros _ w2.
    rewrite !bind_assoc. apply bind_ext. intros crx w3.
    rewrite !bind_assoc. reflexivity.
  - rewrite !bind_assoc. apply bind_ext. intros _ w1.
    rewrite !bind_assoc. apply bind_ext. intros url w2.
    rewrite !bind_assoc. apply bind_ext. intros _ w3.
    rewrite !bind_assoc. reflexivity.
Qed.

(** How a run of [download_to] ends. *)
Lemma download_to_cases a ext_id out_file w :
  download_to E a ext_id out_file w =
    match fetch_archive E a ext_id w with
    | (Raise e, w1) => (Raise e, w1)
    | (Ok data, w1) =>
        match write_error E out_file with
        | Some (c, msg) => (Raise (Exn c msg), w1)
        | None =>
            (Ok tt, logged INFO ("Saved → " +:+ resolve E out_file)
                      (with_fs (fun m => <[out_file := data]> m) w1))
        end
    end.
Proof.
  rewrite download_to_eq. unfold bind, write_bytes.
  destruct (fetch_archive E a ext_id w) as [[data | e] w1]; [| reflexivity].
  destruct (write_error E out_file) as [[c msg] |]; [reflexivity |].
  rewrite logging_eq. reflexivity.
Qed.

(** [download_to] raises instances of [Exception] only, and changes the
    files by its one write, which follows a pipeline that succeeded. *)
Lemma download_to_effect a ext_id out_file w :
  exn_only (fst (download_to E a ext_id out_file w)) /\
  (fs (snd (download_to E a ext_id out_file w)) = fs w \/
   exists data w1,
     fetch_archive E a ext_id w = (Ok data, w1) /\
     fst (download_to E a ext_id out_file w) = Ok tt /\
     fs (snd (download_to E a ext_id out_file w)) = <[out_file := data]> (fs w)).
Proof.
  rewrite download_to_cases.
  destruct (quiet_fetch_archive a ext_id w) as [Hfs Hex].
  destruct (fetch_archive E a ext_id w) as [[data | e] w1]; simpl in *.
  - destruct (write_error E out_file) as [[c msg] |]; simpl.
    + split; [apply exn_only_Exn | left; exact Hfs].
    + split; [apply exn_only_Ok |]. right. exists data, w1.
      rewrite fs_logged. simpl. rewrite Hfs. auto.
  - split; [| left; exact Hfs].
    intros e' H. injection H as <-. apply Hex. reflexivity.
Qed.

(** What a pass does when it stops short of the download or the download
    fails: under [--continue-on-error] it ends normally, otherwise it
    leaves the process with status 1. *)
Definition skip_or_abort (a : args) : result unit :=
  if continue_on_error a then Ok tt else Raise (SystemExit 1).

(** Whether the output path is taken and may not be overwritten. *)
Definition blocked (a : args) (ext_id : string) (w : world) : bool :=
  bool_decide (is_Some (fs w !! out_file_of a ext_id)) && negb (force a).

(** The ways a pass of the download loop goes. *)
Inductive pass_run (a : args) (i total : nat) (ext_id : string) (w : world)
    : result unit -> world -> Prop :=
  | pass_invalid w' :
      validate_extension_id ext_id (platform a) = false ->
      fs w' = fs w ->
      pass_run a i total ext_id w (skip_or_abort a) w'
  | pass_blocked w' :
      validate_extension_id ext_id (platform a) = true ->
      blocked a ext_id w = true ->
      fs w' = fs w ->
      pass_run a i total ext_id w (skip_or_abort a) w'
  | pass_done w1 :
      validate_extension_id ext_id (platform a) = true ->
      blocked a ext_id w = false ->
      download_to E a ext_id (out_file_of a ext_id)
        (logged INFO (processing_msg i total ext_id) w) = (Ok tt, w1) ->
      pass_run a i total ext_id w (Ok tt) w1
  | pass_failed e w1 w' :
      validate_extension_id ext_id (platform a) = true ->
      blocked a ext_id w = false ->
      download_to E a ext_id (out_file_of a ext_id)
        (logged INFO (processing_msg i total ext_id) w) = (Raise e, w1) ->
      fs w' = fs w1 ->
      pass_run a i total ext_id w (skip_or_abort a) w'.

Lemma skip_or_abort_skip a :
  continue_on_error a = true -> skip_or_abort a = Ok tt.
Proof. intros H. unfold skip_or_abort. now rewrite H. Qed.

Lemma skip_or_abort_abort a :
  continue_on_error a = false -> skip_or_abort a = Raise (SystemExit 1).
Proof. intros H. unfold skip_or_abort. now rewrite H. Qed.

Lemma process_id_run a i total ext_id w :
  pass_run a i total ext_id w
    (fst (process_id E a i total ext_id w))
    (snd (process_id E a i total ext_id w)).
Proof.
  destruct (process_id E a i total ext_id w) as [r w'] eqn:Hrun. simpl.
  unfold process_id in Hrun. fold (processing_msg i total ext_id) in Hrun.
  unfold bind at 1 in Hrun. rewrite logging_eq in Hrun.
  set (w0 := logged INFO (processing_msg i total ext_id) w) in *.
  assert (Hw0 : fs w0 = fs w) by apply fs_logged.
  destruct (validate_extension_id ext_id (platform a)) eqn:Hvalid;
    cbn [negb] in Hrun; cbv beta iota zeta in Hrun.
  2: { destruct (continue_on_error a) eqn:Hc; cbv beta iota in Hrun.
       - rewrite logging_eq in Hrun. injection Hrun as <- <-.
         rewrite <- (skip_or_abort_skip a Hc).
         apply pass_invalid; [exact Hvalid |]. now rewrite fs_logged.
       - unfold bind, print, sys_exit, raise in Hrun. injection Hrun as <- <-.
         rewrite <- (skip_or_abort_abort a Hc).
         apply pass_invalid; [exact Hvalid | exact Hw0]. }
  unfold bind at 1 in Hrun. unfold path_exists in Hrun.
  assert (Hblocked : bool_decide (is_Some (fs w0 !! out_file_of a ext_id))
                     && negb (force a) = blocked a ext_id w).
  { unfold blocked. now rewrite Hw0. }
  rewrite Hblocked in Hrun.
  destruct (blocked a ext_id w) eqn:Hb.
  { destruct (continue_on_error a) eqn:Hc; cbv beta iota in Hrun.
    - rewrite logging_eq in Hrun. injection Hrun as <- <-.
      rewrite <- (skip_or_abort_skip a Hc).
      apply pass_blocked; try assumption. now rewrite fs_logged.
    - unfold bind, print, sys_exit, raise in Hrun. injection Hrun as <- <-.
      rewrite <- (skip_or_abort_abort a Hc).
      apply pass_blocked; assumption. }
  unfold try_except in Hrun.
  destruct (download_to_effect a ext_id (out_file_of a ext_id) w0) as [Hex _].
  destruct (download_to E a ext_id (out_file_of a ext_id) w0)
    as [[[] | e] w1] eqn:Hdl.
  { injection Hrun as <- <-. apply pass_done; assumption. }
  rewrite (Hex e eq_refl) in Hrun.
  destruct (continue_on_error a) eqn:Hc; cbv beta iota in Hrun.
  - rewrite logging_eq in Hrun. injection Hrun as <- <-.
    rewrite <- (skip_or_abort_skip a Hc).
    apply (pass_failed a i total ext_id w e w1); try assumption.
    now rewrite fs_logged.
  - unfold bind in Hrun. rewrite logging_eq in Hrun.
    unfold sys_exit, raise in Hrun. injection Hrun as <- <-.
    rewrite <- (skip_or_abort_abort a Hc).
    apply (pass_failed a i total ext_id w e w1); try assumption.
    now rewrite fs_logged.
Qed.

End Driver.

Section DriverFacts.

Context (E : env).

(** A pass leaves the files as they were, or it ends normally after a
    pipeline that succeeded, whose result it wrote at the output path. *)
Lemma process_id_fs a i total ext_id w :
  let w0 := logged INFO (processing_msg i total ext_id) w in
  let w' := snd (process_id E a i total ext_id w) in
  fs w' = fs w \/
  exists data w1,
    fetch_archive E a ext_id w0 = (Ok data, w1) /\
    fst (process_id E a i total ext_id w) = Ok tt /\
    fs w' = <[out_file_of a ext_id := data]> (fs w).
Proof.
  intros w0 w'. subst w'.
  pose proof (process_id_run E a i total ext_id w) as Hrun.
  assert (Hw0 : fs w0 = fs w) by apply fs_logged.
  destruct (download_to_effect E a ext_id (out_file_of a ext_id) w0)
    as [_ Heffect].
  inversion Hrun as [w' Hv Hfs Hr Hw | w' Hv Hb Hfs Hr Hw
                    | w1 Hv Hb Hdl Hr Hw | e w1 w' Hv Hb Hdl Hfs Hr Hw].
  - left. exact Hfs.
  - left. exact Hfs.
  - fold w0 in Hdl. rewrite Hdl in Heffect. simpl in Heffect.
    destruct Heffect as [Hsame | (data & w2 & Hfetch & _ & Hins)].
    + left. congruence.
    + right. exists data, w2. rewrite Hw0 in Hins. auto.
  - fold w0 in Hdl. rewrite Hdl in Heffect. simpl in Heffect.
    destruct Heffect as [Hsame | (data & w2 & _ & Habs & _)];
      [| discriminate].
    left. congruence.
Qed.

(** A pass ends normally, or it leaves the process with status 1. *)
Lemma process_id_result a i total ext_id w :
  fst (process_id E a i total ext_id w) = Ok tt \/
  (continue_on_error a = false /\
   fst (process_id E a i total ext_id w) = Raise (SystemExit 1)).
Proof.
  assert (Hskip : skip_or_abort a = Ok tt \/
                  (continue_on_error a = false /\
                   skip_or_abort a = Raise (SystemExit 1))).
  { unfold skip_or_abort. destruct (continue_on_error a); auto. }
  pose proof (process_id_run E a i total ext_id w) as Hrun.
  inversion Hrun; auto.
Qed.

(** What a pass needs to end normally when failures abort the run: a valid
    identifier, an output path that is free or may be overwritten, and a
    download that succeeds. *)
Definition pass_ok (a : args) (i total : nat) (ext_id : string) (w : world)
    : Prop :=
  validate_extension_id ext_id (platform a) = true /\
  blocked a ext_id w = false /\
  fst (download_to E a ext_id (out_file_of a ext_id)
         (logged INFO (processing_msg i total ext_id) w)) = Ok tt.

Lemma process_id_ok_iff a i total ext_id w :
  continue_on_error a = false ->
  (fst (process_id E a i total ext_id w) = Ok tt <-> pass_ok a i total ext_id w).
Proof.
  intros Hc. pose proof (skip_or_abort_abort a Hc) as Habort.
  pose proof (process_id_run E a i total ext_id w) as Hrun.
  unfold pass_ok.
  inversion Hrun as [w' Hv Hfs Hr Hw | w' Hv Hb Hfs Hr Hw
                    | w1 Hv Hb Hdl Hr Hw | e w1 w' Hv Hb Hdl Hfs Hr Hw].
  - rewrite Habort. split; [discriminate |]. intros (Hv' & _). congruence.
  - rewrite Habort. split; [discriminate |]. intros (_ & Hb' & _). congruence.
  - rewrite Hdl. simpl. tauto.
  - rewrite Habort, Hdl. simpl. split; [discriminate |].
    intros (_ & _ & Habs). discriminate.
Qed.

(** Every pass of the loop from index [i] on ends normally. *)
Fixpoint runs_clean (a : args) (i total : nat) (ids : list string) (w : world)
    : Prop :=
  match ids with
  | [] => True
  | ext_id :: rest =>
      pass_ok a i total ext_id w /\
      runs_clean a (S i) total rest (snd (process_id E a i total ext_id w))
  end.

Lemma download_loop_step a i total ext_id rest w :
  download_loop E a i total (ext_id :: rest) w =
    match process_id E a i total ext_id w with
    | (Ok _, w1) => download_loop E a (S i) total rest w1
    | (Raise e, w1) => (Raise e, w1)
    end.
Proof. reflexivity. Qed.

Lemma download_loop_result a ids : forall i total w,
  fst (download_loop E a i total ids w) = Ok tt \/
  (continue_on_error a = false /\
   fst (download_loop E a i total ids w) = Raise (SystemExit 1)).
Proof.
  induction ids as [|ext_id rest IH]; intros i total w; [left; reflexivity |].
  rewrite download_loop_step.
  destruct (process_id_result a i total ext_id w) as [Hok | [Hc Hexit]].
  - destruct (process_id E a i total ext_id w) as [[[] | e] w1];
      [apply IH | discriminate].
  - destruct (process_id E a i total ext_id w) as [[[] | e] w1];
      [discriminate |].
    simpl in *. right. auto.
Qed.

Lemma download_loop_clean a ids : forall i total w,
  continue_on_error a = false ->
  (fst (download_loop E a i total ids w) = Ok tt <-> runs_clean a i total ids w).
Proof.
  induction ids as [|ext_id rest IH]; intros i total w Hc; [simpl; tauto |].
  rewrite download_loop_step. cbn [runs_clean].
  rewrite <- (process_id_ok_iff a i total ext_id w Hc).
  destruct (process_id E a i total ext_id w) as [[[] | e] w1] eqn:Hrun; simpl.
  - rewrite (IH (S i) total w1 Hc). tauto.
  - split; [discriminate | intros [Habs _]; discriminate].
Qed.

(** A pass whose identifier is valid and whose output path is free or
    forced is the download in its [try]. *)
Lemma process_id_download a i total ext_id w :
  validate_extension_id ext_id (platform a) = true ->
  blocked a ext_id w = false ->
  process_id E a i total ext_id w =
    try_except (download_to E a ext_id (out_file_of a ext_id)) [Exception]
      (fun e =>
         if continue_on_error a then
           logging ERROR ("Failed for " +:+ ext_id +:+ ": " +:+ exn_str e +:+
                          ". Continuing.")
         else
           bind (logging ERROR ("Failed for " +:+ ext_id +:+ ": " +:+ exn_str e))
             (fun _ => sys_exit 1))
      (logged INFO (processing_msg i total ext_id) w).
Proof.
  intros Hvalid Hb.
  unfold process_id. fold (processing_msg i total ext_id).
  unfold bind at 1. rewrite logging_eq.
  set (w0 := logged INFO (processing_msg i total ext_id) w).
  assert (Hw0 : fs w0 = fs w) by apply fs_logged.
  rewrite Hvalid. cbn [negb]. cbv beta iota zeta.
  unfold bind at 1. unfold path_exists.
  assert (Hblocked : bool_decide (is_Some (fs w0 !! out_file_of a ext_id))
                     && negb (force a) = false).
  { rewrite <- Hb. unfold blocked. now rewrite Hw0. }
  rewrite Hblocked. reflexivity.
Qed.

(** Such a pass whose pipeline gives [data] and whose write succeeds ends
    normally with [data] at the output path. *)
Lemma process_id_saved a i total ext_id w data w1 :
  validate_extension_id ext_id (platform a) = true ->
  blocked a ext_id w = false ->
  fetch_archive E a ext_id (logged INFO (processing_msg i total ext_id) w) =
    (Ok data, w1) ->
  write_error E (out_file_of a ext_id) = None ->
  fst (process_id E a i total ext_id w) = Ok tt /\
  fs (snd (process_id E a i total ext_id w)) =
    <[out_file_of a ext_id := data]> (fs w).
Proof.
  intros Hvalid Hb Hfetch Hwrite.
  rewrite (process_id_download a i total ext_id w Hvalid Hb).
  unfold try_except. rewrite download_to_cases, Hfetch, Hwrite. cbn [fst snd].
  split; [reflexivity |].
  rewrite fs_logged. cbn [fs with_fs].
  pose proof (quiet_fetch_archive E a ext_id
                (logged INFO (processing_msg i total ext_id) w)) as [Hfs _].
  rewrite Hfetch in Hfs. cbn [snd] in Hfs. rewrite Hfs, fs_logged. reflexivity.
Qed.

(** *** The identifiers *)

(** [parse_ids] gives the identifiers, leaves the process with status 1, or
    lets an exception of the decoding through. *)
Lemma parse_ids_result a w :
  match fst (parse_ids E a w) with
  | Ok _ => True
  | Raise (SystemExit code) => code = 1
  | Raise (Exn _ _) => True
  end.
Proof.
  unfold parse_ids.
  destruct (opt_truthy (batch a)).
  - destruct (str_contains "," (default EmptyString (batch a))); [exact I |].
    unfold try_except, bind, read_text.
    destruct (fs w !! default EmptyString (batch a)) as [content |].
    + destruct (decode_text E content) as [text | c msg]; simpl; [exact I |].
      destruct (issubclass c FileNotFoundError); simpl; auto.
    + simpl. reflexivity.
  - destruct (opt_truthy (extension_id a)); simpl; auto.
Qed.

Lemma parse_ids_missing_file a b w :
  batch a = Some b -> b <> EmptyString ->
  str_contains "," b = false ->
  fs w !! b = None ->
  fst (parse_ids E a w) = Raise (SystemExit 1).
Proof.
  intros Hb Hne Hcomma Hfile. unfold parse_ids, opt_truthy, str_nonempty.
  rewrite Hb.
  assert (String.eqb b EmptyString = false) as -> by now apply String.eqb_neq.
  cbn [negb default from_option]. unfold id. rewrite Hcomma.
  unfold try_except, bind, read_text. rewrite Hfile. reflexivity.
Qed.

Lemma parse_ids_nothing a w :
  opt_truthy (batch a) = false -> opt_truthy (extension_id a) = false ->
  fst (parse_ids E a w) = Raise (SystemExit 1).
Proof.
  intros Hb Hid. unfold parse_ids. rewrite Hb, Hid. reflexivity.
Qed.

(** *** The list-versions mode *)

Lemma quiet_version_names items : quiet (version_names items).
Proof. induction items as [|ver rest IH]; simpl; quiet_tac. Qed.

Lemma list_versions_mode_result ids platform w :
  fst (list_versions_mode E ids platform w) =
    Raise (SystemExit (if (length ids =? 1)%nat then 0 else 1)).
Proof.
  unfold list_versions_mode.
  destruct ids as [|ext_id [|ext_id' rest]]; try reflexivity.
  simpl length. simpl Nat.eqb. cbv iota.
  set (listing :=
         if String.eqb platform "firefox" then _ else _).
  assert (Hq : quiet listing).
  { unfold listing. pose proof quiet_version_names. quiet_tac. }
  unfold bind at 1. unfold try_except.
  destruct (Hq w) as [_ Hex].
  destruct (listing w) as [[[] | e] w1]; simpl in *; [reflexivity |].
  rewrite (Hex e eq_refl). reflexivity.
Qed.

(** *** [main] *)

Lemma main_cases a w :
  let w0 := with_threshold (if verbose a then INFO else WARNING) w in
  main E (Parsed a) w =
    match parse_ids E a w0 with
    | (Raise e, w1) => (Raise e, w1)
    | (Ok ids, w1) =>
        if list_versions a then list_versions_mode E ids (platform a) w1
        else download_loop E a 0 (length ids) ids w1
    end.
Proof.
  intros w0. unfold main, parse_args, bind, ret, basicConfig. fold w0.
  destruct (parse_ids E a w0) as [[ids | e] w1]; [| reflexivity].
  destruct (list_versions a); reflexivity.
Qed.

Lemma main_refused shown code w :
  run_main E (Refused shown code) w =
    (code, with_stdout (fun o => o ++ shown) w).
Proof. reflexivity. Qed.

End DriverFacts.

(** ** Properties of the batch driver *)

(** C2. When the pipeline of an identifier (resolve, fetch, normalize)
    raises, its pass leaves the files as they were; and a pass that changes
    the files has run a pipeline that succeeded and has written its result
    at the output path of the identifier, nothing else. *)
Theorem failed_pipeline_writes_nothing (E : env) (a : args) (i total : nat)
    (ext_id : string) (w : world) :
  let w0 := logged INFO (processing_msg i total ext_id) w in
  let w' := snd (process_id E a i total ext_id w) in
  (forall e w1, fetch_archive E a ext_id w0 = (Raise e, w1) -> fs w' = fs w) /\
  (fs w' <> fs w ->
   exists data w1,
     fetch_archive E a ext_id w0 = (Ok data, w1) /\
     fs w' = <[out_file_of a ext_id := data]> (fs w)).
Proof.
  intros w0 w'. subst w0 w'.
  destruct (process_id_fs E a i total ext_id w)
    as [Hsame | (data & w1 & Hfetch & _ & Hins)].
  - split; [intros; exact Hsame | intros Hne; contradiction].
  - split.
    + intros e w2 Hfail. rewrite Hfail in Hfetch. discriminate.
    + intros _. exists data, w1. auto.
Qed.

Module DriverSamples.

Import Sample.

(** The [n]-th request is answered with a package whose archive is the one
    byte [n]. *)
Definition numbered_payload (n : nat) : bytes :=
  [default x00 (Byte.of_N (N.of_nat n))].

Definition numbered (n : nat) (_ : request) : net_outcome :=
  NetResp (ok_response (Cr24 ++ [x03; x00; x00; x00] ++ [x00; x00; x00; x00]
                          ++ numbered_payload n)).

Definition E_numbered : env := env_of numbered.
Definition E_down : env := env_of (always timed_out).

(** [--batch id1,id2 -o out.zip --force -v 119.0.6045.0] *)
Definition two_ids_one_output : args :=
  Args None (Some "out.zip") (Some "119.0.6045.0") "chrome" false true
       (Some (id1 +:+ "," +:+ id2)) false false.

(** [ublock-origin --platform firefox --list-versions] *)
Definition list_firefox : args :=
  Args (Some "ublock-origin") None None "firefox" false false None false true.

(** [id1 -v 119.0.6045.0] *)
Definition one_id : args :=
  Args (Some id1) None (Some "119.0.6045.0") "chrome" false false None false
       false.

Definition w0 : world := initial_world ∅.

End DriverSamples.

Lemma failed_pipeline_writes_nothing_witness :
  fs (snd (process_id DriverSamples.E_down DriverSamples.one_id 0 1 Sample.id1
             DriverSamples.w0)) = fs DriverSamples.w0.
Proof.
  eapply (proj1 (failed_pipeline_writes_nothing DriverSamples.E_down
                   DriverSamples.one_id 0 1 Sample.id1 DriverSamples.w0)).
  vm_compute. reflexivity.
Defined.

Lemma append_cons (c : ascii) (s t : string) :
  String c s +:+ t = String c (s +:+ t).
Proof. reflexivity. Qed.

Lemma length_append (s t : string) :
  String.length (s +:+ t) = (String.length s + String.length t)%nat.
Proof.
  induction s as [|c s IH]; [reflexivity |].
  rewrite append_cons. cbn [String.length]. now rewrite IH.
Qed.

Lemma append_zip_inj (s t : string) : s +:+ ".zip" = t +:+ ".zip" -> s = t.
Proof.
  revert t. induction s as [|c s IH]; intros [|d t] H.
  - reflexivity.
  - exfalso. apply (f_equal String.length) in H.
    rewrite !length_append in H. cbn [String.length] in H. lia.
  - exfalso. apply (f_equal String.length) in H.
    rewrite !length_append in H. cbn [String.length] in H. lia.
  - rewrite !append_cons in H. injection H as -> H. f_equal. apply IH. exact H.
Qed.

(** C8, as the code has it.  Without an explicit output path the path of an
    identifier is [{identifier}.zip], distinct identifiers have distinct
    paths, and a pass touches no other file than the path of its
    identifier.  An explicit path is the path of every identifier, whatever
    their number; an identifier that finds it taken is skipped or aborts the
    run, unless [--force] is given: then, the file being there or not, a
    pass whose pipeline succeeds writes its result at the path, over what
    was there. *)
Theorem output_path_per_identifier (E : env) (a : args) (i total : nat)
    (ext_id : string) (w : world) :
  (opt_truthy (output a) = false ->
   out_file_of a ext_id = ext_id +:+ ".zip" /\
   forall other, other <> ext_id -> out_file_of a other <> out_file_of a ext_id) /\
  (forall path,
     output a = Some path -> path <> EmptyString ->
     forall other, out_file_of a other = path) /\
  (forall p,
     p <> out_file_of a ext_id ->
     fs (snd (process_id E a i total ext_id w)) !! p = fs w !! p) /\
  (validate_extension_id ext_id (platform a) = true ->
   is_Some (fs w !! out_file_of a ext_id) -> force a = false ->
   fst (process_id E a i total ext_id w) = skip_or_abort a /\
   fs (snd (process_id E a i total ext_id w)) = fs w) /\
  (validate_extension_id ext_id (platform a) = true ->
   force a = true ->
   forall data w1,
     fetch_archive E a ext_id (logged INFO (processing_msg i total ext_id) w) =
       (Ok data, w1) ->
     write_error E (out_file_of a ext_id) = None ->
     fst (process_id E a i total ext_id w) = Ok tt /\
     fs (snd (process_id E a i total ext_id w)) =
       <[out_file_of a ext_id := data]> (fs w)).
Proof.
  split; [| split; [| split; [| split]]].
  - intros Hout. split.
    + unfold out_file_of. rewrite Hout. reflexivity.
    + intros other Hne. unfold out_file_of. rewrite Hout.
      intros Heq. apply Hne, append_zip_inj, Heq.
  - intros path Hout Hne other. unfold out_file_of, opt_truthy, str_nonempty.
    rewrite Hout.
    assert (String.eqb path EmptyString = false) as -> by now apply String.eqb_neq.
    reflexivity.
  - intros p Hp.
    destruct (process_id_fs E a i total ext_id w)
      as [Hsame | (data & w1 & _ & _ & Hins)].
    + now rewrite Hsame.
    + rewrite Hins. apply lookup_insert_ne. congruence.
  - intros Hvalid Hsome Hforce.
    pose proof (process_id_run E a i total ext_id w) as Hrun.
    assert (Hb : blocked a ext_id w = true).
    { unfold blocked. rewrite Hforce.
      rewrite bool_decide_eq_true_2 by assumption. reflexivity. }
    inversion Hrun; split; congruence.
  - intros Hvalid Hforce data w1 Hfetch Hwrite.
    assert (Hb : blocked a ext_id w = false).
    { unfold blocked. rewrite Hforce. apply andb_false_r. }
    apply (process_id_saved E a i total ext_id w data w1); assumption.
Qed.

Lemma output_path_per_identifier_witness :
  out_file_of DriverSamples.one_id Sample.id1 =
    "cjpalhdlnbpafiamejdnhcphjbkeiagm.zip" /\
  out_file_of DriverSamples.one_id Sample.id2 <>
    out_file_of DriverSamples.one_id Sample.id1.
Proof.
  destruct (proj1 (output_path_per_identifier DriverSamples.E_down
                     DriverSamples.one_id 0 1 Sample.id1 DriverSamples.w0)
              eq_refl) as [Hpath Hdistinct].
  split; [exact Hpath |]. apply Hdistinct. discriminate.
Defined.

(** C8 as stated fails: in a batch of two distinct identifiers run with
    [-o out.zip --force] both archives are written to [out.zip], the second
    over the first, and no [{identifier}.zip] is made. *)
Lemma output_path_per_identifier_counterexample :
  Sample.id1 <> Sample.id2 /\
  out_file_of DriverSamples.two_ids_one_output Sample.id1 = "out.zip" /\
  out_file_of DriverSamples.two_ids_one_output Sample.id2 = "out.zip" /\
  fs (snd (process_id DriverSamples.E_numbered DriverSamples.two_ids_one_output
             0 2 Sample.id1 DriverSamples.w0)) !! "out.zip"
    = Some (DriverSamples.numbered_payload 0) /\
  fst (run_main DriverSamples.E_numbered
         (Parsed DriverSamples.two_ids_one_output) DriverSamples.w0) = 0 /\
  fs (snd (run_main DriverSamples.E_numbered
             (Parsed DriverSamples.two_ids_one_output) DriverSamples.w0))
    = {[ "out.zip" := DriverSamples.numbered_payload 1 ]}.
Proof.
  split; [discriminate |].
  split; [reflexivity |]. split; [reflexivity |].
  split; [vm_compute; reflexivity |].
  split; vm_compute; reflexivity.
Qed.

(** * Further properties *)

(** ** The package normalizer: the errors and the exact domain *)

Lemma le_uint_nonneg (b : bytes) : 0 <= le_uint b.
Proof.
  induction b as [|x b IH]; simpl; [lia |].
  pose proof (N2Z.is_nonneg (Byte.to_N x)). lia.
Qed.

Lemma slice_app_l (lo hi : nat) (a b : bytes) :
  (hi <= length a)%nat -> slice lo hi (a ++ b) = slice lo hi a.
Proof.
  intros H. unfold slice.
  destruct (Nat.le_gt_cases lo (length a)) as [Hlo | Hlo].
  - rewrite skipn_app.
    replace (lo - length a)%nat with 0%nat by lia. simpl.
    rewrite firstn_app, length_skipn.
    replace (hi - lo - (length a - lo))%nat with 0%nat by lia.
    simpl. now rewrite app_nil_r.
  - replace (hi - lo)%nat with 0%nat by lia. reflexivity.
Qed.

(** X1. The normalizer raises nothing but [ValueError], with one of its
    three messages: on no input does the unpacking of the length field fail
    or a slice go wrong. *)
Theorem crx_to_zip_raises_value_error (crx : bytes) :
  (exists zip, crx_to_zip crx = Ok zip) \/
  crx_to_zip crx =
    Raise (Exn ValueError "Invalid CRX file: missing 'Cr24' header") \/
  crx_to_zip crx = Raise (Exn ValueError "Invalid CRX file: file too short") \/
  crx_to_zip crx =
    Raise (Exn ValueError "Invalid CRX file: header length exceeds file size").
Proof.
  destruct (Nat.lt_ge_cases (length crx) 12) as [Hshort | Hlen].
  - rewrite (crx_to_zip_short crx Hshort).
    destruct (bytes_eqb (firstn 4 crx) Cr24); auto.
  - destruct (bytes_eqb (firstn 4 crx) Cr24) eqn:Hmagic.
    + apply bytes_eqb_eq in Hmagic.
      rewrite crx_to_zip_header by assumption. cbv zeta.
      destruct (_ >? _); eauto.
    + right. left. unfold crx_to_zip.
      change (slice 0 4 crx) with (firstn 4 crx). rewrite Hmagic. reflexivity.
Qed.

(** X2. A package with the magic and 12 bytes at least whose length field
    points beyond its end is refused for its header length. *)
Theorem crx_to_zip_corrupt_length (crx : bytes) :
  firstn 4 crx = Cr24 ->
  (12 <= length crx)%nat ->
  Z.of_nat (length crx) < 12 + le_uint (slice 8 12 crx) ->
  crx_to_zip crx =
    Raise (Exn ValueError "Invalid CRX file: header length exceeds file size").
Proof.
  intros Hmagic Hlen Hoff. rewrite crx_to_zip_header by assumption. cbv zeta.
  assert ((le_uint (slice 8 12 crx) + 12 >? Z.of_nat (length crx)) = true) as ->.
  { rewrite Z.gtb_ltb. apply Z.ltb_lt. lia. }
  reflexivity.
Qed.

Lemma crx_to_zip_corrupt_length_witness :
  crx_to_zip [x43; x72; x32; x34; x03; x00; x00; x00; x02; x00; x00; x00; xaa]
  = Raise (Exn ValueError "Invalid CRX file: header length exceeds file size").
Proof.
  apply (crx_to_zip_corrupt_length
           [x43; x72; x32; x34; x03; x00; x00; x00; x02; x00; x00; x00; xaa]);
    [reflexivity | simpl; lia | simpl; lia].
Defined.

(** X3. The normalizer succeeds exactly on an input that is a header
    followed by the archive, where the header begins with [Cr24], is 12
    bytes long at least and as long as its own length field says plus 12;
    the result is the archive, so the header and the result put together are
    the input. *)
Theorem crx_to_zip_ok_iff (crx zip : bytes) :
  crx_to_zip crx = Ok zip <->
  exists header,
    crx = header ++ zip /\
    firstn 4 header = Cr24 /\
    (12 <= length header)%nat /\
    Z.of_nat (length header) = 12 + le_uint (slice 8 12 header).
Proof.
  split.
  - intros Hok.
    destruct (bytes_eqb (firstn 4 crx) Cr24) eqn:Hmagic.
    2: { unfold crx_to_zip in Hok.
         change (slice 0 4 crx) with (firstn 4 crx) in Hok.
         rewrite Hmagic in Hok. discriminate. }
    apply bytes_eqb_eq in Hmagic.
    destruct (Nat.lt_ge_cases (length crx) 12) as [Hshort | Hlen].
    { rewrite (crx_to_zip_short crx Hshort) in Hok. discriminate. }
    rewrite crx_to_zip_header in Hok by assumption. cbv zeta in Hok.
    pose proof (le_uint_nonneg (slice 8 12 crx)) as Hn.
    destruct (le_uint (slice 8 12 crx) + 12 >? Z.of_nat (length crx)) eqn:Hgt;
      [discriminate |].
    rewrite Z.gtb_ltb in Hgt. apply Z.ltb_ge in Hgt.
    injection Hok as <-.
    set (k := Z.to_nat (le_uint (slice 8 12 crx) + 12)) in *.
    assert (Hk : (12 <= k <= length crx)%nat) by (unfold k; lia).
    exists (firstn k crx).
    assert (Hlenh : length (firstn k crx) = k) by (rewrite length_firstn; lia).
    assert (Hslice : slice 8 12 (firstn k crx) = slice 8 12 crx).
    { rewrite <- (firstn_skipn k crx) at 2.
      rewrite slice_app_l by (rewrite Hlenh; lia). reflexivity. }
    repeat split.
    + symmetry. apply firstn_skipn.
    + rewrite firstn_firstn. replace (Nat.min 4 k) with 4%nat by lia.
      exact Hmagic.
    + lia.
    + rewrite Hlenh, Hslice. unfold k. lia.
  - intros (header & -> & Hmagic & Hlen & Hsize).
    assert (Hm : firstn 4 (header ++ zip) = Cr24).
    { rewrite firstn_app. replace (4 - length header)%nat with 0%nat by lia.
      simpl. now rewrite app_nil_r. }
    rewrite crx_to_zip_header; [| exact Hm | rewrite length_app; lia].
    cbv zeta. rewrite slice_app_l by lia.
    assert ((le_uint (slice 8 12 header) + 12
             >? Z.of_nat (length (header ++ zip))) = false) as ->.
    { rewrite Z.gtb_ltb. apply Z.ltb_ge. rewrite length_app. lia. }
    f_equal.
    replace (Z.to_nat (le_uint (slice 8 12 header) + 12)) with (length header)
      by lia.
    rewrite skipn_app, Nat.sub_diag, skipn_all. reflexivity.
Qed.

(** ** The identifier validator for Firefox *)

Section MoreRegexLemmas.

Lemma rmatch_lit (c : ascii) (pos : nat) (s : list ascii)
    (k : nat -> list ascii -> bool) :
  rmatch (Lit c) pos s k = true <->
  exists s', s = c :: s' /\ k (S pos) s' = true.
Proof.
  simpl. destruct s as [|x s'].
  - split; [discriminate | intros (s' & H & _); discriminate].
  - rewrite andb_true_iff, Ascii.eqb_eq. split.
    + intros [-> Hk]. eauto.
    + intros (s'' & H & Hk). injection H as -> ->. auto.
Qed.

Lemma rmatch_class (ranges : list (ascii * ascii)) (pos : nat)
    (s : list ascii) (k : nat -> list ascii -> bool) :
  rmatch (Class ranges) pos s k = true <->
  exists x s', s = x :: s' /\ in_class ranges x = true /\ k (S pos) s' = true.
Proof.
  simpl. destruct s as [|x s'].
  - split; [discriminate | intros (x & s' & H & _); discriminate].
  - rewrite andb_true_iff. split.
    + intros [Hx Hk]. eauto.
    + intros (y & s'' & H & Hy & Hk). injection H as -> ->. auto.
Qed.

Lemma rmatch_eol (pos : nat) (s : list ascii) :
  rmatch Eol pos s (fun _ _ => true) = true <-> s = [] \/ s = [newline].
Proof.
  simpl. destruct s as [|c [|c' s']].
  - tauto.
  - rewrite andb_true_r, Ascii.eqb_eq. split.
    + intros ->. auto.
    + intros [H | H]; [discriminate | now injection H].
  - split; [discriminate | intros [H | H]; discriminate].
Qed.

(** The loop of [*] over a character class, for any fuel the text fits in. *)
Lemma star_class_loop (ranges : list (ascii * ascii))
    (k : nat -> list ascii -> bool) (fuel : nat) :
  forall (p : nat) (t : list ascii),
    (length t <= fuel)%nat ->
    (fix loop (fuel : nat) (p : nat) (t : list ascii) {struct fuel} : bool :=
       k p t ||
       match fuel with
       | O => false
       | S fuel' =>
           rmatch (Class ranges) p t
             (fun p' t' => (length t' <? length t)%nat && loop fuel' p' t')
       end) fuel p t = true <->
    exists pre suf,
      t = pre ++ suf /\ forallb (in_class ranges) pre = true /\
      k (p + length pre)%nat suf = true.
Proof.
  induction fuel as [|fuel IH]; intros p t Hlen.
  - destruct t; [| simpl in Hlen; lia]. rewrite orb_false_r. split.
    + intros Hk. exists [], []. simpl. rewrite Nat.add_0_r. auto.
    + intros (pre & suf & Heq & _ & Hk).
      symmetry in Heq. apply app_eq_nil in Heq as [-> ->].
      simpl in Hk. now rewrite Nat.add_0_r in Hk.
  - rewrite orb_true_iff, rmatch_class. split.
    + intros [Hk | (x & t' & -> & Hx & Hrest)].
      * exists [], t. simpl. rewrite Nat.add_0_r. auto.
      * apply andb_true_iff in Hrest as [_ Hloop].
        apply IH in Hloop; [| simpl in Hlen; lia].
        destruct Hloop as (pre & suf & -> & Hall & Hk).
        exists (x :: pre), suf. simpl. rewrite Hx, Hall.
        replace (p + S (length pre))%nat with (S p + length pre)%nat by lia.
        auto.
    + intros (pre & suf & -> & Hall & Hk). destruct pre as [|x pre].
      * left. simpl in Hk. now rewrite Nat.add_0_r in Hk.
      * right. simpl in Hall. apply andb_true_iff in Hall as [Hx Hall].
        exists x, (pre ++ suf). repeat split; [exact Hx |].
        apply andb_true_iff. split; [apply Nat.ltb_lt; simpl; lia |].
        apply IH; [simpl in Hlen; lia |]. exists pre, suf.
        simpl in Hk.
        replace (S p + length pre)%nat with (p + S (length pre))%nat by lia.
        auto.
Qed.

Lemma rmatch_star_class (ranges : list (ascii * ascii)) (pos : nat)
    (s : list ascii) (k : nat -> list ascii -> bool) :
  rmatch (Star (Class ranges)) pos s k = true <->
  exists pre suf,
    s = pre ++ suf /\ forallb (in_class ranges) pre = true /\
    k (pos + length pre)%nat suf = true.
Proof.
  apply (star_class_loop ranges k (length s) pos s). lia.
Qed.

End MoreRegexLemmas.

Definition alnum_ranges : list (ascii * ascii) :=
  [("a", "z"); ("A", "Z"); ("0", "9")]%char.

Definition slug_ranges : list (ascii * ascii) :=
  [("a", "z"); ("A", "Z"); ("0", "9");
   ("_", "_"); (".", "."); ("@", "@"); ("-", "-")]%char.

Definition hex_ranges : list (ascii * ascii) := [("a", "f"); ("0", "9")]%char.

(** A slug: characters of [a-zA-Z0-9_.@-], the first and the last of them
    alphanumeric. *)
Definition is_slug (t : list ascii) : Prop :=
  (exists c t', t = c :: t' /\ in_class alnum_ranges c = true) /\
  (exists t' d, t = t' ++ [d] /\ in_class alnum_ranges d = true) /\
  forallb (in_class slug_ranges) t = true.

(** [n] characters of [a-f0-9]. *)
Definition hex_run (n : nat) (h : list ascii) : Prop :=
  length h = n /\ forallb (in_class hex_ranges) h = true.

(** A GUID in braces: groups of 8, 4, 4, 4 and 12 lowercase hexadecimal
    digits with hyphens between them. *)
Definition is_guid (t : list ascii) : Prop :=
  exists h1 h2 h3 h4 h5,
    t = ("{" :: h1 ++ "-" :: h2 ++ "-" :: h3 ++ "-" :: h4 ++ "-" :: h5
           ++ ["}"])%char /\
    hex_run 8 h1 /\ hex_run 4 h2 /\ hex_run 4 h3 /\ hex_run 4 h4 /\
    hex_run 12 h5.

(** [P] holds of the text, or of the text without its final newline: what a
    pattern between [^] and [$] accepts when its body accepts [P]. *)
Definition up_to_newline (P : list ascii -> Prop) (t : list ascii) : Prop :=
  P t \/ exists t', t = t' ++ [newline] /\ P t'.

Lemma alnum_is_slug_char (c : ascii) :
  in_class alnum_ranges c = true -> in_class slug_ranges c = true.
Proof.
  unfold in_class, alnum_ranges, slug_ranges. simpl.
  rewrite !orb_false_r, !orb_true_iff. tauto.
Qed.

Lemma is_slug_cases (t : list ascii) :
  is_slug t <->
  (exists c, t = [c] /\ in_class alnum_ranges c = true) \/
  (exists c mid d,
     t = c :: mid ++ [d] /\ in_class alnum_ranges c = true /\
     forallb (in_class slug_ranges) mid = true /\
     in_class alnum_ranges d = true).
Proof.
  unfold is_slug. split.
  - intros ((c & t' & -> & Hc) & (t'' & d & Heq & Hd) & Hall).
    destruct t'' as [|c' mid].
    + left. simpl in Heq. injection Heq as -> ->. eauto.
    + right. simpl in Heq. injection Heq as -> ->.
      exists c', mid, d. repeat split; try assumption.
      cbn [forallb] in Hall. apply andb_true_iff in Hall as [_ Hall].
      rewrite forallb_app in Hall. now apply andb_true_iff in Hall as [Hall _].
  - intros [(c & -> & Hc) | (c & mid & d & -> & Hc & Hmid & Hd)].
    + repeat split.
      * exists c, []. auto.
      * exists [], c. auto.
      * cbn [forallb]. now rewrite (alnum_is_slug_char c Hc).
    + repeat split.
      * exists c, (mid ++ [d]). auto.
      * exists (c :: mid), d. auto.
      * cbn [forallb]. rewrite forallb_app, Hmid, (alnum_is_slug_char c Hc).
        cbn [forallb andb]. now rewrite (alnum_is_slug_char d Hd).
Qed.

Lemma re_match_slug (s : string) :
  re_match slug_pattern s = true <->
  up_to_newline is_slug (list_ascii_of_string s).
Proof.
  unfold re_match, slug_pattern, sequence, alnum, slug_inner.
  fold alnum_ranges slug_ranges.
  set (l := list_ascii_of_string s).
  change (rmatch (Alt ?a ?b) 0 l ?k) with (rmatch a 0 l k || rmatch b 0 l k).
  rewrite orb_true_iff.
  change (rmatch (Seq Bol (Seq (Class alnum_ranges) Eol)) 0 l (fun _ _ => true))
    with (rmatch (Class alnum_ranges) 0 l
            (fun p s' => rmatch Eol p s' (fun _ _ => true))).
  change (rmatch (Seq Bol (Seq (Class alnum_ranges)
            (Seq (Star (Class slug_ranges)) (Seq (Class alnum_ranges) Eol))))
            0 l (fun _ _ => true))
    with (rmatch (Class alnum_ranges) 0 l
            (fun p s' => rmatch (Star (Class slug_ranges)) p s'
               (fun p s' => rmatch (Class alnum_ranges) p s'
                  (fun p s' => rmatch Eol p s' (fun _ _ => true))))).
  unfold up_to_newline. setoid_rewrite is_slug_cases. split.
  - intros [Hlong | Hshort].
    + apply rmatch_class in Hlong as (c & t & -> & Hc & Hstar).
      apply rmatch_star_class in Hstar as (mid & suf & -> & Hmid & Hlast).
      apply rmatch_class in Hlast as (d & tail & -> & Hd & Heol).
      apply rmatch_eol in Heol as [-> | ->].
      * left. right. exists c, mid, d. auto.
      * right. exists (c :: mid ++ [d]). split.
        { simpl. now rewrite <- app_assoc. }
        right. exists c, mid, d. auto.
    + apply rmatch_class in Hshort as (c & tail & -> & Hc & Heol).
      apply rmatch_eol in Heol as [-> | ->].
      * left. left. eauto.
      * right. exists [c]. split; [reflexivity |]. left. eauto.
  - intros [[(c & -> & Hc) | (c & mid & d & -> & Hc & Hmid & Hd)]
           | (t & -> & [(c & -> & Hc) | (c & mid & d & -> & Hc & Hmid & Hd)])].
    + right. apply rmatch_class. exists c, []. split; [reflexivity |]. split; [exact Hc |].
      apply rmatch_eol. auto.
    + left. apply rmatch_class. exists c, (mid ++ [d]). split; [reflexivity |]. split; [exact Hc |].
      apply rmatch_star_class. exists mid, [d]. split; [reflexivity |]. split; [exact Hmid |].
      apply rmatch_class. exists d, []. split; [reflexivity |]. split; [exact Hd |].
      apply rmatch_eol. auto.
    + right. apply rmatch_class. exists c, [newline]. split; [reflexivity |]. split; [exact Hc |].
      apply rmatch_eol. auto.
    + left. apply rmatch_class. exists c, (mid ++ [d; newline]).
      split; [simpl; now rewrite <- app_assoc |]. split; [exact Hc |].
      apply rmatch_star_class. exists mid, [d; newline].
      split; [reflexivity |]. split; [exact Hmid |].
      apply rmatch_class. exists d, [newline]. split; [reflexivity |]. split; [exact Hd |].
      apply rmatch_eol. auto.
Qed.

Lemma re_match_guid (s : string) :
  re_match guid_pattern s = true <->
  up_to_newline is_guid (list_ascii_of_string s).
Proof.
  unfold re_match, guid_pattern, sequence, lower_hex. fold hex_ranges.
  set (l := list_ascii_of_string s).
  set (hex := Class hex_ranges).
  change (rmatch
            (Seq Bol (Seq (Lit "{") (Seq (Rep 8 hex) (Seq (Lit "-")
              (Seq (Rep 4 hex) (Seq (Lit "-") (Seq (Rep 4 hex) (Seq (Lit "-")
                (Seq (Rep 4 hex) (Seq (Lit "-") (Seq (Rep 12 hex)
                  (Seq (Lit "}") Eol))))))))))))
            0 l (fun _ _ => true))
    with (rmatch (Lit "{") 0 l (fun p t =>
          rmatch (Rep 8 hex) p t (fun p t =>
          rmatch (Lit "-") p t (fun p t =>
          rmatch (Rep 4 hex) p t (fun p t =>
          rmatch (Lit "-") p t (fun p t =>
          rmatch (Rep 4 hex) p t (fun p t =>
          rmatch (Lit "-") p t (fun p t =>
          rmatch (Rep 4 hex) p t (fun p t =>
          rmatch (Lit "-") p t (fun p t =>
          rmatch (Rep 12 hex) p t (fun p t =>
          rmatch (Lit "}") p t (fun p t =>
          rmatch Eol p t (fun _ _ => true))))))))))))).
  unfold hex, up_to_newline, is_guid, hex_run. split.
  - intros H.
    apply rmatch_lit in H as (t0 & -> & H).
    apply rmatch_rep_class in H as (h1 & t1 & -> & Hl1 & Hh1 & H).
    apply rmatch_lit in H as (t2 & -> & H).
    apply rmatch_rep_class in H as (h2 & t3 & -> & Hl2 & Hh2 & H).
    apply rmatch_lit in H as (t4 & -> & H).
    apply rmatch_rep_class in H as (h3 & t5 & -> & Hl3 & Hh3 & H).
    apply rmatch_lit in H as (t6 & -> & H).
    apply rmatch_rep_class in H as (h4 & t7 & -> & Hl4 & Hh4 & H).
    apply rmatch_lit in H as (t8 & -> & H).
    apply rmatch_rep_class in H as (h5 & t9 & -> & Hl5 & Hh5 & H).
    apply rmatch_lit in H as (tail & -> & H).
    apply rmatch_eol in H as [-> | ->].
    + left. exists h1, h2, h3, h4, h5. auto 10.
    + right.
      exists ("{" :: h1 ++ "-" :: h2 ++ "-" :: h3 ++ "-" :: h4 ++ "-" :: h5
                ++ ["}"])%char.
      split.
      * simpl. repeat (rewrite <- app_assoc; simpl). reflexivity.
      * exists h1, h2, h3, h4, h5. auto 10.
  - assert (Hback : forall h1 h2 h3 h4 h5 tail,
              (length h1 = 8%nat /\ forallb (in_class hex_ranges) h1 = true) ->
              (length h2 = 4%nat /\ forallb (in_class hex_ranges) h2 = true) ->
              (length h3 = 4%nat /\ forallb (in_class hex_ranges) h3 = true) ->
              (length h4 = 4%nat /\ forallb (in_class hex_ranges) h4 = true) ->
              (length h5 = 12%nat /\ forallb (in_class hex_ranges) h5 = true) ->
              tail = [] \/ tail = [newline] ->
              rmatch (Lit "{") 0
                ("{" :: h1 ++ "-" :: h2 ++ "-" :: h3 ++ "-" :: h4 ++ "-" :: h5
                   ++ "}" :: tail)%char
                (fun p t =>
                 rmatch (Rep 8 (Class hex_ranges)) p t (fun p t =>
                 rmatch (Lit "-") p t (fun p t =>
                 rmatch (Rep 4 (Class hex_ranges)) p t (fun p t =>
                 rmatch (Lit "-") p t (fun p t =>
                 rmatch (Rep 4 (Class hex_ranges)) p t (fun p t =>
                 rmatch (Lit "-") p t (fun p t =>
                 rmatch (Rep 4 (Class hex_ranges)) p t (fun p t =>
                 rmatch (Lit "-") p t (fun p t =>
                 rmatch (Rep 12 (Class hex_ranges)) p t (fun p t =>
                 rmatch (Lit "}") p t (fun p t =>
                 rmatch Eol p t (fun _ _ => true)))))))))))) = true).
    { intros h1 h2 h3 h4 h5 tail [Hl1 Hh1] [Hl2 Hh2] [Hl3 Hh3] [Hl4 Hh4]
        [Hl5 Hh5] Htail.
      apply rmatch_lit. eexists. split; [reflexivity |].
      apply rmatch_rep_class. exists h1. eexists.
      split; [reflexivity |]. split; [exact Hl1 |]. split; [exact Hh1 |].
      apply rmatch_lit. eexists. split; [reflexivity |].
      apply rmatch_rep_class. exists h2. eexists.
      split; [reflexivity |]. split; [exact Hl2 |]. split; [exact Hh2 |].
      apply rmatch_lit. eexists. split; [reflexivity |].
      apply rmatch_rep_class. exists h3. eexists.
      split; [reflexivity |]. split; [exact Hl3 |]. split; [exact Hh3 |].
      apply rmatch_lit. eexists. split; [reflexivity |].
      apply rmatch_rep_class. exists h4. eexists.
      split; [reflexivity |]. split; [exact Hl4 |]. split; [exact Hh4 |].
      apply rmatch_lit. eexists. split; [reflexivity |].
      apply rmatch_rep_class. exists h5. eexists.
      split; [reflexivity |]. split; [exact Hl5 |]. split; [exact Hh5 |].
      apply rmatch_lit. eexists. split; [reflexivity |].
      apply rmatch_eol. exact Htail. }
    intros [(h1 & h2 & h3 & h4 & h5 & -> & H1 & H2 & H3 & H4 & H5)
           | (t & -> & h1 & h2 & h3 & h4 & h5 & -> & H1 & H2 & H3 & H4 & H5)].
    + apply (Hback h1 h2 h3 h4 h5 []); auto.
    + replace (("{" :: h1 ++ "-" :: h2 ++ "-" :: h3 ++ "-" :: h4 ++ "-" :: h5
                  ++ ["}"]) ++ [newline])%char
        with ("{" :: h1 ++ "-" :: h2 ++ "-" :: h3 ++ "-" :: h4 ++ "-" :: h5
                ++ "}" :: [newline])%char.
      * apply (Hback h1 h2 h3 h4 h5 [newline]); auto.
      * simpl. repeat (rewrite <- app_assoc; simpl). reflexivity.
Qed.

(** X4. What the validator accepts for Firefox: a braced GUID of lowercase
    hexadecimal digits in groups of 8, 4, 4, 4 and 12, or a slug of
    characters of [a-zA-Z0-9_.@-] that begins and ends with an alphanumeric
    one; either may be followed by one newline, which [$] lets through. *)
Theorem validate_firefox_iff (ext_id : string) :
  validate_extension_id ext_id "firefox" = true <->
  up_to_newline is_guid (list_ascii_of_string ext_id) \/
  up_to_newline is_slug (list_ascii_of_string ext_id).
Proof.
  unfold validate_extension_id. simpl String.eqb. cbv iota.
  rewrite orb_true_iff, re_match_guid, re_match_slug. reflexivity.
Qed.

(** X5. An identifier the validator accepts for Chrome it accepts for
    Firefox as well, as a slug; and it accepts nothing for a platform that
    is neither. *)
Theorem validate_chrome_then_firefox (ext_id platform : string) :
  (validate_extension_id ext_id "chrome" = true ->
   validate_extension_id ext_id "firefox" = true) /\
  (platform <> "chrome" -> platform <> "firefox" ->
   validate_extension_id ext_id platform = false).
Proof.
  split.
  - rewrite validate_chrome_iff.
    assert (Hfirefox : up_to_newline is_slug (list_ascii_of_string ext_id) ->
              validate_extension_id ext_id "firefox" = true).
    { intros H. unfold validate_extension_id. simpl String.eqb. cbv iota.
      apply orb_true_iff. right. now apply re_match_slug. }
    assert (Hslug : forall t, chrome_id t -> is_slug t).
    { intros t [Hlen Hall].
      assert (Hin : forall c, In c t -> in_class alnum_ranges c = true).
      { intros c Hc. rewrite forallb_forall in Hall. specialize (Hall c Hc).
        unfold in_class, alnum_ranges in *. simpl in *.
        rewrite !orb_false_r, !orb_true_iff in *. tauto. }
      repeat split.
      - destruct t as [|c t']; [discriminate |].
        exists c, t'. split; [reflexivity |]. apply Hin. now left.
      - destruct (exists_last (l := t)) as (t' & d & ->).
        { intros ->. discriminate. }
        exists t', d. split; [reflexivity |]. apply Hin.
        apply in_or_app. right. now left.
      - apply forallb_forall. intros c Hc.
        apply alnum_is_slug_char, Hin, Hc. }
    intros [H | (t & Heq & H)]; apply Hfirefox.
    + left. auto.
    + right. exists t. auto.
  - intros Hc Hf. unfold validate_extension_id.
    apply String.eqb_neq in Hc, Hf. now rewrite Hc, Hf.
Qed.

Lemma validate_chrome_then_firefox_witness :
  validate_extension_id "cjpalhdlnbpafiamejdnhcphjbkeiagm" "firefox" = true /\
  validate_extension_id "cjpalhdlnbpafiamejdnhcphjbkeiagm" "edge" = false.
Proof.
  split.
  - apply (proj1 (validate_chrome_then_firefox
                    "cjpalhdlnbpafiamejdnhcphjbkeiagm" "edge")).
    reflexivity.
  - apply (proj2 (validate_chrome_then_firefox
                    "cjpalhdlnbpafiamejdnhcphjbkeiagm" "edge"));
      discriminate.
Defined.

(** ** Computations that leave the world alone

    A computation is [constant] when it gives the same result in every world
    and changes none. *)

Definition constant {A} (m : M A) : Prop :=
  forall w w', m w = (fst (m w'), w).

(** The result of a constant computation. *)
Definition value_of {A} (m : M A) : result A := fst (m (initial_world ∅)).

Lemma constant_value {A} (m : M A) (w : world) :
  constant m -> m w = (value_of m, w).
Proof. intros H. apply H. Qed.

Lemma constant_ret {A} (a : A) : constant (ret a).
Proof. intros w w'. reflexivity. Qed.

Lemma constant_raise {A} (e : exn) : constant (@raise A e).
Proof. intros w w'. reflexivity. Qed.

Lemma constant_lift {A} (r : result A) : constant (lift r).
Proof. intros w w'. reflexivity. Qed.

Lemma constant_bind {A B} (m : M A) (f : A -> M B) :
  constant m -> (forall a, constant (f a)) -> constant (bind m f).
Proof.
  intros Hm Hf w w'. unfold bind.
  rewrite (Hm w w'), (Hm w' w'). destruct (fst (m w')) as [a | e]; simpl.
  - apply Hf.
  - reflexivity.
Qed.

Lemma constant_if {A} (b : bool) (m1 m2 : M A) :
  constant m1 -> constant m2 -> constant (if b then m1 else m2).
Proof. destruct b; auto. Qed.

Lemma constant_resp_read resp : constant (resp_read resp).
Proof.
  unfold resp_read. destruct (read_error resp) as [[c msg] |];
    [apply constant_raise | apply constant_ret].
Qed.

Ltac constant_step :=
  match goal with
  | |- constant (bind _ _) => apply constant_bind; [| intros ?]
  | |- constant (if _ then _ else _) => apply constant_if
  | |- constant (ret _) => apply constant_ret
  | |- constant (raise _) => apply constant_raise
  | |- constant (lift _) => apply constant_lift
  | |- constant (resp_read _) => apply constant_resp_read
  | |- _ => solve [auto]
  end.

Ltac constant_tac := repeat constant_step.

Lemma constant_scan_entries entries : constant (scan_entries entries).
Proof. induction entries as [|entry rest IH]; simpl; constant_tac. Qed.

Lemma constant_scan_versions results version :
  constant (scan_versions results version).
Proof. induction results as [|ver rest IH]; simpl; constant_tac. Qed.

Lemma constant_version_names items : constant (version_names items).
Proof. induction items as [|ver rest IH]; simpl; constant_tac. Qed.

(** ** The version resolver for Chrome: [get_latest_chrome_version] *)

Definition feed_request : request :=
  Request "https://omahaproxy.appspot.com/all.json" [] 10.

(** The part of [get_latest_chrome_version] that follows [urlopen]. *)
Definition read_feed (E : env) (resp : response) : M value :=
  bind (resp_read resp) (fun raw =>
  bind (lift (of_lib (json_loads E raw))) (fun data =>
  bind (lift (iter data)) (fun entries => scan_entries entries))).

Lemma constant_read_feed E resp : constant (read_feed E resp).
Proof.
  unfold read_feed. pose proof constant_scan_entries. constant_tac.
Qed.

Lemma get_latest_chrome_version_eq (E : env) (w : world) :
  get_latest_chrome_version E w =
    (Ok match opened (net E (length (net_log w)) feed_request) with
        | NetRaise _ _ => fallback_version
        | NetResp resp =>
            match value_of (read_feed E resp) with
            | Ok v => v
            | Raise _ => fallback_version
            end
        end,
     sent feed_request w).
Proof.
  unfold get_latest_chrome_version, try_except. fold feed_request.
  unfold bind at 1. unfold urlopen. fold (sent feed_request w).
  destruct (opened (net E (length (net_log w)) feed_request)) as [c msg | resp].
  - rewrite isinstance_Exception. reflexivity.
  - fold (read_feed E resp).
    assert (Hq : quiet (read_feed E resp)).
    { unfold read_feed. pose proof quiet_scan_entries. quiet_tac. }
    destruct (Hq (initial_world ∅)) as [_ Hex]. fold (value_of (read_feed E resp)) in Hex.
    rewrite (constant_value _ _ (constant_read_feed E resp)).
    destruct (value_of (read_feed E resp)) as [v | e]; [reflexivity |].
    rewrite (Hex e eq_refl). reflexivity.
Qed.

(** X6. [get_latest_chrome_version] never raises: it sends one request,
    does not sleep, leaves the files alone and returns a version.  When the
    request raises, when the body is not JSON (whatever the status, which is
    not looked at) or when the feed is an empty list, the version is the
    fallback ["119.0.6045.0"]. *)
Theorem get_latest_chrome_version_falls_back (E : env) (w : world) :
  (exists v,
     get_latest_chrome_version E w = (Ok v, sent feed_request w)) /\
  net_log (snd (get_latest_chrome_version E w)) = net_log w ++ [feed_request] /\
  slept (snd (get_latest_chrome_version E w)) = slept w /\
  fs (snd (get_latest_chrome_version E w)) = fs w /\
  (forall c msg,
     net E (length (net_log w)) feed_request = NetRaise c msg ->
     fst (get_latest_chrome_version E w) = Ok (JStr "119.0.6045.0")) /\
  (forall resp c msg,
     net E (length (net_log w)) feed_request = NetResp resp ->
     read_error resp = None ->
     json_loads E (body resp) = Throws c msg ->
     fst (get_latest_chrome_version E w) = Ok (JStr "119.0.6045.0")) /\
  (forall resp,
     net E (length (net_log w)) feed_request = NetResp resp ->
     read_error resp = None ->
     json_loads E (body resp) = Gives (JArr []) ->
     fst (get_latest_chrome_version E w) = Ok (JStr "119.0.6045.0")).
Proof.
  rewrite get_latest_chrome_version_eq. simpl fst. simpl snd.
  split; [eauto |]. repeat split.
  - intros c msg ->. reflexivity.
  - intros resp c msg -> Hrd Hjson. unfold opened.
    destruct (error_status resp); [reflexivity |].
    unfold value_of, read_feed, resp_read, bind, lift.
    rewrite Hrd. simpl. rewrite Hjson. reflexivity.
  - intros resp -> Hrd Hjson. unfold opened.
    destruct (error_status resp); [reflexivity |].
    unfold value_of, read_feed, resp_read, bind, lift.
    rewrite Hrd. simpl. rewrite Hjson. reflexivity.
Qed.

Lemma get_latest_chrome_version_falls_back_witness :
  fst (get_latest_chrome_version FetcherSamples.E_down FetcherSamples.w0)
    = Ok (JStr "119.0.6045.0").
Proof.
  apply (proj1 (proj2 (proj2 (proj2 (proj2
           (get_latest_chrome_version_falls_back
              FetcherSamples.E_down FetcherSamples.w0)))))
           URLError "<urlopen error timed out>").
  reflexivity.
Defined.

(** Whether an entry of the feed is the stable channel for 64-bit Windows. *)
Definition stable_win64 (fields : list (string * value)) : bool :=
  eq_str (default JNull (assoc "os" fields)) "win64" &&
  eq_str (default JNull (assoc "channel" fields)) "stable".

(** An entry the scan passes over: an object that is not the stable channel
    for 64-bit Windows, or that lists no versions. *)
Definition passed_over (entry : value) : Prop :=
  exists fields,
    entry = JObj fields /\
    (stable_win64 fields = false \/
     truthy (default (JArr []) (assoc "versions" fields)) = false).

Lemma scan_entries_passed_over (pre rest : list value) (w : world) :
  Forall passed_over pre ->
  scan_entries (pre ++ rest) w = scan_entries rest w.
Proof.
  induction 1 as [|entry pre (fields & -> & Hskip) _ IH]; [reflexivity |].
  cbn [app scan_entries]. unfold bind, lift, get, stable_win64 in *.
  destruct (assoc "os" fields) as [os |] eqn:Hos; simpl in *.
  - destruct (eq_str os "win64"); simpl in *.
    + destruct (assoc "channel" fields) as [ch |] eqn:Hch; simpl in *.
      * destruct (eq_str ch "stable"); simpl in *; [| exact IH].
        destruct Hskip as [Habs | Hfalsy]; [discriminate |].
        destruct (assoc "versions" fields) as [vs |]; simpl in *.
        -- rewrite Hfalsy. exact IH.
        -- exact IH.
      * exact IH.
    + exact IH.
  - exact IH.
Qed.

(** X7. The feed, answered with a success status, is scanned in order:
    entries that are not the stable channel for 64-bit Windows, or that list
    no versions, are passed over, and the first entry that is and does
    decides.  Its first listed version is returned; when that one has no
    ["version"] key the fallback is returned, whatever entries follow. *)
Theorem get_latest_chrome_version_first_stable (E : env) (w : world)
    (resp : response) (pre rest more : list value)
    (fields first : list (string * value)) :
  net E (length (net_log w)) feed_request = NetResp resp ->
  200 <= status resp < 300 ->
  read_error resp = None ->
  json_loads E (body resp) = Gives (JArr (pre ++ JObj fields :: rest)) ->
  Forall passed_over pre ->
  stable_win64 fields = true ->
  assoc "versions" fields = Some (JArr (JObj first :: more)) ->
  fst (get_latest_chrome_version E w) =
    Ok (default fallback_version (assoc "version" first)).
Proof.
  intros Hnet Hst Hrd Hjson Hpre Hstable Hversions.
  rewrite get_latest_chrome_version_eq, Hnet, (opened_ok resp Hst).
  simpl fst. f_equal.
  unfold value_of, read_feed, resp_read. rewrite Hrd.
  unfold bind at 1. unfold ret. unfold bind at 1. unfold lift at 1.
  rewrite Hjson. cbn [of_lib]. unfold bind at 1. unfold lift at 1. cbn [iter].
  rewrite scan_entries_passed_over by exact Hpre.
  cbn [scan_entries]. unfold bind, lift, get, stable_win64 in *.
  destruct (assoc "os" fields) as [os |]; simpl in Hstable; [| discriminate].
  destruct (eq_str os "win64"); simpl in Hstable; [| discriminate].
  destruct (assoc "channel" fields) as [ch |]; simpl in Hstable; [| discriminate].
  rewrite Hstable, Hversions. simpl.
  destruct (assoc "version" first); reflexivity.
Qed.

(** ** The version resolver for Firefox on a response it can read *)

Section ResolverAnswers.

Context (E : env).

(** The part of the pass without a version that follows the status checks. *)
Definition current_tail (resp : response) : M (flow value) :=
  bind (resp_read resp) (fun raw =>
  bind (lift (of_lib (json_loads E raw))) (fun data =>
  bind (lift (get data "current_version" JNull)) (fun current_version =>
  if negb (truthy current_version) then
    raise (Exn RuntimeError "No current version found for addon.")
  else
    bind (lift (get current_version "file" JNull)) (fun file_info =>
    if negb (truthy file_info) then
      raise (Exn RuntimeError "No file found for addon.")
    else
      bind (lift (get file_info "url" JNull)) (fun download_url =>
      if negb (truthy download_url) then
        raise (Exn RuntimeError "No download URL found.")
      else ret (Return download_url)))))).

(** The part of the pass with a version that follows the status checks. *)
Definition versions_tail (version : string) (resp : response) : M (flow value) :=
  bind (resp_read resp) (fun raw =>
  bind (lift (of_lib (json_loads E raw))) (fun versions_data =>
  bind (lift (get versions_data "results" (JArr []))) (fun results =>
  bind (lift (iter results)) (fun items =>
  bind (scan_versions items version) (fun download_url =>
  ret (Return download_url)))))).

Definition info_tail (version : option string) : response -> M (flow value) :=
  match version with
  | None => current_tail
  | Some v => versions_tail v
  end.

Lemma constant_info_tail version resp : constant (info_tail version resp).
Proof.
  destruct version as [v |]; simpl.
  - unfold versions_tail. pose proof constant_scan_versions. constant_tac.
  - unfold current_tail. constant_tac.
Qed.

(** What a pass makes of any answer of the network. *)
Definition info_outcome (version : option string) (o : net_outcome)
    : option (result (flow value) * list Z) :=
  match opened o with
  | NetRaise c msg => Some (Raise (Exn c msg), [])
  | NetResp resp =>
      if status resp =? 404 then
        Some (Raise (Exn RuntimeError "Firefox addon not found or invalid ID."), [])
      else if status resp =? 429 then Some (Ok Continue, [5])
      else if negb (status resp =? 200) then
        Some (Raise (Exn RuntimeError
                       (info_error_prefix version +:+ pretty (status resp))), [])
      else Some (value_of (info_tail version resp), [])
  end.

Lemma info_pass_spec (addon_id : string) (version : option string) :
  pass_spec E
    (match version with
     | None => current_version_pass E (addon_url addon_id)
     | Some v => versions_pass E (addon_versions_url addon_id) v
     end)
    (info_request addon_id version) (info_outcome version).
Proof.
  intros w r naps Hout. unfold info_outcome in Hout.
  assert (Hpass :
    (match version with
     | None => current_version_pass E (addon_url addon_id)
     | Some v => versions_pass E (addon_versions_url addon_id) v
     end) w =
    bind (urlopen E (info_request addon_id version))
      (fun resp =>
         if status resp =? 404 then
           raise (Exn RuntimeError "Firefox addon not found or invalid ID.")
         else if status resp =? 429 then
           bind (logging WARNING "Rate limit hit, retrying after delay...")
             (fun _ => bind (sleep 5) (fun _ => ret Continue))
         else if negb (status resp =? 200) then
           raise (Exn RuntimeError
                    (info_error_prefix version +:+ pretty (status resp)))
         else info_tail version resp) w).
  { destruct version; reflexivity. }
  rewrite Hpass. unfold bind at 1. unfold urlopen.
  fold (sent (info_request addon_id version) w).
  destruct (opened (net E _ _)) as [c msg | resp].
  { injection Hout as <- <-. eexists. split; [reflexivity |].
    autorewrite with world. rewrite app_nil_r. auto. }
  destruct (status resp =? 404).
  { injection Hout as <- <-. eexists. split; [reflexivity |].
    autorewrite with world. rewrite app_nil_r. auto. }
  destruct (status resp =? 429).
  { injection Hout as <- <-. unfold bind. rewrite logging_eq, sleep_eq.
    eexists. split; [reflexivity |]. autorewrite with world. auto. }
  destruct (negb (status resp =? 200)).
  { injection Hout as <- <-. eexists. split; [reflexivity |].
    autorewrite with world. rewrite app_nil_r. auto. }
  injection Hout as <- <-.
  rewrite (constant_value _ _ (constant_info_tail version resp)).
  eexists. split; [reflexivity |].
  autorewrite with world. rewrite app_nil_r. auto.
Qed.

(** [fetch_firefox_addon_info] replayed on any answers of the network. *)
Lemma fetch_firefox_addon_info_replay (addon_id : string)
    (version : option string) (w : world) (r : result value) (k : nat)
    (sl : list Z) :
  simulate E api_errors (info_fail_msg version) api_delay
    (info_request addon_id version) (info_outcome version)
    3 (length (net_log w)) = Some (r, k, sl) ->
  exists w',
    fetch_firefox_addon_info E addon_id version w = (r, w') /\
    net_log w' = net_log w ++ repeat (info_request addon_id version) k /\
    slept w' = slept w ++ sl.
Proof.
  intros Hsim. unfold fetch_firefox_addon_info.
  pose proof (info_pass_spec addon_id version) as Hspec.
  destruct version as [version |].
  - rewrite versions_loop_eq.
    eapply retry_loop_simulate; [exact Hspec | exact Hsim].
  - rewrite current_version_loop_eq.
    eapply retry_loop_simulate; [exact Hspec | exact Hsim].
Qed.

(** A first pass that returns or raises what the loop does not catch ends
    the function after one request and no sleep. *)
Lemma fetch_firefox_addon_info_first (addon_id : string)
    (version : option string) (w : world) (r : result (flow value)) :
  info_outcome version
    (net E (length (net_log w)) (info_request addon_id version)) = Some (r, []) ->
  match r with
  | Ok (Return _) => True
  | Ok Continue => False
  | Raise e => isinstance e api_errors = false
  end ->
  exists w',
    fetch_firefox_addon_info E addon_id version w =
      (match r with
       | Ok (Return u) => Ok u
       | Ok Continue => Raise (Exn RuntimeError "Unreachable")
       | Raise e => Raise e
       end, w') /\
    net_log w' = net_log w ++ [info_request addon_id version] /\
    slept w' = slept w.
Proof.
  intros Hout Hr.
  destruct (fetch_firefox_addon_info_replay addon_id version w
              (match r with
               | Ok (Return u) => Ok u
               | Ok Continue => Raise (Exn RuntimeError "Unreachable")
               | Raise e => Raise e
               end) 1 []) as (w' & Hrun & Hlog & Hslept).
  - cbn [simulate]. rewrite Hout.
    destruct r as [[u |] | e]; [reflexivity | contradiction |].
    rewrite Hr. reflexivity.
  - exists w'. rewrite app_nil_r in Hslept. auto.
Qed.

Lemma info_outcome_200 (version : option string) (resp : response) :
  status resp = 200 ->
  info_outcome version (NetResp resp) =
    Some (value_of (info_tail version resp), []).
Proof.
  intros Hst. unfold info_outcome. rewrite opened_200 by assumption.
  rewrite Hst. reflexivity.
Qed.

End ResolverAnswers.

Section ResolverTheorems.

Context (E : env).

Lemma truthy_obj_of_assoc (key : string) (fields : list (string * value))
    (v : value) :
  assoc key fields = Some v -> truthy (JObj fields) = true.
Proof. destruct fields; [discriminate | reflexivity]. Qed.

(** The JSON of a readable 200 response, as the pass has it. *)
Lemma current_tail_value (resp : response) (loaded : lib_result value) :
  read_error resp = None ->
  json_loads E (body resp) = loaded ->
  value_of (current_tail E resp) =
    match of_lib loaded with
    | Raise e => Raise e
    | Ok data =>
        match get data "current_version" JNull with
        | Raise e => Raise e
        | Ok current_version =>
            if negb (truthy current_version) then
              Raise (Exn RuntimeError "No current version found for addon.")
            else
              match get current_version "file" JNull with
              | Raise e => Raise e
              | Ok file_info =>
                  if negb (truthy file_info) then
                    Raise (Exn RuntimeError "No file found for addon.")
                  else
                    match get file_info "url" JNull with
                    | Raise e => Raise e
                    | Ok download_url =>
                        if negb (truthy download_url) then
                          Raise (Exn RuntimeError "No download URL found.")
                        else Ok (Return download_url)
                    end
              end
        end
    end.
Proof.
  intros Hrd <-. unfold value_of, current_tail, resp_read, bind, lift.
  rewrite Hrd. unfold ret at 1.
  destruct (of_lib (json_loads E (body resp))) as [data | e]; [| reflexivity].
  destruct (get data "current_version" JNull) as [cv | e]; [| reflexivity].
  destruct (negb (truthy cv)); [reflexivity |].
  destruct (get cv "file" JNull) as [fi | e]; [| reflexivity].
  destruct (negb (truthy fi)); [reflexivity |].
  destruct (get fi "url" JNull) as [u | e]; [| reflexivity].
  destruct (negb (truthy u)); reflexivity.
Qed.

(** The pass on a response whose JSON holds [current_version.file.url]. *)
Lemma current_tail_url (resp : response) (top cv fi : list (string * value))
    (u : value) :
  read_error resp = None ->
  json_loads E (body resp) = Gives (JObj top) ->
  assoc "current_version" top = Some (JObj cv) ->
  assoc "file" cv = Some (JObj fi) ->
  assoc "url" fi = Some u ->
  truthy u = true ->
  value_of (current_tail E resp) = Ok (Return u).
Proof.
  intros Hrd Hjson Hcv Hfi Hu Htruthy.
  rewrite (current_tail_value resp _ Hrd Hjson). cbn [of_lib get].
  rewrite Hcv, (truthy_obj_of_assoc _ _ _ Hfi). cbn [negb get].
  rewrite Hfi, (truthy_obj_of_assoc _ _ _ Hu). cbn [negb get].
  rewrite Hu, Htruthy. reflexivity.
Qed.

(** X8. Without a version, a 200 response whose JSON holds
    [current_version.file.url] makes [fetch_firefox_addon_info] return that
    URL after one request and no sleep. *)
Theorem fetch_firefox_current_url (w : world) (addon_id : string)
    (resp : response) (top cv fi : list (string * value)) (u : value) :
  net E (length (net_log w)) (info_request addon_id None) = NetResp resp ->
  status resp = 200 ->
  read_error resp = None ->
  json_loads E (body resp) = Gives (JObj top) ->
  assoc "current_version" top = Some (JObj cv) ->
  assoc "file" cv = Some (JObj fi) ->
  assoc "url" fi = Some u ->
  truthy u = true ->
  exists w',
    fetch_firefox_addon_info E addon_id None w = (Ok u, w') /\
    net_log w' = net_log w ++ [info_request addon_id None] /\
    slept w' = slept w.
Proof.
  intros Hnet Hst Hrd Hjson Hcv Hfi Hu Htruthy.
  apply (fetch_firefox_addon_info_first E addon_id None w (Ok (Return u)));
    [| exact I].
  rewrite Hnet, (info_outcome_200 E None resp Hst). cbn [info_tail].
  rewrite (current_tail_url resp top cv fi u); auto.
Qed.

(** X9. A 200 response whose JSON object lacks [current_version], whose
    [current_version] lacks [file], or whose [file] lacks [url] (or holds a
    false value there) is a failure of its own message, raised after one
    request: the loop does not retry it. *)
Theorem fetch_firefox_current_malformed (w : world) (addon_id : string)
    (resp : response) (top : list (string * value)) :
  net E (length (net_log w)) (info_request addon_id None) = NetResp resp ->
  status resp = 200 ->
  read_error resp = None ->
  json_loads E (body resp) = Gives (JObj top) ->
  let raises msg :=
    exists w',
      fetch_firefox_addon_info E addon_id None w =
        (Raise (Exn RuntimeError msg), w') /\
      net_log w' = net_log w ++ [info_request addon_id None] /\
      slept w' = slept w in
  (truthy (default JNull (assoc "current_version" top)) = false ->
   raises "No current version found for addon.") /\
  (forall cv,
     assoc "current_version" top = Some (JObj cv) ->
     truthy (JObj cv) = true ->
     truthy (default JNull (assoc "file" cv)) = false ->
     raises "No file found for addon.") /\
  (forall cv fi,
     assoc "current_version" top = Some (JObj cv) ->
     assoc "file" cv = Some (JObj fi) ->
     truthy (JObj fi) = true ->
     truthy (default JNull (assoc "url" fi)) = false ->
     raises "No download URL found.").
Proof.
  intros Hnet Hst Hrd Hjson raises. subst raises. cbv beta.
  assert (Hfirst : forall msg,
            value_of (current_tail E resp) = Raise (Exn RuntimeError msg) ->
            exists w',
              fetch_firefox_addon_info E addon_id None w =
                (Raise (Exn RuntimeError msg), w') /\
              net_log w' = net_log w ++ [info_request addon_id None] /\
              slept w' = slept w).
  { intros msg Hval.
    apply (fetch_firefox_addon_info_first E addon_id None w
             (Raise (Exn RuntimeError msg))); [| reflexivity].
    rewrite Hnet, (info_outcome_200 E None resp Hst). cbn [info_tail].
    now rewrite Hval. }
  rewrite (current_tail_value resp _ Hrd Hjson) in Hfirst. cbn [of_lib get] in Hfirst.
  split; [| split].
  - intros Hfalsy. apply Hfirst.
    destruct (assoc "current_version" top) as [cv |]; simpl in Hfalsy;
      rewrite ?Hfalsy; reflexivity.
  - intros cv Hcv Hcvt Hfalsy. apply Hfirst.
    rewrite Hcv, Hcvt. cbn [negb get].
    destruct (assoc "file" cv) as [fi |]; simpl in Hfalsy;
      rewrite ?Hfalsy; reflexivity.
  - intros cv fi Hcv Hfi Hfit Hfalsy. apply Hfirst.
    rewrite Hcv, (truthy_obj_of_assoc _ _ _ Hfi). cbn [negb get].
    rewrite Hfi, Hfit. cbn [negb get].
    destruct (assoc "url" fi) as [u |]; simpl in Hfalsy;
      rewrite ?Hfalsy; reflexivity.
Qed.

(** A pass that fails in a way the loop retries: the request raises a
    [URLError] or an [OSError], the response has an error status, which
    [urlopen] raises as [HTTPError], the body cannot be read for a
    [URLError] or an [OSError], or the body is not JSON. *)
Inductive api_failure : net_outcome -> exn -> Prop :=
  | fail_transport c msg :
      isinstance (Exn c msg) api_errors = true ->
      api_failure (NetRaise c msg) (Exn c msg)
  | fail_status resp :
      error_status resp = true ->
      api_failure (NetResp resp) (Exn HTTPError (http_error_str resp))
  | fail_read resp c msg :
      status resp = 200 ->
      read_error resp = Some (c, msg) ->
      isinstance (Exn c msg) api_errors = true ->
      api_failure (NetResp resp) (Exn c msg)
  | fail_json resp msg :
      status resp = 200 ->
      read_error resp = None ->
      json_loads E (body resp) = Throws JSONDecodeError msg ->
      api_failure (NetResp resp) (Exn JSONDecodeError msg).

Lemma api_failure_outcome (version : option string) (o : net_outcome) (e : exn) :
  api_failure o e ->
  info_outcome E version o = Some (Raise e, []) /\
  isinstance e api_errors = true.
Proof.
  intros [c msg Hc | resp Herr | resp c msg Hst Hrd Hc | resp msg Hst Hrd Hjson].
  - split; [reflexivity | exact Hc].
  - split; [| reflexivity]. unfold info_outcome. now rewrite opened_error.
  - split; [| exact Hc]. rewrite (info_outcome_200 E version resp Hst).
    unfold value_of. destruct version; simpl;
      unfold versions_tail, current_tail, resp_read, bind; rewrite Hrd;
      reflexivity.
  - split; [| reflexivity]. rewrite (info_outcome_200 E version resp Hst).
    unfold value_of. destruct version; simpl;
      unfold versions_tail, current_tail, resp_read, bind, lift; rewrite Hrd;
      simpl; rewrite Hjson; reflexivity.
Qed.

(** X10. A body that is not JSON and a response of an error status are
    retried like a transport failure, in both branches: three passes that
    fail in any of these ways make three requests with sleeps of 2 and 4
    seconds between them, and the function raises with the cause of the
    third in its message. *)
Theorem fetch_firefox_retries_bad_json (w : world) (addon_id : string)
    (version : option string) (e1 e2 e3 : exn) :
  let req := info_request addon_id version in
  let n := length (net_log w) in
  api_failure (net E n req) e1 ->
  api_failure (net E (n + 1) req) e2 ->
  api_failure (net E (n + 2) req) e3 ->
  exists w',
    fetch_firefox_addon_info E addon_id version w =
      (Raise (Exn RuntimeError
                ((match version with
                  | None => "Failed to fetch addon info: "
                  | Some _ => "Failed to fetch versions: "
                  end) +:+ exn_str e3)), w') /\
    net_log w' = net_log w ++ [req; req; req] /\
    slept w' = slept w ++ [2; 4].
Proof.
  intros req n H1 H2 H3.
  destruct (api_failure_outcome version _ _ H1) as [Ho1 Hc1].
  destruct (api_failure_outcome version _ _ H2) as [Ho2 Hc2].
  destruct (api_failure_outcome version _ _ H3) as [Ho3 Hc3].
  assert (Hmsg : (match version with
                  | None => "Failed to fetch addon info: "
                  | Some _ => "Failed to fetch versions: "
                  end) +:+ exn_str e3 = info_fail_msg version e3).
  { destruct version; reflexivity. }
  rewrite Hmsg.
  apply (fetch_firefox_addon_info_replay E addon_id version w _ 3 [2; 4]).
  fold req n. cbn [simulate].
  rewrite Ho1, Hc1. simpl (_ =? _).
  replace (S n) with (n + 1)%nat by lia. rewrite Ho2, Hc2. simpl (_ =? _).
  replace (S (n + 1)) with (n + 2)%nat by lia. rewrite Ho3, Hc3. simpl (_ =? _).
  reflexivity.
Qed.

(** X11. A response of the metadata API with a success status other than
    200 ends either branch at once, with the status in the message: one
    request, no sleep, no retry. *)
Theorem fetch_firefox_status_error (w : world) (addon_id : string)
    (version : option string) (resp : response) :
  net E (length (net_log w)) (info_request addon_id version) = NetResp resp ->
  200 <= status resp < 300 -> status resp <> 200 ->
  exists w',
    fetch_firefox_addon_info E addon_id version w =
      (Raise (Exn RuntimeError
                ((match version with
                  | None => "API error: HTTP "
                  | Some _ => "Versions API error: HTTP "
                  end) +:+ pretty (status resp))), w') /\
    net_log w' = net_log w ++ [info_request addon_id version] /\
    slept w' = slept w.
Proof.
  intros Hnet Hok H200.
  apply (fetch_firefox_addon_info_first E addon_id version w
           (Raise (Exn RuntimeError _))); [| reflexivity].
  rewrite Hnet. unfold info_outcome. rewrite opened_ok by assumption.
  assert ((status resp =? 404) = false) as -> by (apply Z.eqb_neq; lia).
  assert ((status resp =? 429) = false) as -> by (apply Z.eqb_neq; lia).
  apply Z.eqb_neq in H200. rewrite H200. simpl.
  destruct version; reflexivity.
Qed.

(** An entry of the version list the scan passes over: another version, no
    file, or a file without a URL. *)
Definition no_download (version : string) (entry : value) : Prop :=
  exists fields,
    entry = JObj fields /\
    (eq_str (default JNull (assoc "version" fields)) version = false \/
     truthy (default JNull (assoc "file" fields)) = false \/
     exists file,
       assoc "file" fields = Some (JObj file) /\
       truthy (default JNull (assoc "url" file)) = false).

Lemma scan_versions_cons (version : string) (fields : list (string * value))
    (rest : list value) (w : world) :
  scan_versions (JObj fields :: rest) version w =
    if eq_str (default JNull (assoc "version" fields)) version then
      if truthy (default JNull (assoc "file" fields)) then
        match get (default JNull (assoc "file" fields)) "url" JNull with
        | Raise e => (Raise e, w)
        | Ok u => if truthy u then (Ok u, w) else scan_versions rest version w
        end
      else scan_versions rest version w
    else scan_versions rest version w.
Proof.
  cbn [scan_versions]. unfold bind, lift. cbn [get].
  destruct (assoc "version" fields) as [v |]; cbn [default from_option id];
    (destruct (eq_str _ version); [| reflexivity]);
    (destruct (assoc "file" fields) as [fi |]; cbn [default from_option id];
     [| reflexivity]);
    (destruct (truthy fi); [| reflexivity]);
    (destruct (get fi "url" JNull) as [u | e]; [| reflexivity]);
    destruct (truthy u); reflexivity.
Qed.

Lemma scan_versions_pass_over (version : string) (pre rest : list value)
    (w : world) :
  Forall (no_download version) pre ->
  scan_versions (pre ++ rest) version w = scan_versions rest version w.
Proof.
  induction 1 as [|entry pre (fields & -> & Hskip) _ IH]; [reflexivity |].
  cbn [app]. rewrite scan_versions_cons.
  destruct (eq_str (default JNull (assoc "version" fields)) version) eqn:Hv;
    [| exact IH].
  destruct Hskip as [Hver | [Hfile | (file & Hfile & Hurl)]].
  - congruence.
  - rewrite Hfile. exact IH.
  - rewrite Hfile. cbn [default from_option id].
    destruct (truthy (JObj file)); [| exact IH].
    cbn [get].
    destruct (assoc "url" file) as [u |]; cbn [default from_option id] in Hurl.
    + rewrite Hurl. exact IH.
    + cbn [truthy]. exact IH.
Qed.

Lemma versions_tail_value (version : string) (resp : response)
    (top : list (string * value)) (items : list value) :
  read_error resp = None ->
  json_loads E (body resp) = Gives (JObj top) ->
  default (JArr []) (assoc "results" top) = JArr items ->
  value_of (versions_tail E version resp) =
    match value_of (scan_versions items version) with
    | Ok u => Ok (Return u)
    | Raise e => Raise e
    end.
Proof.
  intros Hrd Hjson Hresults.
  unfold value_of at 1. unfold versions_tail, resp_read. rewrite Hrd.
  unfold bind at 1. unfold ret at 1. unfold bind at 1. unfold lift at 1.
  rewrite Hjson. cbn [of_lib]. unfold bind at 1. unfold lift at 1. cbn [get].
  assert (Hget : match assoc "results" top with
                 | Some x => Ok x
                 | None => Ok (JArr [])
                 end = @Ok value (JArr items)).
  { destruct (assoc "results" top); simpl in Hresults; now rewrite Hresults. }
  rewrite Hget. unfold bind at 1. unfold lift at 1. cbn [iter].
  unfold bind.
  rewrite (constant_value _ _ (constant_scan_versions items version)).
  destruct (value_of (scan_versions items version)); reflexivity.
Qed.

(** X12. With a version, the list [results] of a 200 response is scanned in
    order.  Entries of another version, without a file or without a URL are
    passed over; the first entry of the version with a URL gives the result;
    when there is none (or no [results] at all) the function raises that the
    version was not found, after one request and without a retry. *)
Theorem fetch_firefox_version_lookup (w : world) (addon_id version : string)
    (resp : response) (top : list (string * value)) (items : list value) :
  net E (length (net_log w)) (info_request addon_id (Some version))
    = NetResp resp ->
  status resp = 200 ->
  read_error resp = None ->
  json_loads E (body resp) = Gives (JObj top) ->
  default (JArr []) (assoc "results" top) = JArr items ->
  let ends_with (r : result value) :=
    exists w',
      fetch_firefox_addon_info E addon_id (Some version) w = (r, w') /\
      net_log w' = net_log w ++ [info_request addon_id (Some version)] /\
      slept w' = slept w in
  (Forall (no_download version) items ->
   ends_with (Raise (Exn RuntimeError
                       ("Version " +:+ version +:+ " not found for addon.")))) /\
  (forall pre fields file u rest,
     items = pre ++ JObj fields :: rest ->
     Forall (no_download version) pre ->
     assoc "version" fields = Some (JStr version) ->
     assoc "file" fields = Some (JObj file) ->
     assoc "url" file = Some u ->
     truthy u = true ->
     ends_with (Ok u)).
Proof.
  intros Hnet Hst Hrd Hjson Hresults ends_with. subst ends_with. cbv beta.
  pose proof (versions_tail_value version resp top items Hrd Hjson Hresults)
    as Htail.
  split.
  - intros Hnone.
    apply (fetch_firefox_addon_info_first E addon_id (Some version) w
             (Raise (Exn RuntimeError _))); [| reflexivity].
    rewrite Hnet, (info_outcome_200 E (Some version) resp Hst).
    cbn [info_tail]. rewrite Htail. unfold value_of.
    rewrite <- (app_nil_r items), scan_versions_pass_over by exact Hnone.
    reflexivity.
  - intros pre fields file u rest -> Hpre Hver Hfile Hurl Htruthy.
    apply (fetch_firefox_addon_info_first E addon_id (Some version) w
             (Ok (Return u))); [| exact I].
    rewrite Hnet, (info_outcome_200 E (Some version) resp Hst).
    cbn [info_tail]. rewrite Htail. unfold value_of.
    rewrite scan_versions_pass_over by exact Hpre.
    rewrite scan_versions_cons, Hver, Hfile. cbn [default from_option id eq_str].
    rewrite String.eqb_refl, (truthy_obj_of_assoc _ _ _ Hurl). cbn [get].
    rewrite Hurl, Htruthy. reflexivity.
Qed.

End ResolverTheorems.

(** *** The resolvers on sample documents *)

Module ResolverDocs.

Import Sample.

(** An environment whose every response is a 200 with the JSON [doc]. *)
Definition env_with (doc : value) : env :=
  Env (always (NetResp (ok_response [])))
      (fun _ => Gives doc)
      (fun _ => "None")
      (fun _ => Throws ValueError "invalid literal for int() with base 10")
      false
      (fun _ => Throws UnicodeDecodeError "invalid start byte")
      (fun _ => None)
      (fun p => "/home/user/" +:+ p).

Definition linux_entry : value :=
  JObj [("os", JStr "linux"); ("channel", JStr "stable");
        ("versions", JArr [JObj [("version", JStr "120.0.6099.0")]])].

Definition beta_entry : value :=
  JObj [("os", JStr "win64"); ("channel", JStr "beta");
        ("versions", JArr [JObj [("version", JStr "121.0.6167.8")]])].

Definition stable_fields : list (string * value) :=
  [("os", JStr "win64"); ("channel", JStr "stable");
   ("versions", JArr [JObj [("version", JStr "120.0.6099.71")];
                      JObj [("version", JStr "119.0.6045.200")]])].

Definition feed : value := JArr [linux_entry; beta_entry; JObj stable_fields].

Definition xpi_location : value :=
  JStr "https://addons.mozilla.org/firefox/downloads/file/4000000/sample.xpi".

Definition addon : value :=
  JObj [("slug", JStr "sample");
        ("current_version",
         JObj [("version", JStr "2.0"); ("file", JObj [("url", xpi_location)])])].

Definition addon_without_version : list (string * value) :=
  [("slug", JStr "sample")].

Definition old_location : value :=
  JStr "https://addons.mozilla.org/firefox/downloads/file/3000000/sample.xpi".

Definition version_list : list (string * value) :=
  [("results",
    JArr [JObj [("version", JStr "2.0"); ("file", JObj [("url", xpi_location)])];
          JObj [("version", JStr "1.0")];
          JObj [("version", JStr "1.0"); ("file", JObj [("url", old_location)])]])].

Definition w0 : world := initial_world ∅.

End ResolverDocs.

Lemma get_latest_chrome_version_first_stable_witness :
  fst (get_latest_chrome_version (ResolverDocs.env_with ResolverDocs.feed)
         ResolverDocs.w0) = Ok (JStr "120.0.6099.71").
Proof.
  apply (get_latest_chrome_version_first_stable
           (ResolverDocs.env_with ResolverDocs.feed) ResolverDocs.w0
           (Sample.ok_response [])
           [ResolverDocs.linux_entry; ResolverDocs.beta_entry] [] 
           [JObj [("version", JStr "119.0.6045.200")]]
           ResolverDocs.stable_fields [("version", JStr "120.0.6099.71")]);
    try reflexivity.
  { simpl. lia. }
  repeat constructor.
  - eexists. split; [reflexivity |]. left. reflexivity.
  - eexists. split; [reflexivity |]. left. reflexivity.
Defined.

Lemma fetch_firefox_current_url_witness :
  exists w',
    fetch_firefox_addon_info (ResolverDocs.env_with ResolverDocs.addon)
      "sample" None ResolverDocs.w0 = (Ok ResolverDocs.xpi_location, w') /\
    net_log w' = [info_request "sample" None] /\
    slept w' = [].
Proof.
  apply (fetch_firefox_current_url (ResolverDocs.env_with ResolverDocs.addon)
           ResolverDocs.w0 "sample" (Sample.ok_response [])
           [("slug", JStr "sample");
            ("current_version",
             JObj [("version", JStr "2.0");
                   ("file", JObj [("url", ResolverDocs.xpi_location)])])]
           [("version", JStr "2.0");
            ("file", JObj [("url", ResolverDocs.xpi_location)])]
           [("url", ResolverDocs.xpi_location)]);
    reflexivity.
Defined.

Lemma fetch_firefox_current_malformed_witness :
  exists w',
    fetch_firefox_addon_info
      (ResolverDocs.env_with (JObj ResolverDocs.addon_without_version))
      "sample" None ResolverDocs.w0 =
      (Raise (Exn RuntimeError "No current version found for addon."), w') /\
    net_log w' = [info_request "sample" None] /\
    slept w' = [].
Proof.
  apply (proj1 (fetch_firefox_current_malformed
                  (ResolverDocs.env_with (JObj ResolverDocs.addon_without_version))
                  ResolverDocs.w0 "sample" (Sample.ok_response [])
                  ResolverDocs.addon_without_version
                  eq_refl eq_refl eq_refl eq_refl)).
  reflexivity.
Defined.

Lemma fetch_firefox_retries_bad_json_witness :
  exists w',
    fetch_firefox_addon_info
      (Sample.env_of (Sample.always (NetResp (Sample.ok_response []))))
      "sample" None ResolverDocs.w0 =
      (Raise (Exn RuntimeError
                "Failed to fetch addon info: Expecting value: line 1 column 1 (char 0)"),
       w') /\
    length (net_log w') = 3%nat /\
    slept w' = [2; 4].
Proof.
  destruct (fetch_firefox_retries_bad_json
              (Sample.env_of (Sample.always (NetResp (Sample.ok_response []))))
              ResolverDocs.w0 "sample" None
              (Exn JSONDecodeError "Expecting value: line 1 column 1 (char 0)")
              (Exn JSONDecodeError "Expecting value: line 1 column 1 (char 0)")
              (Exn JSONDecodeError "Expecting value: line 1 column 1 (char 0)"))
    as (w' & Hrun & Hlog & Hslept);
    try (apply fail_json; reflexivity).
  exists w'. rewrite Hrun, Hlog, Hslept. auto.
Defined.

Lemma fetch_firefox_status_error_witness :
  exists w',
    fetch_firefox_addon_info
      (Sample.env_of
         (Sample.always (NetResp (Sample.status_response 204 "No Content"))))
      "sample" (Some "1.0") ResolverDocs.w0 =
      (Raise (Exn RuntimeError "Versions API error: HTTP 204"), w') /\
    net_log w' = [info_request "sample" (Some "1.0")] /\
    slept w' = [].
Proof.
  apply (fetch_firefox_status_error
           (Sample.env_of
              (Sample.always (NetResp (Sample.status_response 204 "No Content"))))
           ResolverDocs.w0
           "sample" (Some "1.0") (Sample.status_response 204 "No Content"));
    [reflexivity | simpl; lia | simpl; lia].
Defined.

Lemma fetch_firefox_version_lookup_witness :
  exists w',
    fetch_firefox_addon_info
      (ResolverDocs.env_with (JObj ResolverDocs.version_list))
      "sample" (Some "1.0") ResolverDocs.w0 =
      (Ok ResolverDocs.old_location, w') /\
    net_log w' = [info_request "sample" (Some "1.0")] /\
    slept w' = [].
Proof.
  apply (proj2 (fetch_firefox_version_lookup
                  (ResolverDocs.env_with (JObj ResolverDocs.version_list))
                  ResolverDocs.w0 "sample" "1.0" (Sample.ok_response [])
                  ResolverDocs.version_list _
                  eq_refl eq_refl eq_refl eq_refl eq_refl)
           [JObj [("version", JStr "2.0");
                  ("file", JObj [("url", ResolverDocs.xpi_location)])];
            JObj [("version", JStr "1.0")]]
           [("version", JStr "1.0");
            ("file", JObj [("url", ResolverDocs.old_location)])]
           [("url", ResolverDocs.old_location)]
           ResolverDocs.old_location []);
    try reflexivity.
  repeat constructor.
  - eexists. split; [reflexivity |]. left. reflexivity.
  - eexists. split; [reflexivity |]. right. left. reflexivity.
Defined.

(** ** The download of the XPI: the chunked read and the progress bar *)

Lemma with_progress_nil (w : world) : with_progress (fun l => l ++ []) w = w.
Proof. destruct w. unfold with_progress. simpl. now rewrite app_nil_r. Qed.

Lemma with_progress_app (a b : list Z) (w : world) :
  with_progress (fun l => l ++ b) (with_progress (fun l => l ++ a) w) =
  with_progress (fun l => l ++ (a ++ b)) w.
Proof. unfold with_progress. simpl. now rewrite app_assoc. Qed.

(** The sum of the updates of the progress bar. *)
Definition total (ups : list Z) : Z := fold_right Z.add 0 ups.

(** The chunked read returns what the response holds, in order; with a
    progress bar it reports every chunk, each of at most [chunk_size] bytes,
    and the reports add up to the number of bytes read; without one it
    reports nothing. *)
Lemma read_chunks_progress (bar : bool) (chunk_size : nat) :
  (0 < chunk_size)%nat ->
  forall (fuel : nat) (rest data : bytes) (w : world),
    (length rest < fuel)%nat ->
    exists ups,
      read_chunks fuel bar chunk_size rest data w =
        (Ok (data ++ rest), with_progress (fun l => l ++ ups) w) /\
      (bar = false -> ups = []) /\
      (bar = true -> total ups = Z.of_nat (length rest)) /\
      Forall (fun u => 0 < u <= Z.of_nat chunk_size) ups.
Proof.
  intros Hpos. induction fuel as [|fuel IH]; intros rest data w Hfuel; [lia |].
  cbn [read_chunks]. cbv zeta.
  destruct (firstn chunk_size rest) as [|x chunk] eqn:Hchunk.
  - assert (rest = []) as ->.
    { destruct rest; [reflexivity |].
      destruct chunk_size; [lia | simpl in Hchunk; discriminate Hchunk]. }
    exists []. rewrite app_nil_r, with_progress_nil. auto.
  - assert (Hlen : (length (skipn chunk_size rest) < fuel)%nat).
    { rewrite length_skipn. destruct rest as [|b rest'];
        [rewrite firstn_nil in Hchunk; discriminate | simpl in *; lia]. }
    assert (Hsize : (0 < length (x :: chunk) <= chunk_size)%nat).
    { rewrite <- Hchunk, length_firstn. simpl. split; [| lia].
      destruct rest; [rewrite firstn_nil in Hchunk; discriminate |].
      simpl. lia. }
    assert (Hsplit : length rest =
              (length (x :: chunk) + length (skipn chunk_size rest))%nat).
    { rewrite <- Hchunk, <- length_app, firstn_skipn. reflexivity. }
    unfold bind.
    destruct bar.
    + unfold pbar_update.
      destruct (IH (skipn chunk_size rest) (data ++ x :: chunk)
                  (with_progress
                     (fun l => l ++ [Z.of_nat (length (x :: chunk))]) w) Hlen)
        as (ups & -> & _ & Htotal & Hall).
      exists (Z.of_nat (length (x :: chunk)) :: ups).
      rewrite with_progress_app, <- app_assoc, <- Hchunk, firstn_skipn.
      repeat split; [discriminate | |].
      * intros _. unfold total in *. cbn [fold_right].
        rewrite (Htotal eq_refl), Hsplit, Hchunk. lia.
      * constructor; [rewrite Hchunk; lia | exact Hall].
    + unfold ret.
      destruct (IH (skipn chunk_size rest) (data ++ x :: chunk) w Hlen)
        as (ups & -> & Hnone & _ & Hall).
      exists ups. rewrite <- app_assoc, <- Hchunk, firstn_skipn.
      repeat split; [exact Hnone | discriminate | exact Hall].
Qed.

(** X13. A pass of the XPI download on a 200 response it can read returns
    the whole body, whether [tqdm] is installed or not.  With [tqdm] the
    progress bar is updated once per chunk, by at most 8192 bytes each time
    and by the length of the body in all; without it nothing is reported. *)
Theorem download_xpi_pass_reads_all (E : env) (url : value) (w : world)
    (resp : response) :
  net E (length (net_log w)) (xpi_request E url) = NetResp resp ->
  status resp = 200 ->
  read_error resp = None ->
  length_header_ok E resp ->
  exists ups,
    download_xpi_pass E url w =
      (Ok (body resp),
       with_progress (fun l => l ++ ups) (sent (xpi_request E url) w)) /\
    (tqdm_installed E = false -> ups = []) /\
    (tqdm_installed E = true -> total ups = Z.of_nat (length (body resp))) /\
    Forall (fun u => 0 < u <= 8192) ups.
Proof.
  intros Hnet Hst Hrd Hhd.
  unfold download_xpi_pass, bind, urlopen.
  rewrite Hnet, (opened_200 resp Hst), Hst.
  replace (negb (200 =? 200)) with false by reflexivity. unfold lift.
  assert (Hheader : exists size,
            match content_length resp with
            | Some s => of_lib (py_int E s)
            | None => Ok 0
            end = Ok size).
  { unfold length_header_ok in Hhd.
    destruct (content_length resp) as [s |]; [| eauto].
    destruct Hhd as [size ->]. simpl. eauto. }
  destruct Hheader as [size ->].
  unfold read_body. rewrite Hrd. cbv beta iota zeta.
  destruct (read_chunks_progress (tqdm_installed E) (Z.to_nat 8192) ltac:(lia)
              (S (length (body resp))) (body resp) []
              (sent (xpi_request E url) w) ltac:(lia))
    as (ups & Hrun & Hnone & Htotal & Hall).
  exists ups. unfold sent in *. rewrite Hrun. simpl.
  repeat split; assumption.
Qed.

Module XpiSamples.

(** [tqdm] installed; every response is a 200 with five bytes and the
    header [content-length: 5]. *)
Definition five : response :=
  Response 200 "OK" (Some "5") [x50; x4b; x03; x04; x14] None.

Definition E_bar : env :=
  Env (Sample.always (NetResp five))
      (fun _ => Throws JSONDecodeError "Expecting value: line 1 column 1 (char 0)")
      (fun _ => "None")
      (fun s => if String.eqb s "5" then Gives 5
                else Throws ValueError "invalid literal for int() with base 10")
      true
      (fun _ => Throws UnicodeDecodeError "invalid start byte")
      (fun _ => None)
      (fun p => "/home/user/" +:+ p).

(** The same with a header that is no number. *)
Definition garbled : response :=
  Response 200 "OK" (Some "five") [x50; x4b; x03; x04; x14] None.

Definition E_garbled : env :=
  Env (Sample.always (NetResp garbled))
      (fun _ => Throws JSONDecodeError "Expecting value: line 1 column 1 (char 0)")
      (fun _ => "None")
      (fun s => if String.eqb s "5" then Gives 5
                else Throws ValueError "invalid literal for int() with base 10")
      true
      (fun _ => Throws UnicodeDecodeError "invalid start byte")
      (fun _ => None)
      (fun p => "/home/user/" +:+ p).

End XpiSamples.

Lemma download_xpi_pass_reads_all_witness :
  exists ups,
    fst (download_xpi_pass XpiSamples.E_bar FetcherSamples.xpi_url
           (initial_world ∅)) = Ok [x50; x4b; x03; x04; x14] /\
    progress (snd (download_xpi_pass XpiSamples.E_bar FetcherSamples.xpi_url
                     (initial_world ∅))) = ups /\
    total ups = 5.
Proof.
  destruct (download_xpi_pass_reads_all XpiSamples.E_bar
              FetcherSamples.xpi_url (initial_world ∅) XpiSamples.five
              eq_refl eq_refl eq_refl (ex_intro _ 5 eq_refl))
    as (ups & Hrun & _ & Htotal & _).
  exists ups. rewrite Hrun. repeat split. exact (Htotal eq_refl).
Defined.

(** ** The fetcher on any network *)

Section FetcherBounds.

Context (E : env).

(** X14. A [content-length] header that [int] refuses makes the XPI
    download raise that exception after one request: unless it is of a class
    the loop catches, it is not retried, and the body is not read. *)
Theorem download_xpi_bad_length_header (url : value) (w : world)
    (resp : response) (s : string) (c : exn_class) (msg : string) :
  net E (length (net_log w)) (xpi_request E url) = NetResp resp ->
  status resp = 200 ->
  content_length resp = Some s ->
  py_int E s = Throws c msg ->
  isinstance (Exn c msg) transport = false ->
  exists w',
    download_xpi_with_retry E url w = (Raise (Exn c msg), w') /\
    net_log w' = net_log w ++ [xpi_request E url] /\
    slept w' = slept w.
Proof.
  intros Hnet Hst Hlen Hint Hcls.
  assert (Hres : xpi_result E (NetResp resp) = Raise (Exn c msg)).
  { unfold xpi_result. rewrite (opened_200 resp Hst), Hst, Hlen, Hint.
    reflexivity. }
  destruct (xpi_retry_outcome E url w 0) as (w' & Hrun & Hlog & Hslept).
  - lia.
  - intros i Hi. lia.
  - intros _. rewrite Nat.add_0_r, Hnet, Hres. exact Hcls.
  - exists w'. rewrite Hrun, Hlog, Hslept, Nat.add_0_r, Hnet, Hres.
    unfold xpi_sleeps. simpl. rewrite app_nil_r. auto.
Qed.

(** The number of leading passes, of three, that the loop retries. *)
Definition leading_failures (result_of : net_outcome -> result bytes)
    (req : request) (n : nat) : nat :=
  if retried (result_of (net E n req)) then
    if retried (result_of (net E (n + 1) req)) then
      if retried (result_of (net E (n + 2) req)) then 3 else 2
    else 1
  else 0.

Lemma leading_failures_spec result_of req n :
  let f := leading_failures result_of req n in
  (f <= 3)%nat /\
  (forall i, (i < f)%nat -> retried (result_of (net E (n + i) req)) = true) /\
  (f < 3 -> retried (result_of (net E (n + f) req)) = false)%nat.
Proof.
  unfold leading_failures.
  destruct (retried (result_of (net E n req))) eqn:H0.
  2: { repeat split; [lia | intros i Hi; lia |].
       intros _. now rewrite Nat.add_0_r. }
  destruct (retried (result_of (net E (n + 1) req))) eqn:H1.
  2: { repeat split; [lia | | intros _; exact H1].
       intros i Hi. destruct i as [|i]; [| lia]. now rewrite Nat.add_0_r. }
  destruct (retried (result_of (net E (n + 2) req))) eqn:H2.
  - repeat split; [lia | | lia].
    intros i Hi. destruct i as [|[|[|i]]]; [| | | lia]; try assumption.
    now rewrite Nat.add_0_r.
  - repeat split; [lia | | intros _; exact H2].
    intros i Hi. destruct i as [|[|i]]; [| | lia]; try assumption.
    now rewrite Nat.add_0_r.
Qed.

Lemma download_crx_bounded (id : string) (ver : value) (w : world) :
  exists k,
    (1 <= k <= 3)%nat /\
    net_log (snd (download_crx_with_retry E id ver w)) =
      net_log w ++ repeat (crx_request E id ver) k /\
    slept (snd (download_crx_with_retry E id ver w)) =
      slept w ++ firstn (k - 1) [1; 2].
Proof.
  destruct (leading_failures_spec crx_result (crx_request E id ver)
              (length (net_log w))) as (Hf & Hfail & Hlast).
  set (f := leading_failures crx_result (crx_request E id ver)
              (length (net_log w))) in *.
  destruct (crx_retry_outcome E id ver w f Hf Hfail Hlast)
    as (w' & -> & Hlog & Hslept).
  exists (Nat.min (f + 1) 3). simpl snd. rewrite Hlog, Hslept.
  split; [lia |]. split; [reflexivity |]. f_equal.
  destruct f as [|[|[|[|f]]]]; try lia; reflexivity.
Qed.

Lemma download_xpi_bounded (url : value) (w : world) :
  exists k,
    (1 <= k <= 3)%nat /\
    net_log (snd (download_xpi_with_retry E url w)) =
      net_log w ++ repeat (xpi_request E url) k /\
    slept (snd (download_xpi_with_retry E url w)) =
      slept w ++ firstn (k - 1) [2; 4].
Proof.
  destruct (leading_failures_spec (xpi_result E) (xpi_request E url)
              (length (net_log w))) as (Hf & Hfail & Hlast).
  set (f := leading_failures (xpi_result E) (xpi_request E url)
              (length (net_log w))) in *.
  destruct (xpi_retry_outcome E url w f Hf Hfail Hlast)
    as (w' & -> & Hlog & Hslept).
  exists (Nat.min (f + 1) 3). simpl snd. rewrite Hlog, Hslept.
  split; [lia |]. split; [reflexivity |]. f_equal.
  destruct f as [|[|[|[|f]]]]; try lia; reflexivity.
Qed.

(** X15. On any network at all, either download makes one, two or three
    requests, all the same, and before each request after the first it has
    slept once: 1 then 2 seconds for Chrome, 2 then 4 for Firefox.  So it
    never waits more than 3, respectively 6, seconds in all. *)
Theorem fetcher_bounded (w : world) :
  (forall id ver,
     exists k,
       (1 <= k <= 3)%nat /\
       net_log (snd (download_crx_with_retry E id ver w)) =
         net_log w ++ repeat (crx_request E id ver) k /\
       slept (snd (download_crx_with_retry E id ver w)) =
         slept w ++ firstn (k - 1) [1; 2]) /\
  (forall url,
     exists k,
       (1 <= k <= 3)%nat /\
       net_log (snd (download_xpi_with_retry E url w)) =
         net_log w ++ repeat (xpi_request E url) k /\
       slept (snd (download_xpi_with_retry E url w)) =
         slept w ++ firstn (k - 1) [2; 4]).
Proof.
  split.
  - intros id ver. apply download_crx_bounded.
  - intros url. apply download_xpi_bounded.
Qed.

End FetcherBounds.

Lemma download_xpi_bad_length_header_witness :
  exists w',
    download_xpi_with_retry XpiSamples.E_garbled FetcherSamples.xpi_url
      (initial_world ∅) =
      (Raise (Exn ValueError "invalid literal for int() with base 10"), w') /\
    net_log w' = [xpi_request XpiSamples.E_garbled FetcherSamples.xpi_url] /\
    slept w' = [].
Proof.
  apply (download_xpi_bad_length_header XpiSamples.E_garbled
           FetcherSamples.xpi_url (initial_world ∅) XpiSamples.garbled "five"
           ValueError "invalid literal for int() with base 10");
    reflexivity.
Defined.
(** ** The version resolver for Firefox on any network *)

(** A pass that never ends in [continue]. *)
Definition returns_only {A} (m : M (flow A)) : Prop :=
  forall w, fst (m w) <> Ok Continue.

Lemma returns_only_bind {A B} (m : M B) (f : B -> M (flow A)) :
  (forall b, returns_only (f b)) -> returns_only (bind m f).
Proof.
  intros Hf w. unfold bind. destruct (m w) as [[b | e] w1]; [apply Hf |].
  discriminate.
Qed.

Lemma returns_only_ret {A} (a : A) : returns_only (ret (Return a)).
Proof. intros w. discriminate. Qed.

Lemma returns_only_raise {A} (e : exn) : returns_only (@raise (flow A) e).
Proof. intros w. discriminate. Qed.

Lemma returns_only_if {A} (b : bool) (m1 m2 : M (flow A)) :
  returns_only m1 -> returns_only m2 -> returns_only (if b then m1 else m2).
Proof. destruct b; auto. Qed.

Section ResolverBounds.

Context (E : env).

Lemma returns_only_info_tail (version : option string) (resp : response) :
  returns_only (info_tail E version resp).
Proof.
  destruct version as [v |]; cbn [info_tail].
  - unfold versions_tail.
    repeat (apply returns_only_bind; intros ?). apply returns_only_ret.
  - unfold current_tail.
    repeat first [ apply returns_only_bind; intros ?
                 | apply returns_only_if
                 | apply returns_only_raise
                 | apply returns_only_ret ].
Qed.

(** Whatever the network does, a pass returns or raises, without a sleep of
    its own: the branch of the status 429, the one that sleeps and goes
    round again, is never taken, since [urlopen] returns no response of that
    status. *)
Lemma info_outcome_total (version : option string) (o : net_outcome) :
  exists res,
    info_outcome E version o = Some (res, []) /\ res <> Ok Continue.
Proof.
  unfold info_outcome. destruct (opened o) as [c msg | resp] eqn:Ho.
  { eexists. split; [reflexivity | discriminate]. }
  apply opened_status in Ho.
  assert ((status resp =? 404) = false) as -> by (apply Z.eqb_neq; lia).
  assert ((status resp =? 429) = false) as -> by (apply Z.eqb_neq; lia).
  destruct (negb (status resp =? 200)).
  { eexists. split; [reflexivity | discriminate]. }
  eexists. split; [reflexivity |].
  apply (returns_only_info_tail version resp).
Qed.

Lemma info_simulate_bound (addon_id : string) (version : option string)
    (n : nat) :
  exists r k,
    (1 <= k <= 3)%nat /\
    simulate E api_errors (info_fail_msg version) api_delay
      (info_request addon_id version) (info_outcome E version) 3 n
      = Some (r, k, firstn (k - 1) [2; 4]).
Proof.
  cbn [simulate]. cbv zeta.
  destruct (info_outcome_total version (net E n (info_request addon_id version)))
    as (res1 & -> & Hnc1).
  destruct res1 as [[a |] | e1]; [| congruence |].
  { exists (Ok a), 1%nat. split; [lia | reflexivity]. }
  destruct (isinstance e1 api_errors).
  2: { exists (Raise e1), 1%nat. split; [lia | reflexivity]. }
  simpl (_ =? _). cbv iota.
  destruct (info_outcome_total version
              (net E (S n) (info_request addon_id version)))
    as (res2 & -> & Hnc2).
  destruct res2 as [[a |] | e2]; [| congruence |].
  { exists (Ok a), 2%nat. split; [lia | reflexivity]. }
  destruct (isinstance e2 api_errors).
  2: { exists (Raise e2), 2%nat. split; [lia | reflexivity]. }
  simpl (_ =? _). cbv iota.
  destruct (info_outcome_total version
              (net E (S (S n)) (info_request addon_id version)))
    as (res3 & -> & Hnc3).
  destruct res3 as [[a |] | e3]; [| congruence |].
  { exists (Ok a), 3%nat. split; [lia | reflexivity]. }
  destruct (isinstance e3 api_errors).
  2: { exists (Raise e3), 3%nat. split; [lia | reflexivity]. }
  simpl (_ =? _). cbv iota.
  eexists _, 3%nat. split; [lia | reflexivity].
Qed.

(** X16. On any network at all, [fetch_firefox_addon_info] makes one, two or
    three requests, all the same, and before each request after the first
    it has slept once, 2 then 4 seconds: it never waits more than 6 seconds
    in all.  The wait of five seconds written for the status 429 never
    happens. *)
Theorem fetch_firefox_bounded (w : world) (addon_id : string)
    (version : option string) :
  exists k,
    (1 <= k <= 3)%nat /\
    net_log (snd (fetch_firefox_addon_info E addon_id version w)) =
      net_log w ++ repeat (info_request addon_id version) k /\
    slept (snd (fetch_firefox_addon_info E addon_id version w)) =
      slept w ++ firstn (k - 1) [2; 4].
Proof.
  destruct (info_simulate_bound addon_id version (length (net_log w)))
    as (r & k & Hk & Hsim).
  destruct (fetch_firefox_addon_info_replay E addon_id version w r k _ Hsim)
    as (w' & -> & Hlog & Hslept).
  exists k. simpl snd. auto.
Qed.

End ResolverBounds.

(** ** The batch driver: what a pass does before it downloads *)

Section DriverChecks.

Context (E : env).

Lemma net_log_printed msg w : net_log (printed msg w) = net_log w.
Proof. reflexivity. Qed.

Lemma slept_printed msg w : slept (printed msg w) = slept w.
Proof. reflexivity. Qed.

Lemma stdout_logged l msg w : stdout (logged l msg w) = stdout w.
Proof. unfold logged. destruct (_ <=? _); reflexivity. Qed.

Lemma stdout_printed msg w : stdout (printed msg w) = stdout w ++ [msg].
Proof. reflexivity. Qed.

(** A pass that finds the identifier invalid or the output path taken ends
    after one warning or one printed line. *)
Lemma process_id_rejected a i total ext_id w :
  validate_extension_id ext_id (platform a) = false \/
  blocked a ext_id w = true ->
  exists warn line,
    process_id E a i total ext_id w =
      (skip_or_abort a,
       if continue_on_error a
       then logged WARNING warn (logged INFO (processing_msg i total ext_id) w)
       else printed line (logged INFO (processing_msg i total ext_id) w)).
Proof.
  intros Hrej.
  unfold process_id. fold (processing_msg i total ext_id).
  unfold bind at 1. rewrite logging_eq.
  set (w0 := logged INFO (processing_msg i total ext_id) w).
  assert (Hw0 : fs w0 = fs w) by apply fs_logged.
  destruct (validate_extension_id ext_id (platform a)) eqn:Hvalid;
    cbn [negb]; cbv beta iota zeta.
  2: { eexists _, _. unfold skip_or_abort.
       destruct (continue_on_error a); cbv beta iota.
       - rewrite logging_eq. reflexivity.
       - reflexivity. }
  destruct Hrej as [Habs | Hb]; [discriminate |].
  unfold bind at 1. unfold path_exists.
  assert (Hblocked : bool_decide (is_Some (fs w0 !! out_file_of a ext_id))
                     && negb (force a) = true).
  { rewrite <- Hb. unfold blocked. now rewrite Hw0. }
  rewrite Hblocked. cbv beta iota zeta.
  eexists _, _. unfold skip_or_abort.
  destruct (continue_on_error a); cbv beta iota.
  - rewrite logging_eq. reflexivity.
  - reflexivity.
Qed.

(** X17. The checks come before the network: a pass whose identifier is not
    valid for the platform, or whose output path is taken and not forced,
    sends no request, sleeps for nothing and leaves the files alone.  Under
    [--continue-on-error] it prints nothing and ends normally; otherwise it
    prints one line and leaves the process with status 1. *)
Theorem rejected_identifier_sends_nothing (a : args) (i total : nat)
    (ext_id : string) (w : world) :
  validate_extension_id ext_id (platform a) = false \/
  blocked a ext_id w = true ->
  let r := fst (process_id E a i total ext_id w) in
  let w' := snd (process_id E a i total ext_id w) in
  net_log w' = net_log w /\
  slept w' = slept w /\
  fs w' = fs w /\
  (continue_on_error a = true -> r = Ok tt /\ stdout w' = stdout w) /\
  (continue_on_error a = false ->
   r = Raise (SystemExit 1) /\ exists line, stdout w' = stdout w ++ [line]).
Proof.
  intros Hrej r w'. subst r w'.
  destruct (process_id_rejected a i total ext_id w Hrej)
    as (warn & line & ->).
  unfold skip_or_abort. cbn [fst snd].
  destruct (continue_on_error a).
  - rewrite !net_log_logged, !slept_logged, !fs_logged, !stdout_logged.
    repeat split; try reflexivity; intros; discriminate.
  - rewrite net_log_printed, slept_printed, fs_printed, stdout_printed.
    rewrite !net_log_logged, !slept_logged, !fs_logged, !stdout_logged.
    split; [reflexivity |]. split; [reflexivity |]. split; [reflexivity |].
    split; [intros; discriminate |].
    intros _. split; [reflexivity |]. exists line. reflexivity.
Qed.

(** The loop over a list put together from two is the loop over the first,
    then, if that ended normally, the loop over the second. *)
Lemma download_loop_app a xs : forall ys i total w,
  download_loop E a i total (xs ++ ys) w =
    match download_loop E a i total xs w with
    | (Ok _, w1) => download_loop E a (i + length xs) total ys w1
    | (Raise e, w1) => (Raise e, w1)
    end.
Proof.
  induction xs as [|x xs IH]; intros ys i total w.
  - cbn [app download_loop length]. unfold ret. rewrite Nat.add_0_r. reflexivity.
  - rewrite <- app_comm_cons. rewrite !download_loop_step.
    destruct (process_id E a i total x w) as [[[] | e] w1]; [| reflexivity].
    rewrite IH. cbn [length].
    replace (i + S (length xs))%nat with (S i + length xs)%nat by lia.
    reflexivity.
Qed.

(** X18. Without [--continue-on-error] the run ends at the first identifier
    that is not valid: the identifiers after it are never looked at, so the
    run is the one of the list cut after it, and it leaves the process with
    status 1. *)
Theorem download_loop_stops_at_invalid (a : args) (pre rest : list string)
    (bad : string) (i total : nat) (w : world) :
  continue_on_error a = false ->
  validate_extension_id bad (platform a) = false ->
  download_loop E a i total (pre ++ bad :: rest) w =
    download_loop E a i total (pre ++ [bad]) w /\
  fst (download_loop E a i total (pre ++ bad :: rest) w) = Raise (SystemExit 1).
Proof.
  intros Hc Hbad.
  rewrite !download_loop_app.
  pose proof (download_loop_result E a pre i total w) as Hpre.
  destruct (download_loop E a i total pre w) as [[[] | e] w1]; cbn [fst] in *.
  - rewrite !download_loop_step.
    destruct (process_id_rejected a (i + length pre) total bad w1
                (or_introl Hbad)) as (warn & line & ->).
    rewrite (skip_or_abort_abort a Hc). split; reflexivity.
  - split; [reflexivity |].
    destruct Hpre as [Habs | [_ Hexit]]; [discriminate | exact Hexit].
Qed.

End DriverChecks.

(** ** The list-versions mode *)

(** The line the listing prints for a response with status 200. *)
Definition listing_line (E : env) (ext_id : string) (resp : response)
    : M string :=
  bind (resp_read resp) (fun raw =>
  bind (lift (of_lib (json_loads E raw))) (fun versions_data =>
  bind (lift (get versions_data "results" (JArr []))) (fun results =>
  bind (lift (iter results)) (fun items =>
  bind (version_names items) (fun versions =>
  bind (lift (str_join ", " versions)) (fun joined =>
  ret ("Available versions for " +:+ ext_id +:+ ": " +:+ joined))))))).

(** The one line the listing prints, by what the network answers. *)
Definition listing_report (E : env) (ext_id : string) (o : net_outcome)
    : string :=
  match opened o with
  | NetRaise c msg => "Error listing versions: " +:+ msg
  | NetResp resp =>
      if negb (status resp =? 200) then
        "Error listing versions: " +:+ ("API error: HTTP " +:+ pretty (status resp))
      else
        match value_of (listing_line E ext_id resp) with
        | Ok line => line
        | Raise e => "Error listing versions: " +:+ exn_str e
        end
  end.

(** [", ".join(names)] for strings. *)
Fixpoint join_names (sep : string) (names : list string) : string :=
  match names with
  | [] => EmptyString
  | [s] => s
  | s :: rest => s +:+ sep +:+ join_names sep rest
  end.

Section Listing.

Context (E : env).

Lemma constant_listing_line ext_id resp : constant (listing_line E ext_id resp).
Proof.
  unfold listing_line. pose proof constant_version_names. constant_tac.
Qed.

Lemma quiet_listing_line ext_id resp : quiet (listing_line E ext_id resp).
Proof.
  unfold listing_line. pose proof quiet_version_names. quiet_tac.
Qed.

Lemma list_versions_mode_firefox ext_id w :
  let req := api_request (addon_versions_url ext_id) in
  list_versions_mode E [ext_id] "firefox" w =
    (Raise (SystemExit 0),
     printed (listing_report E ext_id (net E (length (net_log w)) req))
       (sent req w)).
Proof.
  intros req. unfold list_versions_mode.
  change (String.eqb "firefox" "firefox") with true. cbv iota.
  unfold bind at 1. unfold try_except. unfold bind at 1.
  unfold urlopen. fold req. fold (sent req w).
  unfold listing_report.
  destruct (opened (net E (length (net_log w)) req)) as [c msg | resp].
  - rewrite isinstance_Exception. reflexivity.
  - destruct (negb (status resp =? 200)).
    + unfold raise. rewrite isinstance_Exception. reflexivity.
    + match goal with
      | |- context [bind (resp_read resp) ?k (sent req w)] =>
          assert (Htail : bind (resp_read resp) k (sent req w) =
                          bind (listing_line E ext_id resp) print (sent req w))
      end.
      { unfold listing_line. rewrite !bind_assoc.
        apply bind_ext. intros raw w1. rewrite !bind_assoc.
        apply bind_ext. intros versions_data w2. rewrite !bind_assoc.
        apply bind_ext. intros results w3. rewrite !bind_assoc.
        apply bind_ext. intros items w4. rewrite !bind_assoc.
        apply bind_ext. intros versions w5. rewrite !bind_assoc.
        apply bind_ext. intros joined w6. reflexivity. }
      rewrite Htail. unfold bind at 1.
      rewrite (constant_value _ (sent req w) (constant_listing_line ext_id resp)).
      destruct (quiet_listing_line ext_id resp (initial_world ∅)) as [_ Hex].
      fold (value_of (listing_line E ext_id resp)) in Hex.
      destruct (value_of (listing_line E ext_id resp)) as [line | e].
      * reflexivity.
      * rewrite (Hex e eq_refl). reflexivity.
Qed.

Lemma list_versions_mode_other ext_id platform w :
  String.eqb platform "firefox" = false ->
  list_versions_mode E [ext_id] platform w =
    (Raise (SystemExit 0),
     printed "Listing versions is not supported for Chrome; specify version manually." w).
Proof.
  intros Hp. unfold list_versions_mode. rewrite Hp. reflexivity.
Qed.

Lemma list_versions_mode_count ids platform w :
  length ids <> 1%nat ->
  list_versions_mode E ids platform w =
    (Raise (SystemExit 1),
     printed "Error: --list-versions requires exactly one ID." w).
Proof.
  intros Hn. destruct ids as [|ext_id [|ext_id' rest]];
    [reflexivity | simpl in Hn; congruence | reflexivity].
Qed.

(** X20. The list-versions mode writes no file, sleeps for nothing and
    prints exactly one line.  For one Firefox identifier it sends one
    request, to the versions URL of the add-on, and never a second one,
    whatever the answer; for another platform or another number of
    identifiers it sends none. *)
Theorem list_versions_mode_effects (ids : list string) (platform : string)
    (w : world) :
  let w' := snd (list_versions_mode E ids platform w) in
  fs w' = fs w /\
  slept w' = slept w /\
  (exists line, stdout w' = stdout w ++ [line]) /\
  (forall ext_id,
     ids = [ext_id] -> platform = "firefox" ->
     net_log w' = net_log w ++ [api_request (addon_versions_url ext_id)]) /\
  (length ids <> 1%nat \/ platform <> "firefox" -> net_log w' = net_log w).
Proof.
  intros w'. subst w'.
  destruct (Nat.eq_dec (length ids) 1%nat) as [Hone | Hmany].
  - destruct ids as [|ext_id [|ext_id' rest]]; try discriminate.
    destruct (String.eqb platform "firefox") eqn:Hp.
    + apply String.eqb_eq in Hp. subst platform.
      rewrite list_versions_mode_firefox. cbn [snd].
      split; [reflexivity |]. split; [reflexivity |].
      split; [eexists; reflexivity |].
      split.
      * intros ext_id' [= <-] _. reflexivity.
      * intros [Habs | Habs]; [simpl in Habs |]; congruence.
    + rewrite (list_versions_mode_other _ _ _ Hp). cbn [snd].
      split; [reflexivity |]. split; [reflexivity |].
      split; [eexists; reflexivity |].
      split.
      * intros ext_id' _ ->. discriminate.
      * intros _. reflexivity.
  - rewrite (list_versions_mode_count _ _ _ Hmany). cbn [snd].
    split; [reflexivity |]. split; [reflexivity |].
    split; [eexists; reflexivity |].
    split.
    + intros ext_id ->. simpl in Hmany. congruence.
    + intros _. reflexivity.
Qed.

Lemma version_names_value (items : list value) (names : list string) :
  Forall2 (fun item name =>
             exists f, item = JObj f /\ assoc "version" f = Some (JStr name))
          items names ->
  value_of (version_names items) = Ok (map JStr names).
Proof.
  induction 1 as [|item name items names (f & -> & Hv) _ IH];
    [reflexivity |].
  unfold value_of in *. cbn [version_names]. unfold bind at 1.
  unfold lift. cbn [get]. rewrite Hv. cbv beta iota.
  unfold bind at 1.
  rewrite (constant_value _ (initial_world ∅) (constant_version_names items)).
  unfold value_of. rewrite IH. reflexivity.
Qed.

Lemma str_join_names (sep : string) (names : list string) :
  str_join sep (map JStr names) = Ok (join_names sep names).
Proof.
  induction names as [|s [|t names] IH]; try reflexivity.
  change (str_join sep (map JStr (s :: t :: names)))
    with (match str_join sep (map JStr (t :: names)) with
          | Ok u => Ok (s +:+ sep +:+ u)
          | Raise e => Raise e
          end).
  rewrite IH. reflexivity.
Qed.

(** X21. When the versions request is answered with status 200 and a JSON
    object whose [results] are objects with a string [version] each, the
    line printed is the names in the order of the answer, joined by a comma
    and a space, after the identifier; with no [results] key the list is
    empty. *)
Theorem list_versions_prints_names (ext_id : string) (w : world)
    (resp : response) (fields : list (string * value)) (items : list value)
    (names : list string) :
  net E (length (net_log w)) (api_request (addon_versions_url ext_id)) =
    NetResp resp ->
  status resp = 200 ->
  read_error resp = None ->
  json_loads E (body resp) = Gives (JObj fields) ->
  assoc "results" fields = Some (JArr items) \/
  (assoc "results" fields = None /\ items = []) ->
  Forall2 (fun item name =>
             exists f, item = JObj f /\ assoc "version" f = Some (JStr name))
          items names ->
  stdout (snd (list_versions_mode E [ext_id] "firefox" w)) =
    stdout w ++
    ["Available versions for " +:+ ext_id +:+ ": " +:+ join_names ", " names].
Proof.
  intros Hnet Hst Hread Hjson Hresults Hitems.
  rewrite list_versions_mode_firefox. cbv zeta. rewrite Hnet.
  cbn [snd]. rewrite stdout_printed. do 2 f_equal.
  unfold listing_report. rewrite (opened_200 resp Hst), Hst.
  cbn [Z.eqb Pos.eqb negb].
  assert (Hget : get (JObj fields) "results" (JArr []) = Ok (JArr items)).
  { cbn [get]. destruct Hresults as [-> | [-> ->]]; reflexivity. }
  assert (Hline : value_of (listing_line E ext_id resp) =
            Ok ("Available versions for " +:+ ext_id +:+ ": " +:+
                join_names ", " names)).
  { unfold value_of, listing_line, resp_read. rewrite Hread.
    unfold bind at 1. unfold ret at 1. cbv beta iota.
    unfold bind at 1. unfold lift at 1. rewrite Hjson. cbn [of_lib].
    cbv beta iota.
    unfold bind at 1. unfold lift at 1. rewrite Hget. cbv beta iota.
    unfold bind at 1. unfold lift at 1. cbn [iter]. cbv beta iota.
    unfold bind at 1.
    rewrite (constant_value _ (initial_world ∅) (constant_version_names items)).
    rewrite (version_names_value items names Hitems).
    unfold bind at 1. unfold lift at 1. rewrite str_join_names.
    reflexivity. }
  rewrite Hline. reflexivity.
Qed.

End Listing.

Section ListingErrors.

Context (E : env).

Lemma version_names_objects (items : list value) :
  Forall (fun item => exists f, item = JObj f) items ->
  value_of (version_names items) =
    Ok (map (fun item =>
               match item with
               | JObj f => default JNull (assoc "version" f)
               | _ => JNull
               end) items).
Proof.
  induction 1 as [|item items (f & ->) _ IH]; [reflexivity |].
  unfold value_of in *. cbn [version_names]. unfold bind at 1.
  unfold lift. cbn [get map].
  unfold bind at 1.
  rewrite (constant_value _ _ (constant_version_names items)).
  unfold value_of. rewrite IH.
  destruct (assoc "version" f); reflexivity.
Qed.

Lemma str_join_not_str (sep : string) (vs : list value) :
  Exists (fun v => forall s, v <> JStr s) vs ->
  exists c msg, str_join sep vs = Raise (Exn c msg).
Proof.
  induction vs as [|v vs IH]; intros Hex; [inversion Hex |].
  destruct v as [| b | nz r | s | l | f];
    try (eexists _, _; reflexivity).
  inversion Hex as [? ? Hv | ? ? Hrest]; subst.
  { exfalso. apply (Hv s). reflexivity. }
  destruct (IH Hrest) as (c & msg & Hj).
  destruct vs as [|v' vs']; [inversion Hrest |].
  exists c, msg.
  change (str_join sep (JStr s :: v' :: vs'))
    with (match str_join sep (v' :: vs') with
          | Ok t => Ok (s +:+ sep +:+ t)
          | Raise e => Raise e
          end).
  rewrite Hj. reflexivity.
Qed.

(** X22. When one entry of the [results] is an object without a string
    [version], the listing prints none of the names: the one line it prints
    reports an error. *)
Theorem list_versions_nameless_entry (ext_id : string) (w : world)
    (resp : response) (fields : list (string * value)) (items : list value) :
  net E (length (net_log w)) (api_request (addon_versions_url ext_id)) =
    NetResp resp ->
  status resp = 200 ->
  read_error resp = None ->
  json_loads E (body resp) = Gives (JObj fields) ->
  assoc "results" fields = Some (JArr items) ->
  Forall (fun item => exists f, item = JObj f) items ->
  Exists (fun item =>
            exists f, item = JObj f /\
                      forall s, assoc "version" f <> Some (JStr s)) items ->
  exists msg,
    stdout (snd (list_versions_mode E [ext_id] "firefox" w)) =
      stdout w ++ ["Error listing versions: " +:+ msg].
Proof.
  intros Hnet Hst Hread Hjson Hresults Hobjs Hnameless.
  rewrite list_versions_mode_firefox. cbv zeta. rewrite Hnet.
  cbn [snd]. rewrite stdout_printed.
  unfold listing_report. rewrite (opened_200 resp Hst), Hst.
  cbn [Z.eqb Pos.eqb negb].
  set (vs := map (fun item =>
                    match item with
                    | JObj f => default JNull (assoc "version" f)
                    | _ => JNull
                    end) items).
  assert (Hvs : Exists (fun v => forall s, v <> JStr s) vs).
  { unfold vs. clear Hobjs Hresults.
    induction Hnameless as [item rest (f & -> & Hno) | item rest _ IH].
    - apply Exists_cons_hd. cbv beta iota. intros s Heq.
      destruct (assoc "version" f) as [v |] eqn:Hv; simpl in Heq.
      + subst v. apply (Hno s). reflexivity.
      + discriminate.
    - apply Exists_cons_tl. exact IH. }
  destruct (str_join_not_str ", " vs Hvs) as (c & msg & Hjoin).
  exists msg. do 2 f_equal.
  assert (Hline : value_of (listing_line E ext_id resp) = Raise (Exn c msg)).
  { unfold value_of, listing_line, resp_read. rewrite Hread.
    unfold bind at 1. unfold ret at 1. cbv beta iota.
    unfold bind at 1. unfold lift at 1. rewrite Hjson. cbn [of_lib].
    cbv beta iota.
    unfold bind at 1. unfold lift at 1. cbn [get]. rewrite Hresults.
    cbv beta iota.
    unfold bind at 1. unfold lift at 1. cbn [iter]. cbv beta iota.
    unfold bind at 1.
    rewrite (constant_value _ (initial_world ∅) (constant_version_names items)).
    rewrite (version_names_objects items Hobjs). fold vs.
    unfold bind at 1. unfold lift at 1. rewrite Hjoin.
    reflexivity. }
  rewrite Hline. reflexivity.
Qed.

End ListingErrors.

(** ** The batch driver: a pass from the identifier to the file *)

Section Passes.

Context (E : env).

(** Such a pass sends the requests and takes the sleeps of its pipeline,
    no others. *)
Lemma process_id_traffic a i total ext_id w :
  validate_extension_id ext_id (platform a) = true ->
  blocked a ext_id w = false ->
  let w0 := logged INFO (processing_msg i total ext_id) w in
  net_log (snd (process_id E a i total ext_id w)) =
    net_log (snd (fetch_archive E a ext_id w0)) /\
  slept (snd (process_id E a i total ext_id w)) =
    slept (snd (fetch_archive E a ext_id w0)).
Proof.
  intros Hvalid Hb w0. rewrite (process_id_download E a i total ext_id w Hvalid Hb).
  fold w0. unfold try_except. rewrite download_to_cases.
  destruct (quiet_fetch_archive E a ext_id w0) as [_ Hex].
  destruct (fetch_archive E a ext_id w0) as [[data | e] w1]; cbn [fst snd] in *.
  - destruct (write_error E (out_file_of a ext_id)) as [[c msg] |].
    + rewrite isinstance_Exception.
      destruct (continue_on_error a); cbv beta iota.
      * rewrite logging_eq. cbn [snd].
        now rewrite net_log_logged, slept_logged.
      * unfold bind. rewrite logging_eq. unfold sys_exit, raise. cbn [snd].
        now rewrite net_log_logged, slept_logged.
    + cbn [snd]. now rewrite net_log_logged, slept_logged.
  - rewrite (Hex e eq_refl).
    destruct (continue_on_error a); cbv beta iota.
    + rewrite logging_eq. cbn [snd].
      now rewrite net_log_logged, slept_logged.
    + unfold bind. rewrite logging_eq. unfold sys_exit, raise. cbn [snd].
      now rewrite net_log_logged, slept_logged.
Qed.

(** The Chrome pipeline when a version is given: the feed is not asked. *)
Lemma fetch_archive_chrome_given a ext_id v w :
  platform a = "chrome" ->
  version a = Some v -> v <> EmptyString ->
  exists msg,
    fetch_archive E a ext_id w =
      bind (download_crx_with_retry E ext_id (JStr v))
        (fun crx => lift (crx_to_zip crx)) (logged INFO msg w).
Proof.
  intros Hp Hv Hne. unfold fetch_archive. rewrite Hp.
  change (String.eqb "chrome" "chrome") with true. cbv iota.
  unfold opt_truthy, str_nonempty. rewrite Hv.
  assert (String.eqb v EmptyString = false) as -> by now apply String.eqb_neq.
  cbn [negb default from_option]. unfold id.
  unfold bind at 1. unfold ret at 1. cbv beta iota.
  unfold bind at 1. rewrite logging_eq. eexists. reflexivity.
Qed.

(** The Chrome pipeline when no version is given: the feed is asked first,
    and what it gives goes into the request for the package. *)
Lemma fetch_archive_chrome_latest a ext_id w :
  platform a = "chrome" ->
  opt_truthy (version a) = false ->
  exists ver msg,
    get_latest_chrome_version E w = (Ok ver, sent feed_request w) /\
    fetch_archive E a ext_id w =
      bind (download_crx_with_retry E ext_id ver)
        (fun crx => lift (crx_to_zip crx))
        (logged INFO msg (sent feed_request w)).
Proof.
  intros Hp Hv. unfold fetch_archive. rewrite Hp, Hv.
  change (String.eqb "chrome" "chrome") with true. cbv iota.
  unfold bind at 1. rewrite get_latest_chrome_version_eq.
  eexists _, _. split; [reflexivity |].
  unfold bind at 1. rewrite logging_eq. reflexivity.
Qed.

Lemma bind_traffic {A B} (m : M A) (f : A -> result B) (w : world) :
  snd (bind m (fun x => lift (f x)) w) = snd (m w).
Proof. unfold bind, lift. destruct (m w) as [[x | e] w1]; reflexivity. Qed.

(** X23. A Chrome pass, from the identifier to the file: for a valid
    identifier whose output path is free or forced and a given version, when
    the first request is answered with status 200 and a body that is a
    package, the pass ends normally, the file at the output path holds the
    archive of the package, the header stripped, and the one request sent
    is the one for this identifier and version; nothing is slept. *)
Theorem chrome_pass_saves_archive (a : args) (i total : nat)
    (ext_id v : string) (w : world) (resp : response) (zip : bytes) :
  platform a = "chrome" ->
  validate_extension_id ext_id "chrome" = true ->
  blocked a ext_id w = false ->
  version a = Some v -> v <> EmptyString ->
  net E (length (net_log w)) (crx_request E ext_id (JStr v)) = NetResp resp ->
  status resp = 200 ->
  read_error resp = None ->
  crx_to_zip (body resp) = Ok zip ->
  write_error E (out_file_of a ext_id) = None ->
  let w' := snd (process_id E a i total ext_id w) in
  fst (process_id E a i total ext_id w) = Ok tt /\
  fs w' = <[out_file_of a ext_id := zip]> (fs w) /\
  net_log w' = net_log w ++ [crx_request E ext_id (JStr v)] /\
  slept w' = slept w.
Proof.
  intros Hp Hvalid Hb Hv Hne Hnet Hst Hrd Hzip Hwrite w'. subst w'.
  assert (Hvalid' : validate_extension_id ext_id (platform a) = true)
    by now rewrite Hp.
  set (w0 := logged INFO (processing_msg i total ext_id) w).
  destruct (fetch_archive_chrome_given a ext_id v w0 Hp Hv Hne) as [msg Hfetch].
  set (w1 := logged INFO msg w0) in *.
  assert (Hlen : length (net_log w1) = length (net_log w)).
  { unfold w1, w0. now rewrite !net_log_logged. }
  destruct (crx_retry_outcome E ext_id (JStr v) w1 0) as (w2 & Hrun & Hlog & Hsl).
  { lia. }
  { intros j Hj. lia. }
  { intros _. rewrite Hlen, Nat.add_0_r, Hnet.
    rewrite (crx_result_ok resp Hst Hrd). reflexivity. }
  rewrite Hlen, Nat.add_0_r, Hnet, (crx_result_ok resp Hst Hrd) in Hrun.
  assert (Harchive : fetch_archive E a ext_id w0 = (Ok zip, w2)).
  { rewrite Hfetch. unfold bind. rewrite Hrun. unfold lift.
    now rewrite Hzip. }
  destruct (process_id_saved E a i total ext_id w zip w2 Hvalid' Hb Harchive Hwrite)
    as [Hok Hfs].
  destruct (process_id_traffic a i total ext_id w Hvalid' Hb) as [Hnl Hslept].
  fold w0 in Hnl, Hslept. rewrite Harchive in Hnl, Hslept. cbn [snd] in *.
  split; [exact Hok |]. split; [exact Hfs |].
  rewrite Hnl, Hslept, Hlog, Hsl. unfold w1, w0.
  rewrite !net_log_logged, !slept_logged. cbn [repeat Nat.min Nat.add].
  unfold crx_sleeps. cbn [Nat.min seq map]. rewrite app_nil_r.
  split; reflexivity.
Qed.

(** X24. A Firefox pass, from the identifier to the file: for a valid
    identifier whose output path is free or forced and no version, when the
    API answers with the URL of the current file and that URL answers with
    status 200, the pass ends normally and the file at the output path holds
    the body of the second answer, byte for byte; the two requests are the
    only ones, and nothing is slept. *)
Theorem firefox_pass_saves_body (a : args) (i total : nat) (ext_id : string)
    (w : world) (info file : response) (top cv fi : list (string * value))
    (u : value) :
  platform a = "firefox" ->
  validate_extension_id ext_id "firefox" = true ->
  blocked a ext_id w = false ->
  version a = None ->
  net E (length (net_log w)) (info_request ext_id None) = NetResp info ->
  status info = 200 ->
  read_error info = None ->
  json_loads E (body info) = Gives (JObj top) ->
  assoc "current_version" top = Some (JObj cv) ->
  assoc "file" cv = Some (JObj fi) ->
  assoc "url" fi = Some u ->
  truthy u = true ->
  net E (S (length (net_log w))) (xpi_request E u) = NetResp file ->
  status file = 200 ->
  read_error file = None ->
  length_header_ok E file ->
  write_error E (out_file_of a ext_id) = None ->
  let w' := snd (process_id E a i total ext_id w) in
  fst (process_id E a i total ext_id w) = Ok tt /\
  fs w' = <[out_file_of a ext_id := body file]> (fs w) /\
  net_log w' = net_log w ++ [info_request ext_id None; xpi_request E u] /\
  slept w' = slept w.
Proof.
  intros Hp Hvalid Hb Hv Hnet Hst Hrd Hjson Hcv Hfi Hu Htruthy
         Hnet2 Hst2 Hrd2 Hhd Hwrite w'. subst w'.
  assert (Hvalid' : validate_extension_id ext_id (platform a) = true)
    by now rewrite Hp.
  set (w0 := logged INFO (processing_msg i total ext_id) w).
  assert (Hfetch : exists msg,
            fetch_archive E a ext_id w0 =
              bind (fetch_firefox_addon_info E ext_id None)
                (fun download_url =>
                   bind (logging INFO "Downloading XPI …")
                     (fun _ => download_xpi_with_retry E download_url))
                (logged INFO msg w0)).
  { unfold fetch_archive. rewrite Hp, Hv.
    change (String.eqb "firefox" "chrome") with false. cbv iota.
    unfold bind at 1. rewrite logging_eq. eexists. reflexivity. }
  destruct Hfetch as [msg Hfetch].
  set (w1 := logged INFO msg w0) in *.
  assert (Hlen : length (net_log w1) = length (net_log w)).
  { unfold w1, w0. now rewrite !net_log_logged. }
  destruct (fetch_firefox_addon_info_first E ext_id None w1 (Ok (Return u)))
    as (w2 & Hinfo & Hlog2 & Hsl2).
  { rewrite Hlen, Hnet, (info_outcome_200 E None info Hst). cbn [info_tail].
    rewrite (current_tail_url E info top cv fi u); auto. }
  { exact I. }
  set (w3 := logged INFO "Downloading XPI …" w2).
  assert (Hlen3 : length (net_log w3) = S (length (net_log w))).
  { unfold w3. rewrite net_log_logged, Hlog2, length_app, Hlen. simpl. lia. }
  destruct (xpi_retry_outcome E u w3 0) as (w4 & Hrun & Hlog4 & Hsl4).
  { lia. }
  { intros j Hj. lia. }
  { intros _. rewrite Hlen3, Nat.add_0_r, Hnet2.
    rewrite (xpi_result_ok E file Hst2 Hrd2 Hhd). reflexivity. }
  rewrite Hlen3, Nat.add_0_r, Hnet2, (xpi_result_ok E file Hst2 Hrd2 Hhd) in Hrun.
  assert (Harchive : fetch_archive E a ext_id w0 = (Ok (body file), w4)).
  { rewrite Hfetch. unfold bind at 1. rewrite Hinfo.
    unfold bind at 1. rewrite logging_eq. fold w3. exact Hrun. }
  destruct (process_id_saved E a i total ext_id w (body file) w4
              Hvalid' Hb Harchive Hwrite) as [Hok Hfs].
  destruct (process_id_traffic a i total ext_id w Hvalid' Hb) as [Hnl Hslept].
  fold w0 in Hnl, Hslept. rewrite Harchive in Hnl, Hslept. cbn [snd] in *.
  split; [exact Hok |]. split; [exact Hfs |].
  rewrite Hnl, Hslept, Hlog4, Hsl4. unfold w3.
  rewrite net_log_logged, slept_logged, Hlog2, Hsl2. unfold w1, w0.
  rewrite !net_log_logged, !slept_logged. cbn [repeat Nat.min Nat.add].
  unfold xpi_sleeps. cbn [Nat.min seq map]. rewrite app_nil_r, <- app_assoc.
  split; reflexivity.
Qed.

(** X25. Where the version in the Chrome request comes from.  With a
    version given, the feed is never asked: every request of the pass, one
    to three of them, is the one for the package at that version.  With
    none, the feed is asked once, first; when that request raises, the
    requests for the package that follow carry the fallback version. *)
Theorem chrome_pass_requests (a : args) (i total : nat) (ext_id : string)
    (w : world) :
  platform a = "chrome" ->
  validate_extension_id ext_id "chrome" = true ->
  blocked a ext_id w = false ->
  let w' := snd (process_id E a i total ext_id w) in
  (forall v,
     version a = Some v -> v <> EmptyString ->
     exists k,
       (1 <= k <= 3)%nat /\
       net_log w' = net_log w ++ repeat (crx_request E ext_id (JStr v)) k) /\
  (opt_truthy (version a) = false ->
   forall c msg,
     net E (length (net_log w)) feed_request = NetRaise c msg ->
     exists k,
       (1 <= k <= 3)%nat /\
       net_log w' =
         net_log w ++
         feed_request :: repeat (crx_request E ext_id (JStr "119.0.6045.0")) k).
Proof.
  intros Hp Hvalid Hb w'. subst w'.
  assert (Hvalid' : validate_extension_id ext_id (platform a) = true)
    by now rewrite Hp.
  destruct (process_id_traffic a i total ext_id w Hvalid' Hb) as [Hnl _].
  set (w0 := logged INFO (processing_msg i total ext_id) w) in *.
  rewrite Hnl. split.
  - intros v Hv Hne.
    destruct (fetch_archive_chrome_given a ext_id v w0 Hp Hv Hne) as [msg ->].
    rewrite bind_traffic.
    destruct (download_crx_bounded E ext_id (JStr v) (logged INFO msg w0))
      as (k & Hk & Hlog & _).
    exists k. split; [exact Hk |]. rewrite Hlog. unfold w0.
    now rewrite !net_log_logged.
  - intros Hv c msg Hnet.
    destruct (fetch_archive_chrome_latest a ext_id w0 Hp Hv)
      as (ver & lmsg & Hver & ->).
    rewrite get_latest_chrome_version_eq in Hver.
    assert (Hlen : length (net_log w0) = length (net_log w)).
    { unfold w0. now rewrite net_log_logged. }
    rewrite Hlen, Hnet in Hver. injection Hver as <-.
    rewrite bind_traffic.
    destruct (download_crx_bounded E ext_id fallback_version
                (logged INFO lmsg (sent feed_request w0)))
      as (k & Hk & Hlog & _).
    exists k. split; [exact Hk |]. rewrite Hlog.
    rewrite net_log_logged, net_log_sent. unfold w0.
    rewrite net_log_logged, <- app_assoc. reflexivity.
Qed.

End Passes.

(** ** The identifiers of a batch *)

Lemma list_ascii_of_string_append (s t : string) :
  list_ascii_of_string (s +:+ t) =
    list_ascii_of_string s ++ list_ascii_of_string t.
Proof.
  induction s as [|c s IH]; [reflexivity |].
  rewrite append_cons. cbn [list_ascii_of_string app]. now rewrite IH.
Qed.

Lemma split_chars_no_sep (sep : ascii) (x : list ascii) : forall cur,
  existsb (Ascii.eqb sep) x = false ->
  split_chars sep cur x = [string_of_list_ascii (rev cur ++ x)].
Proof.
  induction x as [|c x IH]; intros cur Hno.
  - cbn [split_chars]. now rewrite app_nil_r.
  - cbn [existsb] in Hno. apply orb_false_iff in Hno as [Hc Hx].
    cbn [split_chars]. rewrite Ascii.eqb_sym, Hc, (IH (c :: cur) Hx).
    cbn [rev]. now rewrite <- app_assoc.
Qed.

Lemma split_chars_field (sep : ascii) (x rest : list ascii) : forall cur,
  existsb (Ascii.eqb sep) x = false ->
  split_chars sep cur (x ++ sep :: rest) =
    string_of_list_ascii (rev cur ++ x) :: split_chars sep [] rest.
Proof.
  induction x as [|c x IH]; intros cur Hno.
  - cbn [app split_chars]. rewrite Ascii.eqb_refl. now rewrite app_nil_r.
  - cbn [existsb] in Hno. apply orb_false_iff in Hno as [Hc Hx].
    cbn [app split_chars]. rewrite Ascii.eqb_sym, Hc, (IH (c :: cur) Hx).
    cbn [rev]. now rewrite <- app_assoc.
Qed.

(** An identifier as a batch list carries it: not empty, no whitespace at
    either end, no comma. *)
Definition plain_id (x : string) : Prop :=
  x <> EmptyString /\ str_strip x = x /\ str_contains "," x = false.

Lemma join_names_cons (sep s t : string) (rest : list string) :
  join_names sep (s :: t :: rest) = s +:+ sep +:+ join_names sep (t :: rest).
Proof. reflexivity. Qed.

Lemma str_split_join (ids : list string) :
  ids <> [] ->
  Forall plain_id ids ->
  str_split "," (join_names "," ids) = ids.
Proof.
  intros Hne Hall. unfold str_split.
  induction Hall as [|s ids (_ & _ & Hs) Hrest IH]; [congruence |].
  destruct ids as [|t ids].
  - cbn [join_names]. rewrite split_chars_no_sep by exact Hs.
    cbn [rev app]. now rewrite string_of_list_ascii_of_string.
  - rewrite join_names_cons, list_ascii_of_string_append.
    change ("," +:+ join_names "," (t :: ids))
      with (String "," (join_names "," (t :: ids))).
    cbn [list_ascii_of_string].
    rewrite split_chars_field by exact Hs.
    cbn [rev app]. rewrite string_of_list_ascii_of_string.
    f_equal. apply IH. discriminate.
Qed.

Lemma stripped_nonempty_plain (ids : list string) :
  Forall plain_id ids -> stripped_nonempty ids = ids.
Proof.
  unfold stripped_nonempty.
  induction 1 as [|s ids (Hne & Hstrip & _) _ IH]; [reflexivity |].
  rewrite filter_cons_True.
  - cbn [map]. now rewrite Hstrip, IH.
  - rewrite Hstrip. unfold str_nonempty.
    apply String.eqb_neq in Hne. now rewrite Hne.
Qed.

Lemma stripped_nonempty_nonempty (xs : list string) :
  Forall (fun id => id <> EmptyString) (stripped_nonempty xs).
Proof.
  unfold stripped_nonempty.
  induction xs as [|x xs IH]; [constructor |].
  rewrite filter_cons.
  destruct (decide (Is_true (str_nonempty (str_strip x)))) as [Hx | Hx];
    [| exact IH].
  cbn [map]. constructor; [| exact IH].
  unfold str_nonempty in Hx. intros Heq. rewrite Heq in Hx. exact Hx.
Qed.

Section Batch.

Context (E : env).

(** X26. A batch list read back: when [--batch] is two identifiers or
    more, joined by commas, each of them not empty, without whitespace at
    its ends and without a comma, the identifiers to process are these, in
    their order and with their repetitions; no file is looked for and the
    world is left as it is. *)
Theorem batch_list_round_trip (a : args) (ids : list string) (w : world) :
  batch a = Some (join_names "," ids) ->
  (2 <= length ids)%nat ->
  Forall plain_id ids ->
  parse_ids E a w = (Ok ids, w).
Proof.
  intros Hb Hlen Hall.
  assert (Hsplit : str_split "," (join_names "," ids) = ids).
  { apply str_split_join; [| exact Hall]. intros ->. simpl in Hlen. lia. }
  destruct ids as [|s [|t ids]]; try (simpl in Hlen; lia).
  assert (Hcomma : str_contains "," (join_names "," (s :: t :: ids)) = true).
  { unfold str_contains.
    rewrite join_names_cons, list_ascii_of_string_append, existsb_app.
    change ("," +:+ join_names "," (t :: ids))
      with (String "," (join_names "," (t :: ids))).
    cbn [list_ascii_of_string existsb]. rewrite Ascii.eqb_refl.
    apply orb_true_r. }
  assert (Hne : join_names "," (s :: t :: ids) <> EmptyString).
  { intros Heq. rewrite Heq in Hcomma. discriminate. }
  unfold parse_ids, opt_truthy, str_nonempty. rewrite Hb.
  apply String.eqb_neq in Hne. rewrite Hne.
  cbn [negb default from_option]. unfold id. rewrite Hcomma, Hsplit.
  rewrite (stripped_nonempty_plain _ Hall). reflexivity.
Qed.

(** X27. Whatever [--batch] holds, a list or the name of a file, and
    whatever the file holds, the identifiers read from it are never empty:
    empty fields and blank lines are dropped.  Reading them changes
    nothing. *)
Theorem batch_ids_nonempty (a : args) (ids : list string) (w w' : world) :
  opt_truthy (batch a) = true ->
  parse_ids E a w = (Ok ids, w') ->
  Forall (fun id => id <> EmptyString) ids /\ w' = w.
Proof.
  intros Hb Hparse. unfold parse_ids in Hparse. rewrite Hb in Hparse.
  destruct (str_contains "," (default EmptyString (batch a))).
  - injection Hparse as <- <-. split; [apply stripped_nonempty_nonempty | reflexivity].
  - unfold try_except, bind, read_text in Hparse.
    destruct (fs w !! default EmptyString (batch a)) as [content |].
    + destruct (decode_text E content) as [text | c msg]; cbn [of_lib] in Hparse.
      * injection Hparse as <- <-.
        split; [apply stripped_nonempty_nonempty | reflexivity].
      * destruct (isinstance (Exn c msg) [FileNotFoundError]);
          discriminate.
    + discriminate.
Qed.

End Batch.

(** *** The driver on sample runs *)

Module DriverDocs.

Import Sample.

(** [id1] with no version given *)
Definition latest : args :=
  Args (Some id1) None None "chrome" false false None false false.

(** [sample --platform firefox] *)
Definition firefox_sample : args :=
  Args (Some "sample") None None "firefox" false false None false false.

(** Every request is answered with the sample package. *)
Definition E_package : env := env_of (always (NetResp (ok_response crx_package))).

(** The first request is answered with the JSON [doc], the later ones with
    the sample archive. *)
Definition E_addon (doc : value) : env :=
  Env (fun n _ => NetResp (ok_response (match n with O => [] | _ => payload end)))
      (fun _ => Gives doc)
      (fun _ => "None")
      (fun _ => Throws ValueError "invalid literal for int() with base 10")
      false
      (fun _ => Throws UnicodeDecodeError "invalid start byte")
      (fun _ => None)
      (fun p => "/home/user/" +:+ p).

Definition listing : list (string * value) :=
  [("results", JArr [JObj [("version", JStr "2.0")];
                     JObj [("version", JStr "1.0")]])].

Definition nameless_listing : list (string * value) :=
  [("results", JArr [JObj [("version", JStr "2.0")];
                     JObj [("id", JStr "41")]])].

Definition w0 : world := initial_world ∅.

End DriverDocs.

Lemma rejected_identifier_sends_nothing_witness :
  net_log (snd (process_id DriverSamples.E_numbered DriverSamples.one_id 0 1
                  "not an identifier" DriverDocs.w0)) = [].
Proof.
  apply (rejected_identifier_sends_nothing DriverSamples.E_numbered
           DriverSamples.one_id 0 1 "not an identifier" DriverDocs.w0).
  left. vm_compute. reflexivity.
Defined.

Lemma download_loop_stops_at_invalid_witness :
  download_loop DriverSamples.E_numbered DriverSamples.one_id 0 3
    ([Sample.id1] ++ "not an identifier" :: [Sample.id2]) DriverDocs.w0 =
    download_loop DriverSamples.E_numbered DriverSamples.one_id 0 3
      ([Sample.id1] ++ ["not an identifier"]) DriverDocs.w0 /\
  fst (download_loop DriverSamples.E_numbered DriverSamples.one_id 0 3
         ([Sample.id1] ++ "not an identifier" :: [Sample.id2]) DriverDocs.w0)
    = Raise (SystemExit 1).
Proof.
  apply (download_loop_stops_at_invalid DriverSamples.E_numbered
           DriverSamples.one_id [Sample.id1] [Sample.id2] "not an identifier"
           0 3 DriverDocs.w0).
  - reflexivity.
  - vm_compute. reflexivity.
Defined.

Lemma list_versions_prints_names_witness :
  stdout (snd (list_versions_mode
                 (ResolverDocs.env_with (JObj DriverDocs.listing))
                 ["sample"] "firefox" DriverDocs.w0)) =
    stdout DriverDocs.w0 ++
    ["Available versions for " +:+ "sample" +:+ ": " +:+
     join_names ", " ["2.0"; "1.0"]].
Proof.
  apply (list_versions_prints_names
           (ResolverDocs.env_with (JObj DriverDocs.listing))
           "sample" DriverDocs.w0 (Sample.ok_response []) DriverDocs.listing
           [JObj [("version", JStr "2.0")]; JObj [("version", JStr "1.0")]]
           ["2.0"; "1.0"]);
    try reflexivity.
  - left. reflexivity.
  - repeat constructor; eexists; split; reflexivity.
Defined.

Lemma list_versions_nameless_entry_witness :
  exists msg,
    stdout (snd (list_versions_mode
                   (ResolverDocs.env_with (JObj DriverDocs.nameless_listing))
                   ["sample"] "firefox" DriverDocs.w0)) =
      stdout DriverDocs.w0 ++ ["Error listing versions: " +:+ msg].
Proof.
  apply (list_versions_nameless_entry
           (ResolverDocs.env_with (JObj DriverDocs.nameless_listing))
           "sample" DriverDocs.w0 (Sample.ok_response [])
           DriverDocs.nameless_listing
           [JObj [("version", JStr "2.0")]; JObj [("id", JStr "41")]]);
    try reflexivity.
  - repeat constructor; eexists; reflexivity.
  - apply Exists_cons_tl, Exists_cons_hd.
    eexists. split; [reflexivity |]. intros s. discriminate.
Defined.

Lemma chrome_pass_saves_archive_witness :
  fst (process_id DriverDocs.E_package DriverSamples.one_id 0 1 Sample.id1
         DriverDocs.w0) = Ok tt /\
  fs (snd (process_id DriverDocs.E_package DriverSamples.one_id 0 1 Sample.id1
             DriverDocs.w0)) =
    <[out_file_of DriverSamples.one_id Sample.id1 := Sample.payload]>
      (fs DriverDocs.w0) /\
  net_log (snd (process_id DriverDocs.E_package DriverSamples.one_id 0 1
                  Sample.id1 DriverDocs.w0)) =
    net_log DriverDocs.w0 ++
    [crx_request DriverDocs.E_package Sample.id1 (JStr "119.0.6045.0")] /\
  slept (snd (process_id DriverDocs.E_package DriverSamples.one_id 0 1
                Sample.id1 DriverDocs.w0)) = slept DriverDocs.w0.
Proof.
  apply (chrome_pass_saves_archive DriverDocs.E_package DriverSamples.one_id
           0 1 Sample.id1 "119.0.6045.0" DriverDocs.w0
           (Sample.ok_response Sample.crx_package) Sample.payload);
    first [discriminate | reflexivity | vm_compute; reflexivity].
Defined.

Lemma firefox_pass_saves_body_witness :
  fst (process_id (DriverDocs.E_addon ResolverDocs.addon)
         DriverDocs.firefox_sample 0 1 "sample" DriverDocs.w0) = Ok tt /\
  fs (snd (process_id (DriverDocs.E_addon ResolverDocs.addon)
             DriverDocs.firefox_sample 0 1 "sample" DriverDocs.w0)) =
    <[out_file_of DriverDocs.firefox_sample "sample" :=
        body (Sample.ok_response Sample.payload)]> (fs DriverDocs.w0) /\
  net_log (snd (process_id (DriverDocs.E_addon ResolverDocs.addon)
                  DriverDocs.firefox_sample 0 1 "sample" DriverDocs.w0)) =
    net_log DriverDocs.w0 ++
    [info_request "sample" None;
     xpi_request (DriverDocs.E_addon ResolverDocs.addon)
       ResolverDocs.xpi_location] /\
  slept (snd (process_id (DriverDocs.E_addon ResolverDocs.addon)
                DriverDocs.firefox_sample 0 1 "sample" DriverDocs.w0)) =
    slept DriverDocs.w0.
Proof.
  apply (firefox_pass_saves_body (DriverDocs.E_addon ResolverDocs.addon)
           DriverDocs.firefox_sample 0 1 "sample" DriverDocs.w0
           (Sample.ok_response []) (Sample.ok_response Sample.payload)
           [("slug", JStr "sample");
            ("current_version",
             JObj [("version", JStr "2.0");
                   ("file", JObj [("url", ResolverDocs.xpi_location)])])]
           [("version", JStr "2.0");
            ("file", JObj [("url", ResolverDocs.xpi_location)])]
           [("url", ResolverDocs.xpi_location)]
           ResolverDocs.xpi_location);
    first [exact I | reflexivity | vm_compute; reflexivity].
Defined.

Lemma chrome_pass_requests_witness :
  exists k,
    (1 <= k <= 3)%nat /\
    net_log (snd (process_id DriverSamples.E_down DriverDocs.latest 0 1
                    Sample.id1 DriverDocs.w0)) =
      net_log DriverDocs.w0 ++
      feed_request ::
      repeat (crx_request DriverSamples.E_down Sample.id1 (JStr "119.0.6045.0")) k.
Proof.
  apply (proj2 (chrome_pass_requests DriverSamples.E_down DriverDocs.latest
                  0 1 Sample.id1 DriverDocs.w0 eq_refl eq_refl eq_refl)
           eq_refl URLError "<urlopen error timed out>").
  reflexivity.
Defined.

Lemma batch_list_round_trip_witness :
  parse_ids DriverSamples.E_down
    (Sample.chrome_args (join_names "," [Sample.id1; Sample.id2; Sample.id1]))
    DriverDocs.w0 =
    (Ok [Sample.id1; Sample.id2; Sample.id1], DriverDocs.w0).
Proof.
  apply (batch_list_round_trip DriverSamples.E_down
           (Sample.chrome_args
              (join_names "," [Sample.id1; Sample.id2; Sample.id1]))
           [Sample.id1; Sample.id2; Sample.id1] DriverDocs.w0).
  - reflexivity.
  - simpl. lia.
  - repeat constructor; try discriminate; vm_compute; reflexivity.
Defined.

Lemma batch_ids_nonempty_witness :
  Forall (fun id => id <> EmptyString) ["a"; "b"] /\
  DriverDocs.w0 = DriverDocs.w0.
Proof.
  apply (batch_ids_nonempty DriverSamples.E_down
           (Sample.chrome_args " a ,, b,") ["a"; "b"]
           DriverDocs.w0 DriverDocs.w0).
  - reflexivity.
  - vm_compute. reflexivity.
Defined.

(** ** The exit status of a listing that fails *)

Section ListingStatus.

Context (E : env).

(** C9, as the program runs.  A listing of versions that fails ends the
    process with status 0, the status of a success: when the request of the
    listing raises, or is answered with an error status, the failure is
    printed on one line and [sys.exit(0)] follows it. *)
Theorem listing_failure_exits_zero (a : args) (id : string) (w : world) :
  list_versions a = true ->
  platform a = "firefox" ->
  opt_truthy (batch a) = false ->
  extension_id a = Some id -> id <> EmptyString ->
  let req := api_request (addon_versions_url (str_strip id)) in
  (forall c msg,
     net E (length (net_log w)) req = NetRaise c msg ->
     fst (run_main E (Parsed a) w) = 0 /\
     stdout (snd (run_main E (Parsed a) w)) =
       stdout w ++ ["Error listing versions: " +:+ msg]) /\
  (forall resp,
     net E (length (net_log w)) req = NetResp resp ->
     error_status resp = true ->
     fst (run_main E (Parsed a) w) = 0 /\
     stdout (snd (run_main E (Parsed a) w)) =
       stdout w ++
       ["Error listing versions: " +:+
        ("HTTP Error " +:+ pretty (status resp) +:+ ": " +:+ reason resp)]).
Proof.
  intros Hlist Hp Hbatch Hid Hne req.
  set (w0 := with_threshold (if verbose a then INFO else WARNING) w).
  assert (Hparse : parse_ids E a w0 = (Ok [str_strip id], w0)).
  { unfold parse_ids. rewrite Hbatch. unfold opt_truthy, str_nonempty.
    rewrite Hid. apply String.eqb_neq in Hne. rewrite Hne. reflexivity. }
  assert (Hrun : run_main E (Parsed a) w =
            (0, printed (listing_report E (str_strip id)
                           (net E (length (net_log w)) req))
                  (sent req w0))).
  { unfold run_main. rewrite main_cases. fold w0. rewrite Hparse, Hlist, Hp.
    rewrite list_versions_mode_firefox. reflexivity. }
  rewrite Hrun. cbn [fst snd]. split.
  - intros c msg ->. split; reflexivity.
  - intros resp -> Herr. split; [reflexivity |].
    unfold listing_report. rewrite (opened_error resp Herr). reflexivity.
Qed.

End ListingStatus.

Lemma listing_failure_exits_zero_witness :
  fst (run_main DriverSamples.E_down (Parsed DriverSamples.list_firefox)
         DriverSamples.w0) = 0 /\
  stdout (snd (run_main DriverSamples.E_down (Parsed DriverSamples.list_firefox)
                 DriverSamples.w0)) =
    stdout DriverSamples.w0 ++
    ["Error listing versions: " +:+ "<urlopen error timed out>"].
Proof.
  apply (proj1 (listing_failure_exits_zero DriverSamples.E_down
                  DriverSamples.list_firefox "ublock-origin" DriverSamples.w0
                  eq_refl eq_refl eq_refl eq_refl ltac:(discriminate))
           URLError "<urlopen error timed out>").
  reflexivity.
Defined.

(** ** What the fetcher does not retry *)

(** X28. Either download gives up at once, after one request and no sleep,
    on a response of a success status other than 200, which it reports with
    the status in the message, and on an exception of the request that is
    neither a [URLError] nor an [OSError], which it lets through as it
    is. *)
Theorem fetcher_gives_up_at_once (E : env) (w : world) :
  (forall id ver resp,
     net E (length (net_log w)) (crx_request E id ver) = NetResp resp ->
     200 <= status resp < 300 -> status resp <> 200 ->
     exists w',
       download_crx_with_retry E id ver w =
         (Raise (Exn RuntimeError
                   ("HTTP " +:+ pretty (status resp) +:+ ": " +:+
                    reason resp)), w') /\
       net_log w' = net_log w ++ [crx_request E id ver] /\
       slept w' = slept w) /\
  (forall url resp,
     net E (length (net_log w)) (xpi_request E url) = NetResp resp ->
     200 <= status resp < 300 -> status resp <> 200 ->
     exists w',
       download_xpi_with_retry E url w =
         (Raise (Exn RuntimeError
                   ("Download failed: HTTP " +:+ pretty (status resp))), w') /\
       net_log w' = net_log w ++ [xpi_request E url] /\
       slept w' = slept w) /\
  (forall id ver c msg,
     net E (length (net_log w)) (crx_request E id ver) = NetRaise c msg ->
     isinstance (Exn c msg) transport = false ->
     exists w',
       download_crx_with_retry E id ver w = (Raise (Exn c msg), w') /\
       net_log w' = net_log w ++ [crx_request E id ver] /\
       slept w' = slept w) /\
  (forall url c msg,
     net E (length (net_log w)) (xpi_request E url) = NetRaise c msg ->
     isinstance (Exn c msg) transport = false ->
     exists w',
       download_xpi_with_retry E url w = (Raise (Exn c msg), w') /\
       net_log w' = net_log w ++ [xpi_request E url] /\
       slept w' = slept w).
Proof.
  repeat split.
  - intros id ver resp Hnet Hok Hst.
    destruct (crx_retry_outcome E id ver w 0) as (w' & Hrun & Hlog & Hslept).
    + lia.
    + intros i Hi. lia.
    + intros _. rewrite Nat.add_0_r, Hnet, crx_result_status by assumption.
      reflexivity.
    + exists w'. rewrite Hrun, Hlog, Hslept, Nat.add_0_r, Hnet.
      rewrite crx_result_status by assumption.
      unfold crx_sleeps. simpl. rewrite app_nil_r. auto.
  - intros url resp Hnet Hok Hst.
    destruct (xpi_retry_outcome E url w 0) as (w' & Hrun & Hlog & Hslept).
    + lia.
    + intros i Hi. lia.
    + intros _. rewrite Nat.add_0_r, Hnet, xpi_result_status by assumption.
      reflexivity.
    + exists w'. rewrite Hrun, Hlog, Hslept, Nat.add_0_r, Hnet.
      rewrite xpi_result_status by assumption.
      unfold xpi_sleeps. simpl. rewrite app_nil_r. auto.
  - intros id ver c msg Hnet Hcls.
    destruct (crx_retry_outcome E id ver w 0) as (w' & Hrun & Hlog & Hslept).
    + lia.
    + intros i Hi. lia.
    + intros _. rewrite Nat.add_0_r, Hnet. exact Hcls.
    + exists w'. rewrite Hrun, Hlog, Hslept, Nat.add_0_r, Hnet.
      unfold crx_sleeps. simpl. rewrite app_nil_r. auto.
  - intros url c msg Hnet Hcls.
    destruct (xpi_retry_outcome E url w 0) as (w' & Hrun & Hlog & Hslept).
    + lia.
    + intros i Hi. lia.
    + intros _. rewrite Nat.add_0_r, Hnet. exact Hcls.
    + exists w'. rewrite Hrun, Hlog, Hslept, Nat.add_0_r, Hnet.
      unfold xpi_sleeps. simpl. rewrite app_nil_r. auto.
Qed.

Lemma fetcher_gives_up_at_once_witness :
  exists w',
    download_crx_with_retry
      (Sample.env_of
         (Sample.always (NetResp (Sample.status_response 204 "No Content"))))
      Sample.id1 FetcherSamples.version FetcherSamples.w0 =
      (Raise (Exn RuntimeError "HTTP 204: No Content"), w') /\
    net_log w' =
      [crx_request
         (Sample.env_of
            (Sample.always (NetResp (Sample.status_response 204 "No Content"))))
         Sample.id1 FetcherSamples.version] /\
    slept w' = [].
Proof.
  apply (proj1 (fetcher_gives_up_at_once
                  (Sample.env_of
                     (Sample.always
                        (NetResp (Sample.status_response 204 "No Content"))))
                  FetcherSamples.w0)
           Sample.id1 FetcherSamples.version
           (Sample.status_response 204 "No Content"));
    [reflexivity | simpl; lia | simpl; lia].
Defined.
